(** * Solana AI Assistant: tool-augmented question answering

    A shallow embedding of the background service worker
    ([src/background.ts]) and of the chat part of the content script
    ([src/content.ts]) of the Solana AI Assistant browser extension,
    together with the properties of the two-round model exchange, of tool
    discovery and of the prompt builders, and further properties of the
    listener, of start-up, of storage changes and of navigation.

    Conventions.
    - Strings are byte strings; the non-ASCII templates are their UTF-8
      encodings, exactly as they stand in the source.
    - The external services (Gemini, the MCP tool service, chrome.storage,
      chrome.runtime) are parameters of the development: each call consumes
      and produces a [World] and is recorded in a trace.
    - A rejected promise / thrown exception is the [Throw] result; state
      written before the throw stays written, as in JavaScript.
    - [console.log] and friends are not modelled.
    - A handler runs to its end before the next one starts, with one
      exception: [sendChatMessage] takes the callbacks of the mutation
      observer that run while it awaits, since they remove the chat panel
      it writes to. *)

From Stdlib Require Import String Ascii List Bool ZArith QArith Lia DecimalString.
Import ListNotations.
Open Scope list_scope.
Open Scope string_scope.

Set Implicit Arguments.

(** ** JavaScript strings *)

Module Js.

(** [hay.includes(needle)] *)
Fixpoint includes (hay needle : string) : bool :=
  if String.prefix needle hay then true
  else match hay with
       | EmptyString => false
       | String _ rest => includes rest needle
       end.

(** [xs.join(sep)] on an array of strings *)
Fixpoint join (sep : string) (xs : list string) : string :=
  match xs with
  | [] => ""
  | [x] => x
  | x :: rest => x ++ sep ++ join sep rest
  end.

(** Truthiness of a string: only the empty string is falsy. *)
Definition truthy_string (s : string) : bool := negb (s =? "").

(** Truthiness of a possibly missing ([undefined]) string. *)
Definition truthy_opt (o : option string) : bool :=
  match o with
  | Some s => truthy_string s
  | None => false
  end.

(** [o || d] for a possibly missing string [o] and a string [d]. *)
Definition or_string (o : option string) (d : string) : string :=
  match o with
  | Some s => if truthy_string s then s else d
  | None => d
  end.

(** Property names that every object literal inherits from
    [Object.prototype].  A computed member access [obj[key]] with one of
    these keys, on an object that has no own property of that name, yields
    the inherited member (a built-in function; for [__proto__] the prototype
    object itself), not [undefined]. *)
Definition Object_prototype_names : list string :=
  [ "constructor"; "hasOwnProperty"; "isPrototypeOf"; "propertyIsEnumerable";
    "toLocaleString"; "toString"; "valueOf"; "__proto__";
    "__defineGetter__"; "__defineSetter__"; "__lookupGetter__";
    "__lookupSetter__" ].

Definition mem_string (x : string) (xs : list string) : bool :=
  existsb (String.eqb x) xs.

(** Own-property lookup in an object literal, in source order. *)
Fixpoint own {V : Type} (obj : list (string * V)) (key : string) : option V :=
  match obj with
  | [] => None
  | (k, v) :: rest => if k =? key then Some v else own rest key
  end.

(** The outcome of [obj[key]] on an object literal with values in [V]. *)
Inductive Lookup (V : Type) : Type :=
| Own (v : V)
| Inherited (name : string)
| Undefined.
Arguments Inherited {V} name.
Arguments Undefined {V}.

Definition get {V : Type} (obj : list (string * V)) (key : string) : Lookup V :=
  match own obj key with
  | Some v => Own v
  | None => if mem_string key Object_prototype_names then Inherited key
            else Undefined
  end.

(** The values a string-valued table lookup can produce. *)
Inductive Value : Type :=
| Str (s : string)
| Member (name : string)   (* a member inherited from Object.prototype *)
| Undef.

Definition get_string (obj : list (string * string)) (key : string) : Value :=
  match get obj key with
  | Own s => Str s
  | Inherited n => Member n
  | Undefined => Undef
  end.

Definition truthy (v : Value) : bool :=
  match v with
  | Str s => truthy_string s
  | Member _ => true
  | Undef => false
  end.

(** [a || b] *)
Definition or (a b : Value) : Value := if truthy a then a else b.

(** ToString, as applied by [+] and by template literals.  An inherited
    built-in function prints as its native source text (V8's rendering);
    [constructor] is the function [Object], and [__proto__] is the prototype
    object. *)
Definition member_text (name : string) : string :=
  if name =? "__proto__" then "[object Object]"
  else if name =? "constructor" then "function Object() { [native code] }"
  else "function " ++ name ++ "() { [native code] }".

Definition to_string (v : Value) : string :=
  match v with
  | Str s => s
  | Member n => member_text n
  | Undef => "undefined"
  end.

(** [a + b] when neither operand is a number: string concatenation. *)
Definition plus (a b : Value) : string := to_string a ++ to_string b.

End Js.

(** ** Data model ([interface] declarations of background.ts) *)

Inductive Role : Type := user | assistant.

Definition role_text (r : Role) : string :=
  match r with
  | user => "user"
  | assistant => "assistant"
  end.

Record ChatMessage : Type := mkChatMessage {
  role : Role;
  content : string
}.

(** ** Prompt builder *)

(** [conversationHistory.map(msg => `${msg.role}: ${msg.content}`).join('\n')] *)
Definition history_text (conversationHistory : list ChatMessage) : string :=
  Js.join "
" (map (fun msg => role_text (role msg) ++ ": " ++ content msg) conversationHistory).

(** The [prompts] table of [getTransactionSummaryPrompt]. *)
Definition summaryPrompts (signature : string) : list (string * string) :=
  [ ("zh-CN",
     "请分析这个Solana交易签名：" ++ signature ++ "

请提供以下信息：
1. 交易概述（Transaction Overview）
2. 涉及的账户（Accounts Involved）
3. 代币转账详情（Token Transfers）
4. 程序调用（Program Calls）
5. 交易费用（Transaction Fee）
6. 任何值得注意的风险或异常（Notable Risks or Anomalies）

请使用中文回复，并提供详细的技术分析。如果需要获取交易数据，请使用可用的工具。");
    ("en-US",
     "Please analyze this Solana transaction signature: " ++ signature ++ "

Please provide the following information:
1. Transaction Overview
2. Accounts Involved
3. Token Transfer Details
4. Program Calls
5. Transaction Fee
6. Any notable risks or anomalies

Please respond in English and provide detailed technical analysis. Use available tools if you need to fetch transaction data.");
    ("ja-JP",
     "このSolana取引署名を分析してください：" ++ signature ++ "

以下の情報を提供してください：
1. 取引概要（Transaction Overview）
2. 関与するアカウント（Accounts Involved）
3. トークン転送の詳細（Token Transfers）
4. プログラム呼び出し（Program Calls）
5. 取引手数料（Transaction Fee）
6. 注目すべきリスクや異常（Notable Risks or Anomalies）

日本語で回答し、詳細な技術分析を提供してください。取引データを取得する必要がある場合は、利用可能なツールを使用してください。");
    ("ko-KR",
     "이 Solana 거래 서명을 분석하십시오: " ++ signature ++ "

다음 정보를 제공하십시오:
1. 거래 개요 (Transaction Overview)
2. 관련 계정 (Accounts Involved)
3. 토큰 전송 세부사항 (Token Transfers)
4. 프로그램 호출 (Program Calls)
5. 거래 수수료 (Transaction Fee)
6. 주목할 만한 위험 또는 이상 (Notable Risks or Anomalies)

한국어로 답변하고 상세한 기술 분석을 제공하십시오. 거래 데이터를 가져와야 하는 경우 사용 가능한 도구를 사용하십시오.") ].

(** [getTransactionSummaryPrompt(signature, language)] *)
Definition getTransactionSummaryPrompt (signature language : string) : Js.Value :=
  let prompts := summaryPrompts signature in
  Js.or (Js.get_string prompts language) (Js.get_string prompts "en-US").

(** The [basePrompts] table of [getChatPrompt]. *)
Definition basePrompts (signature userMessage : string) (conversationHistory : list ChatMessage) : list (string * string) :=
  [ ("zh-CN",
     "你正在分析Solana交易签名：" ++ signature ++ "

对话历史：
" ++ history_text conversationHistory ++ "

用户问题：" ++ userMessage ++ "

请基于交易数据提供准确、有帮助的回答。如果需要获取更多交易信息，请使用可用的工具。请用中文回复。");
    ("en-US",
     "You are analyzing a Solana transaction signature: " ++ signature ++ "

Conversation history:
" ++ history_text conversationHistory ++ "

User question: " ++ userMessage ++ "

Please provide an accurate and helpful response based on transaction data. Use available tools if you need to fetch more transaction information. Please respond in English.");
    ("ja-JP",
     "Solana取引署名を分析しています：" ++ signature ++ "

会話履歴：
" ++ history_text conversationHistory ++ "

ユーザー質問：" ++ userMessage ++ "

取引データに基づいて正確で役立つ回答を提供してください。より多くの取引情報を取得する必要がある場合は、利用可能なツールを使用してください。日本語で回答してください。");
    ("ko-KR",
     "Solana 거래 서명을 분석하고 있습니다: " ++ signature ++ "

대화 기록:
" ++ history_text conversationHistory ++ "

사용자 질문: " ++ userMessage ++ "

거래 데이터를 기반으로 정확하고 도움이 되는 답변을 제공하십시오. 더 많은 거래 정보를 가져와야 하는 경우 사용 가능한 도구를 사용하십시오. 한국어로 답변하십시오.") ].

(** [getChatPrompt(signature, userMessage, conversationHistory, language)] *)
Definition getChatPrompt (signature userMessage : string)
    (conversationHistory : list ChatMessage) (language : string) : Js.Value :=
  let basePrompts := basePrompts signature userMessage conversationHistory in
  Js.or (Js.get_string basePrompts language) (Js.get_string basePrompts "en-US").

(** The language codes that have a template. *)
Definition supported_languages : list string := ["zh-CN"; "en-US"; "ja-JP"; "ko-KR"].

(** ** Interfaces of background.ts *)

(** A thrown [Error]; only its [message] is ever read. *)
Record Error : Type := mkError { message : string }.

Inductive Result (A : Type) : Type :=
| Ok (a : A)
| Throw (e : Error).
Arguments Throw {A} e.

(** A JavaScript number of the settings.  Every finite double is a rational,
    and the settings are only compared with zero and passed through. *)
Definition number : Type := Q.

(** The double nearest to the literal [0.7]. *)
Definition double_0_7 : number := 3152519739159347 # 4503599627370496.

Definition truthy_number (x : number) : bool := negb (Qeq_bool x 0).

Record Settings : Type := mkSettings {
  geminiApiKey : string;
  mcpUrl : string;
  geminiModel : string;
  temperature : number;
  maxTokens : Z;
  responseLanguage : string
}.

(** What [chrome.storage.sync.get([...])] resolves to: each key may be
    missing. *)
Record StorageItems : Type := mkStorageItems {
  stored_geminiApiKey : option string;
  stored_mcpUrl : option string;
  stored_geminiModel : option string;
  stored_temperature : option number;
  stored_maxTokens : option Z;
  stored_responseLanguage : option string
}.

Record GoogleGenAI : Type := mkGoogleGenAI { apiKey : string }.

Record URL : Type := mkURL { href : string }.

Record StreamableHTTPClientTransport : Type := mkTransport {
  transport_url : URL;
  transport_headers : list (string * string)
}.

Record Client : Type := mkClient {
  client_name : string;
  client_version : string
}.

(** State of [chrome.runtime] as seen by the content script. *)
Inductive Runtime : Type :=
| NoRuntime                         (* [!chrome || !chrome.runtime] *)
| NoExtensionId                     (* [!chrome.runtime.id] *)
| RuntimeReady (id : string).

Section Extension.

(** The outside world and the opaque data that crosses its boundary. *)
Variable World : Type.
Variable Args : Type.     (* [call.args]: arguments chosen by the model *)
Variable Payload : Type.  (* a tool result, parsed from the service's reply *)
Variable Schema : Type.   (* [inputSchema.properties] *)

Record InputSchema : Type := mkInputSchema {
  schema_properties : option Schema;
  schema_required : option (list string)
}.

Record MCPTool : Type := mkMCPTool {
  tool_name : string;
  tool_description : option string;
  inputSchema : option InputSchema
}.

Record Parameters : Type := mkParameters {
  param_type : string;
  properties : Schema;
  required : list string
}.

Record FunctionDeclaration : Type := mkFunctionDeclaration {
  decl_name : string;
  decl_description : string;
  parameters : Parameters
}.

Record ToolGroup : Type := mkToolGroup {
  functionDeclarations : list FunctionDeclaration
}.

(** The value of [this.geminiTools] when not [null]: a one-element array. *)
Definition GeminiTools : Type := list ToolGroup.

(** One element of [contents]: [{ role, parts: [{ text }] }]. *)
Record Content : Type := mkContent {
  content_role : string;
  parts : list Js.Value
}.

Record GenerationConfig : Type := mkGenerationConfig {
  gen_temperature : number;
  maxOutputTokens : Z
}.

(** [tools] is [None] both when the key is absent and when it is [null]. *)
Record Config : Type := mkConfig {
  generationConfig : GenerationConfig;
  tools : option GeminiTools
}.

Record GenerateContentRequest : Type := mkRequest {
  model : string;
  config : Config;
  contents : list Content
}.

Record FunctionCall : Type := mkFunctionCall {
  call_name : string;
  call_args : Args
}.

Record Part : Type := mkPart {
  text : option string;
  functionCall : option FunctionCall
}.

Record ResponseContent : Type := mkResponseContent {
  response_parts : option (list Part)
}.

Record Candidate : Type := mkCandidate {
  candidate_content : option ResponseContent
}.

Record GenerateContentResponse : Type := mkResponse {
  candidates : option (list Candidate)
}.

Record ListToolsResult : Type := mkListToolsResult {
  listed_tools : option (list MCPTool)
}.

(** An element of [toolResults]: [{ tool, result }] or [{ tool, error }]. *)
Inductive ToolResult : Type :=
| ToolSuccess (tool : string) (result : Payload)
| ToolFailure (tool : string) (error : string).

Definition tool (r : ToolResult) : string :=
  match r with
  | ToolSuccess t _ => t
  | ToolFailure t _ => t
  end.

(** [r.result]; [undefined] on a failure entry, which has no such key. *)
Definition result (r : ToolResult) : option Payload :=
  match r with
  | ToolSuccess _ p => Some p
  | ToolFailure _ _ => None
  end.

(** [r.error] *)
Definition error (r : ToolResult) : option string :=
  match r with
  | ToolSuccess _ _ => None
  | ToolFailure _ e => Some e
  end.

Record TransactionSummaryResponse : Type := mkSummaryResponse {
  summary : string;
  summary_toolCalls : list FunctionCall;
  summary_toolResults : list ToolResult
}.

Record ChatResponse : Type := mkChatResponse {
  response : string;
  toolCalls : list FunctionCall;
  toolResults : list ToolResult
}.

Record MessageRequest : Type := mkMessageRequest {
  action : string;
  req_signature : option string;
  req_message : option string;
  req_history : option (list ChatMessage)
}.

(** ** External services

    Everything the extension calls but does not implement.  A call that
    reaches a service takes the current [World] and returns the next one. *)

Class Services : Type := {
  (** the object literal [{}] *)
  empty_object : Schema;
  (** [JSON.stringify(payload, null, 2)]; a payload is JSON data received
      from the tool service, on which stringification is total *)
  JSON_stringify : Payload -> string;
  (** [chrome.storage.sync.get([...])] *)
  storage_sync_get : World -> Result StorageItems * World;
  (** [new GoogleGenAI({ apiKey })] *)
  new_GoogleGenAI : string -> Result GoogleGenAI;
  (** [new URL(mcpUrl)], which throws on a malformed URL *)
  new_URL : string -> Result URL;
  (** [mcpClient.connect(transport)] *)
  Client_connect :
    StreamableHTTPClientTransport -> World -> Result unit * World;
  (** [mcpClient.listTools()] *)
  Client_listTools : World -> Result ListToolsResult * World;
  (** [mcpClient.callTool({ name, arguments })] *)
  Client_callTool : string -> Args -> World -> Result Payload * World;
  (** [genAI.models.generateContent(request)] *)
  models_generateContent :
    GoogleGenAI -> GenerateContentRequest -> World ->
    Result GenerateContentResponse * World;
  (** [chrome.runtime] and [chrome.runtime.id] *)
  chrome_runtime : World -> Runtime
}.

Context {svc : Services}.

(** Calls that leave the extension, in the order they are made. *)
Inductive Event : Type :=
| EvStorageGet
| EvConnect (transport : StreamableHTTPClientTransport)
| EvListTools
| EvCallTool (name : string) (args : Args)
| EvGenerateContent (request : GenerateContentRequest).

(** Calls to the language model. *)
Definition is_model_call (ev : Event) : bool :=
  match ev with
  | EvGenerateContent _ => true
  | _ => false
  end.

(** Invocations of a tool. *)
Definition is_tool_invocation (ev : Event) : bool :=
  match ev with
  | EvCallTool _ _ => true
  | _ => false
  end.

(** Calls made by tool discovery. *)
Definition is_discovery_call (ev : Event) : bool :=
  match ev with
  | EvConnect _ | EvListTools => true
  | _ => false
  end.

(** The calls that reach the tool service when the requests [calls] are
    executed: one per request, in request order, provided a client handle
    exists; without a handle [callMCPTool] throws before calling out. *)
Definition tool_service_calls (client : option Client)
    (calls : list FunctionCall) : list Event :=
  match client with
  | Some _ => map (fun call => EvCallTool (call_name call) (call_args call)) calls
  | None => []
  end.

(** ** A state and exception monad over an object [T] and the world *)

Record St (T : Type) : Type := mkSt {
  this : T;
  world : World;
  trace : list Event
}.

Definition M (T A : Type) : Type := St T -> Result A * St T.

Definition ret {T A : Type} (a : A) : M T A := fun s => (Ok a, s).

Definition bind {T A B : Type} (m : M T A) (k : A -> M T B) : M T B :=
  fun s =>
    match m s with
    | (Ok a, s') => k a s'
    | (Throw e, s') => (Throw e, s')
    end.

Definition throw {T A : Type} (e : Error) : M T A := fun s => (Throw e, s).

(** [try { m } catch (error) { h error }] *)
Definition try_catch {T A : Type} (m : M T A) (h : Error -> M T A) : M T A :=
  fun s =>
    match m s with
    | (Ok a, s') => (Ok a, s')
    | (Throw e, s') => h e s'
    end.

Definition gets {T A : Type} (f : T -> A) : M T A :=
  fun s => (Ok (f (this s)), s).

Definition modify {T : Type} (f : T -> T) : M T unit :=
  fun s => (Ok tt, mkSt (f (this s)) (world s) (trace s)).

(** Evaluation of an expression that may throw but touches no state. *)
Definition lift {T A : Type} (r : Result A) : M T A := fun s => (r, s).

(** [await] of a call to an external service: the call is recorded. *)
Definition await {T A : Type} (ev : Event)
    (call : World -> Result A * World) : M T A :=
  fun s =>
    let (r, w) := call (world s) in
    (r, mkSt (this s) w (trace s ++ [ev])%list).

(** Running a method of an object [U] held inside the object [T]. *)
Definition within {T U A : Type} (get : T -> U) (set : U -> T -> T)
    (m : M U A) : M T A :=
  fun s =>
    let (r, s') := m (mkSt (get (this s)) (world s) (trace s)) in
    (r, mkSt (set (this s') (this s)) (world s') (trace s')).

Declare Scope monad_scope.
Delimit Scope monad_scope with monad.
Notation "x <- m ;; k" := (bind m (fun x => k))
  (at level 61, m at next level, right associativity) : monad_scope.
Notation "m ;; k" := (bind m (fun _ => k))
  (at level 61, right associativity) : monad_scope.
Open Scope monad_scope.

(** ** The assistant of the background service worker *)

Record SolscanAIAssistant : Type := mkAssistant {
  genAI : option GoogleGenAI;
  settings : option Settings;
  mcpTools : option (list MCPTool);
  mcpClient : option Client;
  geminiTools : option GeminiTools
}.

(** The fields right after [new SolscanAIAssistant()]. *)
Definition new_SolscanAIAssistant : SolscanAIAssistant :=
  mkAssistant None None None None None.

Definition set_genAI (v : option GoogleGenAI) (a : SolscanAIAssistant) :=
  mkAssistant v (settings a) (mcpTools a) (mcpClient a) (geminiTools a).
Definition set_settings (v : option Settings) (a : SolscanAIAssistant) :=
  mkAssistant (genAI a) v (mcpTools a) (mcpClient a) (geminiTools a).
Definition set_mcpTools (v : option (list MCPTool)) (a : SolscanAIAssistant) :=
  mkAssistant (genAI a) (settings a) v (mcpClient a) (geminiTools a).
Definition set_mcpClient (v : option Client) (a : SolscanAIAssistant) :=
  mkAssistant (genAI a) (settings a) (mcpTools a) v (geminiTools a).
Definition set_geminiTools (v : option GeminiTools) (a : SolscanAIAssistant) :=
  mkAssistant (genAI a) (settings a) (mcpTools a) (mcpClient a) v.

Definition Method (A : Type) : Type := M SolscanAIAssistant A.

(** [loadSettings()] *)
Definition loadSettings : Method unit :=
  result <- await EvStorageGet storage_sync_get ;;
  modify (set_settings (Some {|
    geminiApiKey := Js.or_string (stored_geminiApiKey result) "";
    mcpUrl := Js.or_string (stored_mcpUrl result) "";
    geminiModel := Js.or_string (stored_geminiModel result) "gemini-2.5-pro";
    temperature :=
      match stored_temperature result with
      | Some t => if truthy_number t then t else double_0_7
      | None => double_0_7
      end;
    maxTokens :=
      match stored_maxTokens result with
      | Some n => if (n =? 0)%Z then 2048%Z else n
      | None => 2048%Z
      end;
    responseLanguage := Js.or_string (stored_responseLanguage result) "zh-CN"
  |})).

(** [initializeGemini()] *)
Definition initializeGemini : Method unit :=
  st <- gets settings ;;
  match st with
  | Some st =>
      if Js.truthy_string (geminiApiKey st) then
        try_catch
          (g <- lift (new_GoogleGenAI (geminiApiKey st)) ;;
           modify (set_genAI (Some g)))
          (fun _ => ret tt)
      else ret tt
  | None => ret tt
  end.

(** [convertMCPToolsToGemini(mcpTools)] *)
Definition convertMCPToolsToGemini (mcpTools : list MCPTool) : option GeminiTools :=
  match mcpTools with
  | [] => None
  | _ =>
      let functionDeclarations :=
        map (fun tool => {|
               decl_name := tool_name tool;
               decl_description := Js.or_string (tool_description tool) "";
               parameters := {|
                 param_type := "object";
                 properties :=
                   match inputSchema tool with
                   | Some sch =>
                       match schema_properties sch with
                       | Some p => p
                       | None => empty_object
                       end
                   | None => empty_object
                   end;
                 required :=
                   match inputSchema tool with
                   | Some sch =>
                       match schema_required sch with
                       | Some r => r
                       | None => []
                       end
                   | None => []
                   end
               |}
             |}) mcpTools in
      Some [ {| functionDeclarations := functionDeclarations |} ]
  end.

(** [loadMCPTools()] *)
Definition loadMCPTools : Method unit :=
  st <- gets settings ;;
  match st with
  | None => ret tt
  | Some st =>
      if negb (Js.truthy_string (mcpUrl st)) then ret tt
      else
        client <- gets mcpClient ;;
        match client with
        | Some _ => ret tt
        | None =>
            try_catch
              (url <- lift (new_URL (mcpUrl st)) ;;
               let transport :=
                 mkTransport url [("Content-Type", "application/json")] in
               modify (set_mcpClient
                         (Some (mkClient "solscan-ai-extension" "1.0.0"))) ;;
               await (EvConnect transport) (Client_connect transport) ;;
               toolsResponse <- await EvListTools Client_listTools ;;
               let tools :=
                 match listed_tools toolsResponse with
                 | Some ts => ts
                 | None => []
                 end in
               modify (set_mcpTools (Some tools)) ;;
               modify (set_geminiTools (convertMCPToolsToGemini tools)))
              (fun _ => ret tt)
        end
  end.

(** [callMCPTool(toolName, parameters)] *)
Definition callMCPTool (toolName : string) (parameters : Args) : Method Payload :=
  client <- gets mcpClient ;;
  match client with
  | None => throw (mkError "MCP client not initialized")
  | Some _ =>
      try_catch
        (await (EvCallTool toolName parameters)
               (Client_callTool toolName parameters))
        (fun error => throw error)
  end.

(** [this.settings!]: reading a property of [null] throws a TypeError. *)
Definition settings_of (property : string) : Method Settings :=
  st <- gets settings ;;
  match st with
  | Some st => ret st
  | None =>
      throw (mkError ("Cannot read properties of null (reading '"
                      ++ property ++ "')"))
  end.

(** [response.candidates?.[0]?.content?.parts] *)
Definition candidate_parts (response : GenerateContentResponse) : option (list Part) :=
  match candidates response with
  | Some (c :: _) =>
      match candidate_content c with
      | Some k => response_parts k
      | None => None
      end
  | _ => None
  end.

(** [parts ? parts.find(part => part.text) : null], then
    [textPart ? textPart.text : fallback] *)
Definition first_text (ps : option (list Part)) (fallback : string) : string :=
  match ps with
  | Some ps =>
      match find (fun part => Js.truthy_opt (text part)) ps with
      | Some part => match text part with Some t => t | None => fallback end
      | None => fallback
      end
  | None => fallback
  end.

(** [parts ? parts.filter(part => part.functionCall) : []], then
    [.map(part => part.functionCall)] *)
Fixpoint function_calls_of (ps : list Part) : list FunctionCall :=
  match ps with
  | [] => []
  | part :: rest =>
      match functionCall part with
      | Some call => call :: function_calls_of rest
      | None => function_calls_of rest
      end
  end.

Definition requested_calls (ps : option (list Part)) : list FunctionCall :=
  match ps with
  | Some ps => function_calls_of ps
  | None => []
  end.

Definition user_content (t : Js.Value) : Content :=
  {| content_role := "user"; parts := [t] |}.

(** The object literal passed to [generateContent]:
    [{ model, config: { generationConfig, tools }, contents }]. *)
Definition request_of (st : Settings) (tools : option GeminiTools)
    (contents : list Content) : GenerateContentRequest :=
  {| model := geminiModel st;
     config := {|
       generationConfig := {|
         gen_temperature := temperature st;
         maxOutputTokens := maxTokens st |};
       tools := tools |};
     contents := contents |}.

(** [generateTransactionSummary(signature)] *)
Definition generateTransactionSummary (signature : string)
    : Method TransactionSummaryResponse :=
  g <- gets genAI ;;
  match g with
  | None =>
      throw (mkError "Gemini AI not initialized. Please configure your API key.")
  | Some g =>
      try_catch
        (st <- settings_of "responseLanguage" ;;
         let prompt := getTransactionSummaryPrompt signature (responseLanguage st) in
         let request := request_of st None [user_content prompt] in
         response <- await (EvGenerateContent request)
                           (models_generateContent g request) ;;
         let finalText :=
           first_text (candidate_parts response) "Unable to generate summary" in
         ret {| summary := finalText;
                summary_toolCalls := [];
                summary_toolResults := [] |})
        (fun error => throw error)
  end.

(** [`Tool: ${result.tool}\nResult: ${JSON.stringify(result.result, null, 2)}`];
    [JSON.stringify(undefined, null, 2)] is [undefined], which the template
    literal prints as the word. *)
Definition tool_result_text (r : ToolResult) : string :=
  "Tool: " ++ tool r ++ "
Result: " ++ match result r with
             | Some payload => JSON_stringify payload
             | None => "undefined"
             end.

(** [toolResults.map(...).join('\n\n')] *)
Definition toolResultsText (toolResults : list ToolResult) : string :=
  Js.join "

" (map tool_result_text toolResults).

(** The [finalPromptAdditions] table of [chatWithTransaction]. *)
Definition finalPromptAdditions (toolResultsText : string) : list (string * string) :=
  [ ("zh-CN",
     "

工具调用结果:
" ++ toolResultsText ++ "

请基于以上工具调用结果提供完整的交易分析总结。");
    ("en-US",
     "

Tool Call Results:
" ++ toolResultsText ++ "

Please provide a complete transaction analysis summary based on the above tool call results.");
    ("ja-JP",
     "

ツール呼び出し結果:
" ++ toolResultsText ++ "

上記のツール呼び出し結果に基づいて完全な取引分析サマリーを提供してください。");
    ("ko-KR",
     "

도구 호출 결과:
" ++ toolResultsText ++ "

위의 도구 호출 결과를 기반으로 완전한 거래 분석 요약을 제공하십시오.") ].

(** [finalPromptAdditions[language] || finalPromptAdditions['en-US']] *)
Definition finalPromptAddition (toolResultsText language : string) : Js.Value :=
  let additions := finalPromptAdditions toolResultsText in
  Js.or (Js.get_string additions language) (Js.get_string additions "en-US").

(** The heading and the closing sentence that the templates of
    [finalPromptAdditions] put around [toolResultsText], per language. *)
Definition tool_results_sections : list (string * (string * string)) :=
  [
    ("zh-CN", ("

工具调用结果:
",
            "

请基于以上工具调用结果提供完整的交易分析总结。"));
    ("en-US", ("

Tool Call Results:
",
            "

Please provide a complete transaction analysis summary based on the above tool call results."));
    ("ja-JP", ("

ツール呼び出し結果:
",
            "

上記のツール呼び出し結果に基づいて完全な取引分析サマリーを提供してください。"));
    ("ko-KR", ("

도구 호출 결과:
",
            "

위의 도구 호출 결과를 기반으로 완전한 거래 분석 요약을 제공하십시오.")) ].

(** The [for (const call of functionCalls)] loop of [chatWithTransaction];
    [toolResults] is the array pushed to. *)
Fixpoint execute_tool_calls (functionCalls : list FunctionCall)
    (toolResults : list ToolResult) : Method (list ToolResult) :=
  match functionCalls with
  | [] => ret toolResults
  | call :: rest =>
      entry <- try_catch
                 (toolResult <- callMCPTool (call_name call) (call_args call) ;;
                  ret (ToolSuccess (call_name call) toolResult))
                 (fun error => ret (ToolFailure (call_name call) (message error))) ;;
      execute_tool_calls rest (toolResults ++ [entry])%list
  end.

(** The [contents] built from the history:
    [{ role: msg.role === 'user' ? 'user' : 'model', parts: [{ text: msg.content }] }] *)
Definition history_contents (conversationHistory : list ChatMessage) : list Content :=
  map (fun msg => {|
         content_role := match role msg with user => "user" | assistant => "model" end;
         parts := [Js.Str (content msg)] |}) conversationHistory.

(** The lazy discovery at the head of [chatWithTransaction]:
    [if (!this.geminiTools) { await this.loadMCPTools(); ... }]. *)
Definition ensure_tools : Method unit :=
  gt <- gets geminiTools ;;
  match gt with
  | None =>
      loadMCPTools ;;
      gt' <- gets geminiTools ;;
      match gt' with
      | None => modify (set_geminiTools None)
      | Some _ => ret tt
      end
  | Some _ => ret tt
  end.

(** [chatWithTransaction(signature, userMessage, conversationHistory, language)].
    The [language] parameter is never read; the listener passes nothing. *)
Definition chatWithTransaction (signature userMessage : string)
    (conversationHistory : list ChatMessage) (language : option string)
    : Method ChatResponse :=
  g <- gets genAI ;;
  match g with
  | None => throw (mkError "Gemini AI not initialized")
  | Some g =>
      ensure_tools ;;
      try_catch
        (st <- settings_of "responseLanguage" ;;
         let context :=
           getChatPrompt signature userMessage [] (responseLanguage st) in
         let contents :=
           (history_contents conversationHistory ++ [user_content context])%list in
         geminiTools1 <- gets geminiTools ;;
         let request := request_of st geminiTools1 contents in
         response <- await (EvGenerateContent request)
                           (models_generateContent g request) ;;
         let responseParts := candidate_parts response in
         let finalText := first_text responseParts "" in
         let functionCalls := requested_calls responseParts in
         match functionCalls with
         | [] =>
             ret {| response := finalText; toolCalls := []; toolResults := [] |}
         | _ =>
             toolResults <- execute_tool_calls functionCalls [] ;;
             let finalPrompt :=
               Js.plus context
                 (finalPromptAddition (toolResultsText toolResults)
                                      (responseLanguage st)) in
             let finalContents := [user_content (Js.Str finalPrompt)] in
             geminiTools2 <- gets geminiTools ;;
             let finalRequest := request_of st geminiTools2 finalContents in
             finalResponse <- await (EvGenerateContent finalRequest)
                                    (models_generateContent g finalRequest) ;;
             ret {| response := first_text (candidate_parts finalResponse) "";
                    toolCalls := functionCalls;
                    toolResults := toolResults |}
         end)
        (fun error => throw error)
  end.

(** [reloadSettings()] *)
Definition reloadSettings : Method unit :=
  loadSettings ;; initializeGemini ;; loadMCPTools.

(** [reloadMCPTools()] *)
Definition reloadMCPTools : Method unit :=
  modify (set_mcpClient None) ;;
  modify (set_mcpTools None) ;;
  modify (set_geminiTools None) ;;
  loadMCPTools.

(** [init()] *)
Definition init : Method unit :=
  try_catch (loadSettings ;; initializeGemini ;; loadMCPTools)
            (fun _ => ret tt).

Record Diagnostics : Type := mkDiagnostics {
  assistantCreated : bool;
  assistantInitialized : bool;
  settingsLoaded : bool;
  geminiInitialized : bool;
  mcpToolsLoaded : bool
}.

Definition is_some {A : Type} (o : option A) : bool :=
  match o with Some _ => true | None => false end.

(** [getDiagnostics()]; [isInitialized] is the module-level flag. *)
Definition getDiagnostics (a : SolscanAIAssistant) (isInitialized : bool) : Diagnostics :=
  {| assistantCreated := true;
     assistantInitialized := isInitialized;
     settingsLoaded := is_some (settings a);
     geminiInitialized := is_some (genAI a);
     mcpToolsLoaded :=
       match mcpTools a with
       | Some (_ :: _) => true
       | _ => false
       end |}.

(** ** The message listener of the background script *)

(** Module-level state: [let assistant] and [let isInitialized]. *)
Record Background : Type := mkBackground {
  assistant_instance : option SolscanAIAssistant;
  isInitialized : bool
}.

(** What [sendResponse] is called with.  Every constructor but [Failure] is
    a [{ success: true, ... }] object; the timestamp and extension id of the
    ping reply are not kept, nothing reads them. *)
Inductive Response : Type :=
| DiagnosticsReply (diagnostics : Diagnostics)
| PingReply (reply_message : string)
| SummaryReply (data : TransactionSummaryResponse)
| ChatReply (data : ChatResponse)
| Success
| Failure (reply_error : string).

Definition success (r : Response) : bool :=
  match r with
  | Failure _ => false
  | _ => true
  end.

(** Running a method on the assistant instance [a] of the background. *)
Definition on_assistant {A : Type} (a : SolscanAIAssistant) (m : Method A)
    : M Background A :=
  within (fun _ => a)
         (fun a' bg => mkBackground (Some a') (isInitialized bg)) m.

(** The callback of [chrome.runtime.onMessage.addListener]; its value is the
    argument of the one [sendResponse] call made for the request. *)
Definition onMessage (request : MessageRequest) : M Background Response :=
  if action request =? "diagnostics" then
    bg <- gets (fun bg => bg) ;;
    ret (DiagnosticsReply
           match assistant_instance bg with
           | Some a => getDiagnostics a (isInitialized bg)
           | None => mkDiagnostics false false false false false
           end)
  else if action request =? "ping" then
    ret (PingReply "Extension is active (simplified mode)")
  else if action request =? "getTransactionSummary" then
    match req_signature request with
    | Some signature =>
        if Js.truthy_string signature then
          a <- gets assistant_instance ;;
          match a with
          | None => ret (Failure "AI assistant not initialized. Please check API keys.")
          | Some a =>
              try_catch
                (data <- on_assistant a (generateTransactionSummary signature) ;;
                 ret (SummaryReply data))
                (fun error =>
                   ret (Failure (Js.or_string (Some (message error))
                                              "Unknown error occurred")))
          end
        else ret (Failure "Transaction signature is required")
    | None => ret (Failure "Transaction signature is required")
    end
  else if action request =? "chatWithTransaction" then
    match req_signature request, req_message request with
    | Some signature, Some userMessage =>
        if Js.truthy_string signature && Js.truthy_string userMessage then
          a <- gets assistant_instance ;;
          match a with
          | None => ret (Failure "AI assistant not initialized. Please check API keys.")
          | Some a =>
              try_catch
                (data <- on_assistant a
                           (chatWithTransaction signature userMessage
                              match req_history request with
                              | Some h => h
                              | None => []
                              end
                              None) ;;
                 ret (ChatReply data))
                (fun error =>
                   ret (Failure (Js.or_string (Some (message error))
                                              "Unknown error occurred")))
          end
        else ret (Failure "Transaction signature and message are required")
    | _, _ => ret (Failure "Transaction signature and message are required")
    end
  else if action request =? "reloadSettings" then
    a <- gets assistant_instance ;;
    match a with
    | None => ret (Failure "AI assistant not available")
    | Some a =>
        try_catch (on_assistant a reloadSettings ;; ret Success)
                  (fun error => ret (Failure (message error)))
    end
  else if action request =? "reloadMCPTools" then
    a <- gets assistant_instance ;;
    match a with
    | None => ret (Failure "AI assistant not available")
    | Some a =>
        try_catch (on_assistant a reloadMCPTools ;; ret Success)
                  (fun error => ret (Failure (message error)))
    end
  else ret (Failure ("Unknown action: " ++ action request)).

(** ** The content script (chat and summary requests) *)

(** The entries of [uiTranslations] read by the modelled code. *)
Record Translation : Type := mkTranslation {
  ui_error : string;
  errorResponse : string
}.

Definition uiTranslations : list (string * Translation) :=
  [ ("zh-CN", {| ui_error := "❌ 分析失败: "; errorResponse := "❌ 抱歉，出现错误: " |});
    ("en-US", {| ui_error := "❌ Analysis failed: "; errorResponse := "❌ Sorry, an error occurred: " |}) ].

(** [const t = uiTranslations[language] || uiTranslations['en-US']] followed
    by [t.field]: an own entry gives the field; an inherited member has no
    such property, so the field is [undefined]. *)
Definition translated (field : Translation -> string) (language : string) : Js.Value :=
  match Js.get uiTranslations language with
  | Js.Own t => Js.Str (field t)
  | Js.Inherited _ => Js.Undef
  | Js.Undefined =>
      match Js.get uiTranslations "en-US" with
      | Js.Own t => Js.Str (field t)
      | _ => Js.Undef
      end
  end.

Inductive Sender : Type := from_user | from_ai.

(** What the summary panel shows; of the error view only the first
    paragraph, the translated prefix followed by the error message. *)
Inductive SummaryView : Type :=
| Welcome
| Loading
| SummaryResult (summary : string)
| SummaryError (text : string).

(** The fields of the content script's class that the requests touch.
    [chatPanel] is [null] or the chat panel with the bubbles appended to it
    by [addChatMessage] (the welcome bubble is part of the panel's markup
    and is not counted); [summaryContent] is the state of the summary
    panel.  Rendering (markdown, typing indicator, scrolling) is not
    modelled. *)
Record ContentScript : Type := mkContentScript {
  transactionSignature : option string;
  isLoading : bool;
  conversationHistory : list ChatMessage;
  currentLanguage : string;
  chatPanel : option (list (Sender * string));
  summaryContent : SummaryView
}.

(** The bubbles on the page: those of the chat panel, if there is one. *)
Definition chatMessages (c : ContentScript) : list (Sender * string) :=
  match chatPanel c with
  | Some bubbles => bubbles
  | None => []
  end.

Definition set_isLoading (v : bool) (c : ContentScript) :=
  mkContentScript (transactionSignature c) v (conversationHistory c)
                  (currentLanguage c) (chatPanel c) (summaryContent c).
Definition set_conversationHistory (v : list ChatMessage) (c : ContentScript) :=
  mkContentScript (transactionSignature c) (isLoading c) v
                  (currentLanguage c) (chatPanel c) (summaryContent c).
Definition set_chatPanel (v : option (list (Sender * string))) (c : ContentScript) :=
  mkContentScript (transactionSignature c) (isLoading c) (conversationHistory c)
                  (currentLanguage c) v (summaryContent c).
Definition set_summaryContent (v : SummaryView) (c : ContentScript) :=
  mkContentScript (transactionSignature c) (isLoading c) (conversationHistory c)
                  (currentLanguage c) (chatPanel c) v.

(** *** Start-up and navigation *)

Definition set_transactionSignature (v : option string) (c : ContentScript) :=
  mkContentScript v (isLoading c) (conversationHistory c)
                  (currentLanguage c) (chatPanel c) (summaryContent c).
Definition set_currentLanguage (v : string) (c : ContentScript) :=
  mkContentScript (transactionSignature c) (isLoading c) (conversationHistory c)
                  v (chatPanel c) (summaryContent c).

(** [loadLanguageSetting()] *)
Definition loadLanguageSetting : M ContentScript unit :=
  try_catch
    (result <- await EvStorageGet storage_sync_get ;;
     modify (set_currentLanguage
               (Js.or_string (stored_responseLanguage result) "en-US")))
    (fun _ => modify (set_currentLanguage "en-US")).

(** [s.split('/')] *)
Fixpoint split_slash (s : string) : list string :=
  match s with
  | EmptyString => [""]
  | String c rest =>
      if Ascii.eqb c "/" then "" :: split_slash rest
      else match split_slash rest with
           | part :: parts => String c part :: parts
           | [] => [String c ""]
           end
  end.

(** [xs.findIndex(p)], with [None] for [-1] *)
Fixpoint findIndex {A : Type} (p : A -> bool) (xs : list A) : option nat :=
  match xs with
  | [] => None
  | x :: rest =>
      if p x then Some 0%nat
      else match findIndex p rest with
           | Some i => Some (S i)
           | None => None
           end
  end.

(** [extractTransactionSignature()], for the value [pathname] of
    [window.location.pathname] *)
Definition extractTransactionSignature (pathname : string) : option string :=
  let pathParts := split_slash pathname in
  match findIndex (fun part => part =? "tx") pathParts with
  | Some txIndex =>
      if Nat.ltb txIndex (length pathParts - 1)%nat
      then nth_error pathParts (txIndex + 1)%nat
      else None
  | None => None
  end.

(** [resetUI()]: the panels go, [chatPanel] is [null] again and its
    bubbles are gone with it; the history is emptied. *)
Definition resetUI (c : ContentScript) : ContentScript :=
  mkContentScript (transactionSignature c) (isLoading c) []
                  (currentLanguage c) None (summaryContent c).

(** [initializeUI()]: a fresh summary panel showing the welcome text (the
    two-second timer is not modelled). *)
Definition initializeUI (c : ContentScript) : ContentScript :=
  set_summaryContent Welcome c.

(** [init()] of the content script, for the values [href] and [pathname]
    of [window.location]: the language is loaded, the signature is read
    from the path, and a page without a signature is left alone.  Its value
    is the [currentUrl] captured by the mutation observer when
    [observePageChanges()] is reached, and [None] when it is not. *)
Definition ContentScript_init (href pathname : string)
    : M ContentScript (option string) :=
  loadLanguageSetting ;;
  modify (set_transactionSignature (extractTransactionSignature pathname)) ;;
  signature <- gets transactionSignature ;;
  if negb (Js.truthy_opt signature) then ret None
  else
    modify initializeUI ;;
    ret (Some href).

(** The content script together with [currentUrl], the variable captured
    by the mutation observer. *)
Record Observed : Type := mkObserved {
  currentUrl : string;
  script : ContentScript
}.

(** The callback of the [MutationObserver] once it has found the address
    changed, for the value [pathname] of [window.location]: a new,
    non-empty signature is taken and the panels are reset. *)
Definition navigate (pathname : string) (c : ContentScript) : ContentScript :=
  match extractTransactionSignature pathname with
  | Some newSignature =>
      if Js.truthy_string newSignature
         && negb match transactionSignature c with
                 | Some old => newSignature =? old
                 | None => false
                 end
      then initializeUI (resetUI (set_transactionSignature (Some newSignature) c))
      else c
  | None => c
  end.

(** The callback of the [MutationObserver] of [observePageChanges()], for
    the values [href] and [pathname] of [window.location]. *)
Definition onMutation (href pathname : string) (o : Observed) : Observed :=
  if negb (href =? currentUrl o) then mkObserved href (navigate pathname (script o))
  else o.

(** Callbacks of the observer that find the address changed, one after
    another; [seen] are the paths they see. *)
Definition navigations (seen : list string) (c : ContentScript) : ContentScript :=
  fold_left (fun c pathname => navigate pathname c) seen c.

(** The guard of [navigate], negated: a callback that sees [pathname]
    leaves a content script with the signature [current] as it is. *)
Definition keeps_transaction (current : option string) (pathname : string) : bool :=
  match extractTransactionSignature pathname with
  | Some newSignature =>
      negb (Js.truthy_string newSignature
            && negb match current with
                    | Some old => newSignature =? old
                    | None => false
                    end)
  | None => true
  end.


(** *** Requests to the background *)

(** A page with its content script, and the background it talks to. *)
Record Page : Type := mkPage {
  content_script : ContentScript;
  background : Background
}.

Definition Handler (A : Type) : Type := M Page A.

Definition on_content {A : Type} (m : M ContentScript A) : Handler A :=
  within content_script (fun c p => mkPage c (background p)) m.

(** [chrome.runtime.sendMessage(request)]: the listener runs in the
    background and its reply comes back. *)
Definition sendMessage (request : MessageRequest) : Handler Response :=
  within background (fun b p => mkPage (content_script p) b) (onMessage request).

(** [await m] in a handler of the content script.  While the promise is
    pending the event loop can run the callback of the mutation observer;
    [seen] lists the paths of the addresses it finds changed, in order
    (a callback that finds the address unchanged does nothing). *)
Definition awaiting {A : Type} (m : Handler A) (seen : list string) : Handler A :=
  fun s =>
    let (r, s') := m s in
    (r, mkSt (mkPage (navigations seen (content_script (this s')))
                     (background (this s')))
             (world s') (trace s')).

(** [this.chatPanel!.querySelector(...)]: on [null] the property read
    throws a TypeError. *)
Definition chatPanel_of : M ContentScript (list (Sender * string)) :=
  panel <- gets chatPanel ;;
  match panel with
  | Some bubbles => ret bubbles
  | None => throw (mkError "Cannot read properties of null (reading 'querySelector')")
  end.

(** [addChatMessage(type, content)] *)
Definition addChatMessage (type : Sender) (content : string) : Handler unit :=
  on_content
    (bubbles <- chatPanel_of ;;
     modify (set_chatPanel (Some (bubbles ++ [(type, content)])%list))).

(** The troubleshooting text chosen in the [catch] of
    [checkExtensionConnection]. *)
Definition troubleshootingSteps (error : Error) : string :=
  "

故障排除步骤：" ++
  (if Js.includes (message error) "Extension not properly loaded" then
     "
1. 重新加载扩展：转到 chrome://extensions
2. 确保扩展已启用
3. 刷新此页面"
   else if Js.includes (message error) "Chrome extension API not available" then
     "
1. 确保在Chrome浏览器中
2. 检查扩展是否正确安装
3. 尝试重新启动浏览器"
   else if Js.includes (message error) "No response from extension" then
     "
1. 检查浏览器控制台是否有错误
2. 重新加载扩展
3. 确保扩展有必要的权限
4. 尝试重新启动浏览器"
   else
     "
1. 重新加载扩展
2. 检查浏览器控制台的错误信息
3. 确保API密钥已正确配置
4. 尝试重新启动浏览器").

(** [checkExtensionConnection()] *)
Definition checkExtensionConnection : Handler bool :=
  try_catch
    (fun s =>
       match chrome_runtime (world s) with
       | NoRuntime => throw (mkError "Chrome extension API not available") s
       | NoExtensionId => throw (mkError "Extension not properly loaded") s
       | RuntimeReady _ =>
           (_ <- try_catch
                   (d <- sendMessage (mkMessageRequest "diagnostics" None None None) ;;
                    ret (Some d))
                   (fun _ => ret None) ;;
            response <- sendMessage (mkMessageRequest "ping" None None None) ;;
            match response with
            | Failure reply_error =>
                throw (mkError ("Extension background script returned error: "
                                ++ Js.or_string (Some reply_error) "Unknown error"))
            | _ => ret true
            end) s
       end)
    (fun error =>
       throw (mkError ("扩展连接失败: " ++ message error ++ troubleshootingSteps error))).

(** [response.data.response] of a reply with [success: true].  The listener
    answers a chat request with [ChatReply] or [Failure] only; on a reply
    without [data] the property read throws a TypeError. *)
Definition chat_response_of (r : Response) : Result string :=
  match r with
  | ChatReply data => Ok (response data)
  | _ => Throw (mkError "Cannot read properties of undefined (reading 'response')")
  end.

(** [sendChatMessage()]; [input] is [input.value.trim()], the [message] of
    the source.  [checking] and [replying] are what the mutation observer
    sees while the connection check and the reply to the chat request are
    awaited. *)
Definition sendChatMessage (input : string) (checking replying : list string)
    : Handler unit :=
  on_content chatPanel_of ;;
  if negb (Js.truthy_string input) then ret tt
  else
    addChatMessage from_user input ;;
    try_catch
      (awaiting checkExtensionConnection checking ;;
       signature <- on_content (gets transactionSignature) ;;
       history <- on_content (gets conversationHistory) ;;
       response <- awaiting (sendMessage {|
                     action := "chatWithTransaction";
                     req_signature := signature;
                     req_message := Some input;
                     req_history := Some history |}) replying ;;
       match response with
       | Failure reply_error => throw (mkError reply_error)
       | _ =>
           answer <- lift (chat_response_of response) ;;
           addChatMessage from_ai answer ;;
           on_content (modify (fun c =>
             set_conversationHistory
               (conversationHistory c
                ++ [ mkChatMessage user input;
                     mkChatMessage assistant answer ])%list c))
       end)
      (fun error =>
         language <- on_content (gets currentLanguage) ;;
         addChatMessage from_ai
           (Js.to_string (translated errorResponse language) ++ message error)).

(** [loadTransactionSummary()].  The element it writes to is taken before
    its awaits, so a callback of the observer that runs meanwhile does not
    make it throw; such callbacks are not modelled for this handler. *)
Definition loadTransactionSummary : Handler unit :=
  loading <- on_content (gets isLoading) ;;
  if loading then ret tt
  else
    on_content (modify (set_isLoading true)) ;;
    on_content (modify (set_summaryContent Loading)) ;;
    try_catch
      (checkExtensionConnection ;;
       signature <- on_content (gets transactionSignature) ;;
       response <- sendMessage {|
                     action := "getTransactionSummary";
                     req_signature := signature;
                     req_message := None;
                     req_history := None |} ;;
       match response with
       | Failure reply_error => throw (mkError reply_error)
       | SummaryReply data =>
           on_content (modify (set_summaryContent (SummaryResult (summary data))))
       | _ => throw (mkError "Cannot read properties of undefined (reading 'summary')")
       end)
      (fun error =>
         language <- on_content (gets currentLanguage) ;;
         on_content (modify (set_summaryContent
           (SummaryError (Js.to_string (translated ui_error language)
                          ++ message error))))) ;;
    on_content (modify (set_isLoading false)).

(** ** Predicates used by the properties *)

(** The ways in which tool discovery, run from the state [s], ends without
    a tool schema: the endpoint is not configured; an earlier attempt left a
    client handle behind; the endpoint is not a URL; connecting fails;
    listing fails; the service lists no tool. *)
Inductive discovery_without_tools (s : St SolscanAIAssistant) : Prop :=
| never_configured st :
    settings (this s) = Some st ->
    Js.truthy_string (mcpUrl st) = false ->
    discovery_without_tools s
| attempted_before st c :
    settings (this s) = Some st ->
    mcpClient (this s) = Some c ->
    discovery_without_tools s
| invalid_url st e :
    settings (this s) = Some st ->
    Js.truthy_string (mcpUrl st) = true ->
    mcpClient (this s) = None ->
    new_URL (mcpUrl st) = Throw e ->
    discovery_without_tools s
| connect_failed st url e w :
    settings (this s) = Some st ->
    Js.truthy_string (mcpUrl st) = true ->
    mcpClient (this s) = None ->
    new_URL (mcpUrl st) = Ok url ->
    Client_connect (mkTransport url [("Content-Type", "application/json")])
                   (world s) = (Throw e, w) ->
    discovery_without_tools s
| list_failed st url w e w' :
    settings (this s) = Some st ->
    Js.truthy_string (mcpUrl st) = true ->
    mcpClient (this s) = None ->
    new_URL (mcpUrl st) = Ok url ->
    Client_connect (mkTransport url [("Content-Type", "application/json")])
                   (world s) = (Ok tt, w) ->
    Client_listTools w = (Throw e, w') ->
    discovery_without_tools s
| zero_tools st url w r w' :
    settings (this s) = Some st ->
    Js.truthy_string (mcpUrl st) = true ->
    mcpClient (this s) = None ->
    new_URL (mcpUrl st) = Ok url ->
    Client_connect (mkTransport url [("Content-Type", "application/json")])
                   (world s) = (Ok tt, w) ->
    Client_listTools w = (Ok r, w') ->
    listed_tools r = None \/ listed_tools r = Some [] ->
    discovery_without_tools s.

(** A run of calls none of which is a discovery call. *)
Definition no_discovery (calls : list Event) : Prop :=
  forallb (fun ev => negb (is_discovery_call ev)) calls = true.

(** A method keeps the discovery latch: started with a client handle, it
    ends with the same handle, the same tool list and the same converted
    schema, and it makes no discovery call. *)
Definition keeps_latch {A : Type} (m : Method A) : Prop :=
  forall s c,
    mcpClient (this s) = Some c ->
    mcpClient (this (snd (m s))) = Some c /\
    mcpTools (this (snd (m s))) = mcpTools (this s) /\
    geminiTools (this (snd (m s))) = geminiTools (this s) /\
    exists calls, trace (snd (m s)) = (trace s ++ calls)%list /\
                  no_discovery calls.

(** A tool schema is only ever held together with a client handle. *)
Definition tools_need_client (a : SolscanAIAssistant) : Prop :=
  geminiTools a <> None -> mcpClient a <> None.

(** A method preserves a property of the assistant's fields. *)
Definition preserves (I : SolscanAIAssistant -> Prop) {A : Type}
    (m : Method A) : Prop :=
  forall s, I (this s) -> I (this (snd (m s))).

(** ** The rest of the background script: start-up and storage changes *)

(** Module level of background.ts: [assistant = new SolscanAIAssistant()],
    then [assistant.init().then(() => { isInitialized = true })].  The
    start-up is taken as one step; requests that arrive while [init] is
    still waiting are not modelled. *)
Definition startup : M Background unit :=
  modify (fun bg => mkBackground (Some new_SolscanAIAssistant) (isInitialized bg)) ;;
  try_catch
    (on_assistant new_SolscanAIAssistant init ;;
     modify (fun bg => mkBackground (assistant_instance bg) true))
    (fun _ => ret tt).

(** The module-level variables before the script has run. *)
Definition unloaded : Background := mkBackground None false.

(** The callback of [chrome.storage.onChanged.addListener]:
    [if (namespace === 'sync') assistant.loadSettings()]. *)
Definition onStorageChanged (namespace : string) : M Background unit :=
  if namespace =? "sync" then
    a <- gets assistant_instance ;;
    match a with
    | Some a => on_assistant a loadSettings
    | None =>
        throw (mkError "Cannot read properties of null (reading 'loadSettings')")
    end
  else ret tt.

(** What the background script reacts to after start-up. *)
Inductive BackgroundEvent : Type :=
| Message (request : MessageRequest)
| StorageChanged (namespace : string).

Definition handle (ev : BackgroundEvent) : M Background unit :=
  match ev with
  | Message request => _ <- onMessage request ;; ret tt
  | StorageChanged namespace => onStorageChanged namespace
  end.

(** The state after the events [evs] have been handled one after another. *)
Fixpoint run (evs : list BackgroundEvent) (s : St Background) : St Background :=
  match evs with
  | [] => s
  | ev :: rest => run rest (snd (handle ev s))
  end.

(** The background once started in the world [w]. *)
Definition booted (w : World) : St Background :=
  snd (startup (mkSt unloaded w [])).

(** ** Invariants of the assistant *)

(** The schema that belongs to a tool list. *)
Definition schema_of (tools : option (list MCPTool)) : option GeminiTools :=
  match tools with
  | Some ts => convertMCPToolsToGemini ts
  | None => None
  end.

(** What holds of the assistant's fields between any two requests: a model
    client exists only with loaded settings, the schema is the conversion
    of the tool list, and a tool list exists only with a client handle. *)
Definition well_formed (a : SolscanAIAssistant) : Prop :=
  (genAI a <> None -> settings a <> None) /\
  geminiTools a = schema_of (mcpTools a) /\
  (mcpTools a <> None -> mcpClient a <> None).

End Extension.

Arguments EvStorageGet {Args Schema}.
Arguments EvConnect {Args Schema} transport.
Arguments EvListTools {Args Schema}.
Arguments EvCallTool {Args Schema} name args.
Arguments EvGenerateContent {Args Schema} request.

(** ** A concrete instance: JSON data and a scripted world *)

Module Sample.

(** JSON values with integer numbers. *)
#[local] Unset Elimination Schemes.
Inductive Json : Type :=
| JNull
| JBool (b : bool)
| JNumber (n : Z)
| JString (s : string)
| JArray (items : list Json)
| JObject (fields : list (string * Json)).
#[local] Set Elimination Schemes.

Definition quote_char : ascii := ascii_of_nat 34.
Definition newline : string := String (ascii_of_nat 10) "".

Definition hex_digit (n : nat) : ascii :=
  if Nat.ltb n 10 then ascii_of_nat (48 + n) else ascii_of_nat (87 + n).

(** The JSON escape of one character. *)
Definition escape_char (c : ascii) : string :=
  let n := nat_of_ascii c in
  if Nat.eqb n 34 then "\" ++ String quote_char ""
  else if Nat.eqb n 92 then "\\"
  else if Nat.eqb n 8 then "\b"
  else if Nat.eqb n 12 then "\f"
  else if Nat.eqb n 10 then "\n"
  else if Nat.eqb n 13 then "\r"
  else if Nat.eqb n 9 then "\t"
  else if Nat.ltb n 32 then
    "\u00" ++ String (hex_digit (n / 16)) (String (hex_digit (n mod 16)) "")
  else String c "".

Fixpoint escape (s : string) : string :=
  match s with
  | EmptyString => ""
  | String c rest => escape_char c ++ escape rest
  end.

Definition quote (s : string) : string :=
  String quote_char (escape s) ++ String quote_char "".

Definition decimal (n : Z) : string :=
  DecimalString.NilZero.string_of_int (Z.to_int n).

(** [JSON.stringify(value, null, 2)] below the indentation [indent]. *)
Fixpoint stringify_at (indent : string) (value : Json) : string :=
  let inner := indent ++ "  " in
  let separator := "," ++ newline ++ inner in
  match value with
  | JNull => "null"
  | JBool true => "true"
  | JBool false => "false"
  | JNumber n => decimal n
  | JString s => quote s
  | JArray [] => "[]"
  | JArray items =>
      "[" ++ newline ++ inner
      ++ Js.join separator (map (stringify_at inner) items)
      ++ newline ++ indent ++ "]"
  | JObject [] => "{}"
  | JObject fields =>
      "{" ++ newline ++ inner
      ++ Js.join separator
           (map (fun field => quote (fst field) ++ ": "
                              ++ stringify_at inner (snd field)) fields)
      ++ newline ++ indent ++ "}"
  end.

Definition stringify (value : Json) : string := stringify_at "" value.

(** A world that answers from scripts: the model replies in order, the tool
    service answers by tool name. *)
Record World : Type := mkWorld {
  stored : Result StorageItems;
  runtime : Runtime;
  connects : bool;
  listing : Result (ListToolsResult Json);
  tool_replies : list (string * Result Json);
  model_replies : list (Result (GenerateContentResponse Json))
}.

Definition call_tool (name : string) (args : Json) (w : World)
    : Result Json * World :=
  (match Js.own (tool_replies w) name with
   | Some r => r
   | None => Throw (mkError ("Unknown tool: " ++ name))
   end, w).

Definition generate (g : GoogleGenAI) (request : GenerateContentRequest Json)
    (w : World) : Result (GenerateContentResponse Json) * World :=
  match model_replies w with
  | [] => (Throw (mkError "fetch failed"), w)
  | r :: rest =>
      (r, mkWorld (stored w) (runtime w) (connects w) (listing w)
                  (tool_replies w) rest)
  end.

Definition parse_url (url : string) : Result URL :=
  if String.prefix "http://" url || String.prefix "https://" url
  then Ok (mkURL url)
  else Throw (mkError "Invalid URL").

#[export] Instance services : Services World Json Json Json := {|
  empty_object := JObject [];
  JSON_stringify := stringify;
  storage_sync_get := fun w => (stored w, w);
  new_GoogleGenAI := fun key => Ok (mkGoogleGenAI key);
  new_URL := parse_url;
  Client_connect := fun _ w =>
    (if connects w then Ok tt else Throw (mkError "Failed to fetch"), w);
  Client_listTools := fun w => (listing w, w);
  Client_callTool := call_tool;
  models_generateContent := generate;
  chrome_runtime := runtime
|}.


(** *** Sample data *)

Definition settings_en : Settings :=
  mkSettings "AIza-sample" "https://mcp.example/sol" "gemini-2.5-pro"
             double_0_7 2048 "en-US".

Definition gemini : GoogleGenAI := mkGoogleGenAI "AIza-sample".

Definition transaction_tool : MCPTool Json :=
  mkMCPTool "get_solana_transaction"
    (Some "Fetch a Solana transaction by signature")
    (Some (mkInputSchema
             (Some (JObject [("signature", JObject [("type", JString "string")])]))
             (Some ["signature"]))).

Definition mcp_client : Client := mkClient "solscan-ai-extension" "1.0.0".

(** An assistant with no credential: settings are loaded, the key is empty. *)
Definition without_key : SolscanAIAssistant Json :=
  mkAssistant None
    (Some (mkSettings "" "https://mcp.example/sol" "gemini-2.5-pro"
                      double_0_7 2048 "en-US"))
    None None None.

(** An assistant with a model client that has not tried discovery yet. *)
Definition configured : SolscanAIAssistant Json :=
  mkAssistant (Some gemini) (Some settings_en) None None None.

(** An assistant whose discovery attempt failed after creating the client. *)
Definition latched : SolscanAIAssistant Json :=
  mkAssistant (Some gemini) (Some settings_en) None (Some mcp_client) None.

(** An assistant after a successful discovery of one tool. *)
Definition with_tools : SolscanAIAssistant Json :=
  mkAssistant (Some gemini) (Some settings_en) (Some [transaction_tool])
              (Some mcp_client) (convertMCPToolsToGemini [transaction_tool]).

Definition stored_items : StorageItems :=
  mkStorageItems (Some "AIza-sample") (Some "https://mcp.example/sol")
                 None None None (Some "en-US").

Definition text_reply (t : string) : GenerateContentResponse Json :=
  mkResponse (Some [mkCandidate (Some (mkResponseContent
    (Some [mkPart (Some t) None])))]).

Definition calls_reply (calls : list (FunctionCall Json))
    : GenerateContentResponse Json :=
  mkResponse (Some [mkCandidate (Some (mkResponseContent
    (Some (map (fun call => mkPart None (Some call)) calls))))]).

Definition transaction_call : FunctionCall Json :=
  mkFunctionCall "get_solana_transaction"
                 (JObject [("signature", JString "SIG123")]).

Definition balance_call : FunctionCall Json :=
  mkFunctionCall "get_balance" (JObject [("address", JString "Addr1")]).

Definition transaction_payload : Json :=
  JObject [("content",
            JArray [JObject [("type", JString "text");
                             ("text", JString "fee: 5000 lamports")]])].

Definition balance_payload : Json := JObject [("lamports", JNumber 5000)].

(** A world in which the tool service is reachable and lists one tool. *)
Definition world_of (tool_replies : list (string * Result Json))
    (model_replies : list (Result (GenerateContentResponse Json))) : World :=
  mkWorld (Ok stored_items) (RuntimeReady "extension-id") true
          (Ok (mkListToolsResult (Some [transaction_tool])))
          tool_replies model_replies.

(** A world in which connecting to the tool service fails. *)
Definition unreachable (model_replies : list (Result (GenerateContentResponse Json)))
    : World :=
  mkWorld (Ok stored_items) (RuntimeReady "extension-id") false
          (Ok (mkListToolsResult (Some [transaction_tool])))
          [] model_replies.

Definition start {T : Type} (obj : T) (w : World) : St World Json Json T :=
  mkSt obj w [].

(** One tool call, answered; then the final text. *)
Definition one_tool_call : St World Json Json (SolscanAIAssistant Json) :=
  start with_tools
    (world_of [("get_solana_transaction", Ok transaction_payload)]
              [Ok (calls_reply [transaction_call]);
               Ok (text_reply "The fee was 0.000005 SOL.")]).

(** Two tool calls, of which the first fails. *)
Definition first_tool_fails : St World Json Json (SolscanAIAssistant Json) :=
  start with_tools
    (world_of [("get_solana_transaction", Throw (mkError "boom: RPC unavailable"));
               ("get_balance", Ok balance_payload)]
              [Ok (calls_reply [transaction_call; balance_call]);
               Ok (text_reply "The transaction could not be fetched.")]).

(** The tool service cannot be reached; the model answers in plain text. *)
Definition discovery_fails : St World Json Json (SolscanAIAssistant Json) :=
  start configured (unreachable [Ok (text_reply "It is a transfer.")]).

Definition page_of (history : list ChatMessage) (a : SolscanAIAssistant Json)
    : Page Json :=
  mkPage (mkContentScript (Some "SIG123") false history "en-US" (Some []) Welcome)
         (mkBackground (Some a) true).

Definition earlier_turns : list ChatMessage :=
  [ mkChatMessage user "What fee was paid?";
    mkChatMessage assistant "The fee was 0.000005 SOL." ].

(** A page with two earlier turns whose model answers in plain text. *)
Definition plain_answer : St World Json Json (Page Json) :=
  start (page_of earlier_turns with_tools)
        (world_of [] [Ok (text_reply "It is a token transfer.")]).


(** The final response asks for a further tool call. *)
Definition second_round_requested : St World Json Json (SolscanAIAssistant Json) :=
  start with_tools
    (world_of [("get_solana_transaction", Ok transaction_payload);
               ("get_balance", Ok balance_payload)]
              [Ok (calls_reply [transaction_call]);
               Ok (calls_reply [balance_call])]).

(** A fresh page whose model asks for one tool call and then answers. *)
Definition fee_question : St World Json Json (Page Json) :=
  start (page_of [] with_tools)
    (world_of [("get_solana_transaction", Ok transaction_payload)]
              [Ok (calls_reply [transaction_call]);
               Ok (text_reply "The fee was 0.000005 SOL.")]).

(** Settings whose response language is the name of a member that every
    object inherits. *)
Definition settings_inherited : Settings :=
  mkSettings "AIza-sample" "https://mcp.example/sol" "gemini-2.5-pro"
             double_0_7 2048 "constructor".

(** One tool call, answered, with those settings. *)
Definition inherited_language : St World Json Json (SolscanAIAssistant Json) :=
  start (mkAssistant (Some gemini) (Some settings_inherited)
           (Some [transaction_tool]) (Some mcp_client)
           (convertMCPToolsToGemini [transaction_tool]))
    (world_of [("get_solana_transaction", Ok transaction_payload)]
              [Ok (calls_reply [transaction_call]);
               Ok (text_reply "The fee was 0.000005 SOL.")]).

(** A background that holds the latched assistant. *)
Definition latched_background : St World Json Json (Background Json) :=
  start (mkBackground (Some latched) true) (world_of [] []).

End Sample.

(** * Properties *)

Section Properties.

Context {World Args Payload Schema : Type}.
Context {svc : Services World Args Payload Schema}.

Local Open Scope list_scope.

(** ** Strings *)

Lemma prefix_app (p rest : string) : String.prefix p (p ++ rest)%string = true.
Proof.
  induction p as [|c p IH]; simpl.
  - destruct rest; reflexivity.
  - destruct (ascii_dec c c) as [_|n]; [exact IH | now elim n].
Qed.

Lemma includes_of_prefix (hay needle : string) :
  String.prefix needle hay = true -> Js.includes hay needle = true.
Proof.
  destruct hay; simpl; intros ->; reflexivity.
Qed.

Lemma includes_app (pre s post : string) :
  Js.includes (pre ++ s ++ post)%string s = true.
Proof.
  induction pre as [|c pre IH].
  - simpl. apply includes_of_prefix, prefix_app.
  - change ((if String.prefix s (String c (pre ++ s ++ post)%string) then true
             else Js.includes (pre ++ s ++ post)%string s) = true).
    destruct (String.prefix s (String c (pre ++ s ++ post)%string));
      [reflexivity | exact IH].
Qed.

Lemma mem_string_false (x : string) (xs : list string) :
  ~ In x xs -> Js.mem_string x xs = false.
Proof.
  intros H. unfold Js.mem_string.
  destruct (existsb (String.eqb x) xs) eqn:E; [|reflexivity].
  apply existsb_exists in E. destruct E as [y [Hy Heq]].
  apply String.eqb_eq in Heq. subst y. contradiction.
Qed.

(** ** Running the monadic code *)

Ltac monad := unfold bind, ret, throw, try_catch, gets, modify, lift, await.

Lemma loadMCPTools_ok s : fst (loadMCPTools s) = Ok tt.
Proof.
  unfold loadMCPTools. monad.
  destruct (settings (this s)) as [st|]; [|reflexivity].
  destruct (negb (Js.truthy_string (mcpUrl st))); [reflexivity|].
  destruct (mcpClient (this s)); [reflexivity|].
  destruct (new_URL (mcpUrl st)); [|reflexivity].
  cbn.
  destruct (Client_connect _ _) as [[[]|e] w]; [|reflexivity].
  cbn.
  destruct (Client_listTools _) as [[r|e] w']; reflexivity.
Qed.

Lemma loadMCPTools_frame s :
  genAI (this (snd (loadMCPTools s))) = genAI (this s) /\
  settings (this (snd (loadMCPTools s))) = settings (this s) /\
  exists d, trace (snd (loadMCPTools s)) = trace s ++ d /\
            forallb (@is_discovery_call Args Schema) d = true.
Proof.
  unfold loadMCPTools. monad.
  destruct (settings (this s)) as [st|] eqn:Est;
    [|repeat split; auto; exists []; now rewrite app_nil_r].
  destruct (negb (Js.truthy_string (mcpUrl st)));
    [repeat split; auto; exists []; now rewrite app_nil_r|].
  destruct (mcpClient (this s));
    [repeat split; auto; exists []; now rewrite app_nil_r|].
  destruct (new_URL (mcpUrl st)) as [url|e];
    [|repeat split; auto; exists []; now rewrite app_nil_r].
  cbn.
  destruct (Client_connect _ _) as [[[]|e] w]; cbn.
  2:{ repeat split; auto. eexists; split; [reflexivity|reflexivity]. }
  destruct (Client_listTools _) as [[r|e] w']; cbn.
  - repeat split; auto. eexists; split; [rewrite <- app_assoc; reflexivity|reflexivity].
  - repeat split; auto. eexists; split; [rewrite <- app_assoc; reflexivity|reflexivity].
Qed.

Lemma execute_tool_calls_spec (calls : list (FunctionCall Args)) :
  forall (acc : list (ToolResult Payload)) s,
  exists results w,
    execute_tool_calls calls acc s =
      (Ok (acc ++ results),
       mkSt (this s) w (trace s ++ tool_service_calls Schema (mcpClient (this s)) calls)) /\
    map (@tool Payload) results = map (@call_name Args) calls.
Proof.
  induction calls as [|call rest IH]; intros acc s.
  - exists [], (world s). cbn. unfold ret. rewrite !app_nil_r.
    assert (E : tool_service_calls Schema (mcpClient (this s)) (@nil (FunctionCall Args)) = [])
      by (destruct (mcpClient (this s)); reflexivity).
    rewrite E, app_nil_r. destruct s; auto.
  - cbn [execute_tool_calls]. unfold callMCPTool. monad.
    destruct (mcpClient (this s)) as [c|] eqn:Ec.
    + destruct (Client_callTool (call_name call) (call_args call) (world s))
        as [[p|e] w] eqn:Ecall.
      * cbn. 
        specialize (IH (acc ++ [ToolSuccess (call_name call) p])
                       (mkSt (this s) w (trace s ++ [EvCallTool (call_name call) (call_args call)]))).
        destruct IH as [results [w' [IH1 IH2]]].
        exists (ToolSuccess (call_name call) p :: results), w'.
        cbn in IH1. rewrite Ec in IH1. cbn in IH1. rewrite IH1.
        rewrite <- !app_assoc. cbn. split; [reflexivity | now f_equal].
      * cbn.
        specialize (IH (acc ++ [ToolFailure Payload (call_name call) (message e)])
                       (mkSt (this s) w (trace s ++ [EvCallTool (call_name call) (call_args call)]))).
        destruct IH as [results [w' [IH1 IH2]]].
        exists (ToolFailure Payload (call_name call) (message e) :: results), w'.
        cbn in IH1. rewrite Ec in IH1. cbn in IH1. rewrite IH1.
        rewrite <- !app_assoc. cbn. split; [reflexivity | now f_equal].
    + cbn.
      specialize (IH (acc ++ [ToolFailure Payload (call_name call) "MCP client not initialized"]) s).
      destruct IH as [results [w' [IH1 IH2]]].
      exists (ToolFailure Payload (call_name call) "MCP client not initialized" :: results), w'.
      rewrite Ec in IH1. cbn in IH1. rewrite IH1.
      rewrite <- !app_assoc. cbn. split; [reflexivity | now f_equal].
Qed.

Lemma ensure_tools_ok s : fst (ensure_tools s) = Ok tt.
Proof.
  unfold ensure_tools. monad.
  destruct (geminiTools (this s)); [reflexivity|].
  pose proof (loadMCPTools_ok s) as H.
  destruct (loadMCPTools s) as [r s']. cbn in H. subst r.
  destruct (geminiTools (this s')); reflexivity.
Qed.

Lemma ensure_tools_frame s :
  genAI (this (snd (ensure_tools s))) = genAI (this s) /\
  settings (this (snd (ensure_tools s))) = settings (this s) /\
  exists d, trace (snd (ensure_tools s)) = trace s ++ d /\
            forallb (@is_discovery_call Args Schema) d = true.
Proof.
  unfold ensure_tools. monad.
  destruct (geminiTools (this s));
    [repeat split; auto; exists []; now rewrite app_nil_r|].
  pose proof (loadMCPTools_ok s) as H.
  pose proof (loadMCPTools_frame s) as F.
  destruct (loadMCPTools s) as [r s']. cbn in H, F. subst r.
  destruct (geminiTools (this s')); cbn; exact F.
Qed.

Lemma chatWithTransaction_run sig msg hist lang s g :
  genAI (this s) = Some g ->
  chatWithTransaction sig msg hist lang s =
  let s1 := snd (ensure_tools s) in
  match settings (this s1) with
  | None =>
      (Throw (mkError "Cannot read properties of null (reading 'responseLanguage')"),
       s1)
  | Some st =>
      let context := getChatPrompt sig msg [] (responseLanguage st) in
      let request :=
        request_of st (geminiTools (this s1))
                   (history_contents hist ++ [user_content context]) in
      let s2 w := mkSt (this s1) w (trace s1 ++ [EvGenerateContent request]) in
      match models_generateContent g request (world s1) with
      | (Throw e, w) => (Throw e, s2 w)
      | (Ok resp, w) =>
          match requested_calls (candidate_parts resp) with
          | [] =>
              (Ok {| response := first_text (candidate_parts resp) "";
                     toolCalls := []; toolResults := [] |}, s2 w)
          | calls =>
              match execute_tool_calls calls [] (s2 w) with
              | (Throw e, s3) => (Throw e, s3)
              | (Ok results, s3) =>
                  let finalRequest :=
                    request_of st (geminiTools (this s3))
                      [user_content
                         (Js.Str (Js.plus context
                            (finalPromptAddition (toolResultsText results)
                                                 (responseLanguage st))))] in
                  let s4 w' := mkSt (this s3) w' (trace s3 ++ [EvGenerateContent finalRequest]) in
                  match models_generateContent g finalRequest (world s3) with
                  | (Throw e, w') => (Throw e, s4 w')
                  | (Ok final, w') =>
                      (Ok {| response := first_text (candidate_parts final) "";
                             toolCalls := calls; toolResults := results |}, s4 w')
                  end
              end
          end
      end
  end.
Proof.
  intros Hg. unfold chatWithTransaction.
  unfold bind at 1. unfold gets at 1. rewrite Hg.
  unfold bind at 1.
  pose proof (ensure_tools_ok s) as H.
  destruct (ensure_tools s) as [r s1]. cbn in H. subst r. cbn [snd].
  unfold settings_of. monad.
  destruct (settings (this s1)) as [st|]; [|reflexivity].
  cbn [this world trace].
  destruct (models_generateContent g _ (world s1)) as [[resp|e] w]; [|reflexivity].
  destruct (requested_calls (candidate_parts resp)) as [|call rest]; [reflexivity|].
  destruct (execute_tool_calls (call :: rest) [] _) as [[results|e] s3]; [|reflexivity].
  cbn [this world trace].
  destruct (models_generateContent g _ (world s3)) as [[final|e] w']; reflexivity.
Qed.

Lemma onMessage_chat (request : MessageRequest) sig msg a s :
  action request = "chatWithTransaction" ->
  req_signature request = Some sig -> Js.truthy_string sig = true ->
  req_message request = Some msg -> Js.truthy_string msg = true ->
  assistant_instance (this s) = Some a ->
  onMessage request s =
  let run := chatWithTransaction sig msg
               match req_history request with Some h => h | None => [] end None
               (mkSt a (world s) (trace s)) in
  (Ok match fst run with
      | Ok data => ChatReply data
      | Throw e => Failure _ _ (Js.or_string (Some (message e)) "Unknown error occurred")
      end,
   mkSt (mkBackground (Some (this (snd run))) (isInitialized (this s)))
        (world (snd run)) (trace (snd run))).
Proof.
  intros Ha Hs Hst Hm Hmt Hinst. unfold onMessage. rewrite Ha, Hs, Hm, Hst, Hmt.
  cbn [String.eqb Ascii.eqb Bool.eqb andb].
  monad. rewrite Hinst. unfold on_assistant, within. cbn [this world trace].
  destruct (chatWithTransaction _ _ _ _ _) as [[data|e] sa]; reflexivity.
Qed.

Lemma checkExtensionConnection_ready id s :
  chrome_runtime (world s) = RuntimeReady id ->
  checkExtensionConnection s = (Ok true, s).
Proof.
  intros H. unfold checkExtensionConnection, try_catch. rewrite H.
  destruct s as [[c b] w t].
  unfold sendMessage, within, onMessage. cbn. reflexivity.
Qed.

(** *** Callbacks of the observer while a handler waits *)

Lemma navigate_keeps (pathname : string) (c : ContentScript) :
  keeps_transaction (transactionSignature c) pathname = true ->
  navigate pathname c = c.
Proof.
  unfold keeps_transaction, navigate.
  destruct (extractTransactionSignature pathname) as [new|]; [|reflexivity].
  destruct (_ && _); [discriminate | reflexivity].
Qed.

Lemma navigations_keep (seen : list string) (c : ContentScript) :
  forallb (keeps_transaction (transactionSignature c)) seen = true ->
  navigations seen c = c.
Proof.
  unfold navigations. induction seen as [|pathname rest IH]; [reflexivity|].
  cbn [forallb fold_left]. intros H. apply andb_prop in H. destruct H as [H1 H2].
  rewrite (navigate_keeps _ _ H1). exact (IH H2).
Qed.





Lemma navigations_language (seen : list string) (c : ContentScript) :
  currentLanguage (navigations seen c) = currentLanguage c.
Proof.
  unfold navigations. revert c.
  induction seen as [|pathname rest IH]; intros c; [reflexivity|].
  cbn [fold_left]. rewrite IH. unfold navigate.
  destruct (extractTransactionSignature pathname) as [new|]; [|reflexivity].
  destruct (_ && _); reflexivity.
Qed.

(** The bubble of the reply, or the TypeError of [addChatMessage] when the
    panel is gone: what [addChatMessage] does to the page [c]. *)
Lemma addChatMessage_run (type : Sender) (content : string)
    (s : St World Args Schema (Page Schema)) :
  addChatMessage type content s =
  match chatPanel (content_script (this s)) with
  | Some bubbles =>
      (Ok tt,
       mkSt (mkPage (set_chatPanel (Some (bubbles ++ [(type, content)]))
                                   (content_script (this s)))
                    (background (this s)))
            (world s) (trace s))
  | None =>
      (Throw (mkError "Cannot read properties of null (reading 'querySelector')"),
       mkSt (mkPage (content_script (this s)) (background (this s)))
            (world s) (trace s))
  end.
Proof.
  unfold addChatMessage, on_content, within, chatPanel_of. monad.
  cbn [this world trace].
  destruct (chatPanel (content_script (this s))); reflexivity.
Qed.

Lemma sendChatMessage_run input checking replying id sig a bubbles s :
  Js.truthy_string input = true ->
  chrome_runtime (world s) = RuntimeReady id ->
  chatPanel (content_script (this s)) = Some bubbles ->
  forallb (keeps_transaction (Some sig)) checking = true ->
  transactionSignature (content_script (this s)) = Some sig ->
  Js.truthy_string sig = true ->
  assistant_instance (background (this s)) = Some a ->
  sendChatMessage input checking replying s =
  let cs := content_script (this s) in
  let run := chatWithTransaction sig input (conversationHistory cs) None
               (mkSt a (world s) (trace s)) in
  let c2 :=
    navigations replying
      (set_chatPanel (Some (bubbles ++ [(from_user, input)])) cs) in
  let answer :=
    match fst run with
    | Ok data => response data
    | Throw e =>
        (Js.to_string (translated errorResponse (currentLanguage cs))
         ++ Js.or_string (Some (message e)) "Unknown error occurred")%string
    end in
  let b' := mkBackground (Some (this (snd run)))
                         (isInitialized (background (this s))) in
  match chatPanel c2 with
  | Some shown =>
      (Ok tt,
       mkSt (mkPage
               (mkContentScript (transactionSignature c2) (isLoading c2)
                  (match fst run with
                   | Ok data => conversationHistory c2
                                ++ [mkChatMessage user input;
                                    mkChatMessage assistant (response data)]
                   | Throw _ => conversationHistory c2
                   end)
                  (currentLanguage c2)
                  (Some (shown ++ [(from_ai, answer)]))
                  (summaryContent c2))
               b')
            (world (snd run)) (trace (snd run)))
  | None =>
      (Throw (mkError "Cannot read properties of null (reading 'querySelector')"),
       mkSt (mkPage c2 b') (world (snd run)) (trace (snd run)))
  end.
Proof.
  intros Hin Hrt Hpanel Hcheck Hsig Hst Ha.
  unfold sendChatMessage.
  unfold bind at 1. unfold on_content at 1, within, chatPanel_of.
  unfold bind at 1. unfold gets at 1. cbn [this world trace fst snd].
  rewrite Hpanel. unfold ret at 1. cbn [this world trace fst snd].
  rewrite Hin. cbn [negb].
  unfold bind at 1. rewrite addChatMessage_run.
  cbn [this world trace fst snd content_script background]. rewrite Hpanel.
  unfold try_catch at 1. unfold bind at 1. unfold awaiting at 1.
  rewrite (@checkExtensionConnection_ready id) by exact Hrt.
  cbn [this world trace fst snd content_script background].
  rewrite navigations_keep
    by (cbn [transactionSignature set_chatPanel]; rewrite Hsig; exact Hcheck).
  unfold bind at 1. unfold on_content at 1, within, gets.
  cbn [this world trace fst snd content_script background].
  unfold bind at 1. unfold on_content at 1, within, gets.
  cbn [this world trace fst snd content_script background].
  unfold bind at 1. unfold awaiting at 1. unfold sendMessage, within.
  cbn [this world trace fst snd content_script background].
  erewrite onMessage_chat;
    cbn [action req_signature req_message req_history this world trace
         transactionSignature conversationHistory set_chatPanel];
    try reflexivity; try eassumption.
  cbv zeta.
  destruct (chatWithTransaction sig input _ None _) as [[data|e] sa];
    cbn [fst snd this world trace content_script background].
  - unfold chat_response_of, lift. unfold bind at 1. cbn [fst snd].
    unfold bind at 1. rewrite addChatMessage_run.
    cbn [this world trace fst snd content_script background].
    destruct (chatPanel (navigations replying _)) as [shown|] eqn:Ep.
    + unfold on_content, within, modify.
      cbn [this world trace fst snd content_script background
           transactionSignature isLoading conversationHistory currentLanguage
           chatPanel summaryContent set_chatPanel set_conversationHistory].
      reflexivity.
    + unfold bind at 1. unfold on_content at 1, within, gets.
      cbn [this world trace fst snd content_script background].
      rewrite addChatMessage_run.
      cbn [this world trace fst snd content_script background]. rewrite Ep.
      reflexivity.
  - unfold throw at 1. unfold bind at 1. unfold on_content at 1, within, gets.
    cbn [this world trace fst snd content_script background message].
    rewrite addChatMessage_run.
    cbn [this world trace fst snd content_script background].
    destruct (chatPanel (navigations replying _)) as [shown|] eqn:Ep;
      [|reflexivity].
    unfold set_chatPanel.
    cbn [transactionSignature isLoading conversationHistory currentLanguage
         chatPanel summaryContent].
    rewrite !navigations_language. reflexivity.
Qed.


(** ** A tool schema implies a client handle *)

Section Preserves.

Variable I : SolscanAIAssistant Schema -> Prop.

Lemma preserves_ret (A : Type) (a : A) :
  preserves I (ret (World:=World) (Args:=Args) a).
Proof. intros s H. exact H. Qed.

Lemma preserves_throw (A : Type) e : preserves I (@throw World Args Schema _ A e).
Proof. intros s H. exact H. Qed.

Lemma preserves_gets (A : Type) (f : SolscanAIAssistant Schema -> A) :
  preserves I (gets (World:=World) (Args:=Args) f).
Proof. intros s H. exact H. Qed.

Lemma preserves_lift (A : Type) (r : Result A) :
  preserves I (@lift World Args Schema _ A r).
Proof. intros s H. exact H. Qed.

Lemma preserves_await (A : Type) (ev : Event Args Schema)
    (call : World -> Result A * World) :
  preserves I (await ev call).
Proof. intros s H. unfold await. destruct (call (world s)). exact H. Qed.

Lemma preserves_modify (f : SolscanAIAssistant Schema -> SolscanAIAssistant Schema) :
  (forall a, I a -> I (f a)) -> preserves I (modify (World:=World) (Args:=Args) f).
Proof. intros Hf s H. cbn. auto. Qed.

Lemma preserves_bind (A B : Type) (m : Method World Args Schema A)
    (k : A -> Method World Args Schema B) :
  preserves I m -> (forall a, preserves I (k a)) -> preserves I (bind m k).
Proof.
  intros Hm Hk s H. unfold bind. specialize (Hm s H).
  destruct (m s) as [[a|e] s1]; cbn [snd] in *; [apply Hk|]; exact Hm.
Qed.

Lemma preserves_try_catch (A : Type) (m : Method World Args Schema A)
    (h : Error -> Method World Args Schema A) :
  preserves I m -> (forall e, preserves I (h e)) -> preserves I (try_catch m h).
Proof.
  intros Hm Hh s H. unfold try_catch. specialize (Hm s H).
  destruct (m s) as [[a|e] s1]; cbn [snd] in *; [|apply Hh]; exact Hm.
Qed.

End Preserves.

Lemma new_assistant_needs_client : (@tools_need_client Schema) (@new_SolscanAIAssistant Schema).
Proof. intros H. now elim H. Qed.

Lemma loadMCPTools_needs_client :
  preserves (@tools_need_client Schema) (@loadMCPTools World Args Payload Schema svc).
Proof.
  intros s H. unfold loadMCPTools. monad.
  destruct (settings (this s)) as [st|]; [|exact H].
  destruct (negb (Js.truthy_string (mcpUrl st))); [exact H|].
  destruct (mcpClient (this s)) eqn:Ec; [exact H|].
  destruct (new_URL (mcpUrl st)); [|exact H]. cbn.
  destruct (Client_connect _ _) as [[[]|e] w]; cbn.
  - destruct (Client_listTools _) as [[r|e] w']; cbn; intros _; discriminate.
  - intros _. discriminate.
Qed.

Lemma reloadMCPTools_needs_client (s : St World Args Schema (SolscanAIAssistant Schema)) :
  (@tools_need_client Schema) (this (snd (reloadMCPTools s))).
Proof.
  unfold reloadMCPTools. unfold bind at 1 2 3. unfold modify. cbn [this world trace].
  apply loadMCPTools_needs_client. cbn. intros H. now elim H.
Qed.

Lemma ensure_tools_needs_client :
  preserves (@tools_need_client Schema) (@ensure_tools World Args Payload Schema svc).
Proof.
  unfold ensure_tools. apply preserves_bind; [apply preserves_gets|].
  intros [t|]; [apply preserves_ret|].
  apply preserves_bind; [apply loadMCPTools_needs_client|]. intros _.
  apply preserves_bind; [apply preserves_gets|].
  intros [t|]; [apply preserves_ret|].
  apply preserves_modify. intros a _ H. now elim H.
Qed.

(** ** Missing credential *)

Lemma initializeGemini_without_key st s :
  settings (this s) = Some st -> geminiApiKey st = "" ->
  initializeGemini s = (Ok tt, s).
Proof.
  intros Hs Hk. unfold initializeGemini. monad. now rewrite Hs, Hk.
Qed.

(** C7. With no model client configured, both the summarize and the chat
    operation throw their configuration error at once: the state, the world
    and the trace of outgoing calls are exactly as before, so no call to the
    model or to the tool service was made. *)
Theorem not_configured_fails_before_any_call sig msg hist lang s :
  genAI (this s) = None ->
  generateTransactionSummary sig s =
    (Throw (mkError "Gemini AI not initialized. Please configure your API key."), s)
  /\ chatWithTransaction sig msg hist lang s =
    (Throw (mkError "Gemini AI not initialized"), s).
Proof.
  intros H. unfold generateTransactionSummary, chatWithTransaction. monad.
  rewrite H. split; reflexivity.
Qed.

(** ** The tool round *)

(** When the first model response requests the calls [calls] (at least
    one), the loop yields one outcome per request, in request order; the
    tool service is called once per request, in request order, between the
    two model calls; and exactly one more model call follows, whose contents
    are one user turn: the chat prompt followed by the looked-up addition.
    The history is not part of that request.  (Without a client handle each
    invocation fails before it calls out; a schema is never held without a
    handle, so this does not happen when the model was offered tools.) *)
Lemma tool_round_run sig msg hist lang s g st resp w calls :
  let s1 := snd (ensure_tools s) in
  let context := getChatPrompt sig msg [] (responseLanguage st) in
  let request :=
    request_of st (geminiTools (this s1))
               (history_contents hist ++ [user_content context]) in
  genAI (this s) = Some g ->
  settings (this s) = Some st ->
  models_generateContent g request (world s1) = (Ok resp, w) ->
  requested_calls (candidate_parts resp) = calls ->
  calls <> [] ->
  exists results outcome s',
    chatWithTransaction sig msg hist lang s = (outcome, s') /\
    map (@tool Payload) results = map (@call_name Args) calls /\
    length results = length calls /\
    (let follow_up :=
       request_of st (geminiTools (this s1))
         [user_content
            (Js.Str (Js.plus context
               (finalPromptAddition (toolResultsText results)
                                    (responseLanguage st))))] in
     trace s' = trace s1 ++ [EvGenerateContent request]
                ++ tool_service_calls Schema (mcpClient (this s1)) calls
                ++ [EvGenerateContent follow_up]) /\
    (forall data, outcome = Ok data ->
                  toolCalls data = calls /\ toolResults data = results) /\
    (tools_need_client (this s) -> geminiTools (this s1) <> None ->
     tool_service_calls Schema (mcpClient (this s1)) calls
       = map (fun call => EvCallTool (call_name call) (call_args call)) calls).
Proof.
  intros s1 context request Hg Hst Hresp Hcalls Hne.
  assert (Hclient : tools_need_client (this s) -> geminiTools (this s1) <> None ->
            tool_service_calls Schema (mcpClient (this s1)) calls
              = map (fun call => EvCallTool (call_name call) (call_args call)) calls).
  { intros Hinv Htools. pose proof (ensure_tools_needs_client s Hinv Htools) as Hc.
    fold s1 in Hc. destruct (mcpClient (this s1)); [reflexivity | now elim Hc]. }
  rewrite (chatWithTransaction_run sig msg hist lang s Hg). cbv zeta.
  destruct (ensure_tools_frame s) as [_ [Hset _]].
  fold s1 in Hset |- *. rewrite Hset, Hst.
  fold context. fold request. rewrite Hresp, Hcalls.
  destruct calls as [|call rest]; [congruence|].
  destruct (execute_tool_calls_spec (call :: rest) []
              (mkSt (this s1) w (trace s1 ++ [EvGenerateContent request])))
    as [results [w' [Hrun Hnames]]].
  cbn [this world trace app] in Hrun. rewrite Hrun. cbn [this world trace].
  exists results.
  assert (Hlen : length results = length (call :: rest)).
  { rewrite <- (length_map (@tool Payload)), Hnames. apply length_map. }
  destruct (models_generateContent g _ w') as [[final|e] w''];
    eexists _, _;
    (split; [reflexivity|]); (split; [exact Hnames|]); (split; [exact Hlen|]);
    (split; [cbn [trace]; now rewrite <- !app_assoc|]);
    (split; [|exact Hclient]).
  - intros data [= <-]. split; reflexivity.
  - intros data [=].
Qed.

Lemma tool_service_calls_invocations client (calls : list (FunctionCall Args)) :
  forallb (@is_tool_invocation Args Schema) (tool_service_calls Schema client calls) = true.
Proof.
  destruct client; [|reflexivity]. induction calls; cbn; auto.
Qed.

Lemma no_model_call_in_discovery (d : list (Event Args Schema)) :
  forallb (@is_discovery_call Args Schema) d = true -> filter (@is_model_call Args Schema) d = [].
Proof.
  induction d as [|ev d IH]; [reflexivity|]. cbn. intros H.
  apply andb_prop in H. destruct H as [Hev Hd]. destruct ev; try discriminate; auto.
Qed.

Lemma no_model_call_in_batch (b : list (Event Args Schema)) :
  forallb (@is_tool_invocation Args Schema) b = true -> filter (@is_model_call Args Schema) b = [].
Proof.
  induction b as [|ev b IH]; [reflexivity|]. cbn. intros H.
  apply andb_prop in H. destruct H as [Hev Hb]. destruct ev; try discriminate; auto.
Qed.

(** C4. Whatever the model and the tool service answer, the calls made by
    one chat exchange are: the discovery calls of the lazy tool loading,
    then nothing, or one model call, or one model call followed by one batch
    of tool invocations and one last model call.  Nothing follows the second
    model call, so tool-call requests in its response are never executed,
    and an exchange makes at most two model calls. *)
Theorem at_most_one_tool_round sig msg hist lang s :
  exists discovery exchange,
    trace (snd (chatWithTransaction sig msg hist lang s))
      = trace s ++ discovery ++ exchange /\
    forallb (@is_discovery_call Args Schema) discovery = true /\
    (exchange = [] \/
     (exists r1, exchange = [EvGenerateContent r1]) \/
     (exists r1 batch r2,
        exchange = [EvGenerateContent r1] ++ batch ++ [EvGenerateContent r2] /\
        forallb (@is_tool_invocation Args Schema) batch = true)) /\
    (length (filter (@is_model_call Args Schema) (discovery ++ exchange)) <= 2)%nat.
Proof.
  destruct (genAI (this s)) as [g|] eqn:Hg.
  2:{ exists [], []. 
      unfold chatWithTransaction in *. monad. rewrite Hg. cbn.
      rewrite app_nil_r. repeat split; auto. }
  rewrite (chatWithTransaction_run sig msg hist lang s Hg). cbv zeta.
  destruct (ensure_tools_frame s) as [_ [_ [d [Hd Hdisc]]]].
  set (s1 := snd (ensure_tools s)) in *.
  exists d.
  pose proof (no_model_call_in_discovery d Hdisc) as Hnone.
  destruct (settings (this s1)) as [st|].
  2:{ exists []. cbn [snd]. rewrite Hd, app_nil_r.
      repeat split; auto. rewrite Hnone. cbn [length]. lia. }
  destruct (models_generateContent g _ (world s1)) as [[resp|e] w].
  2:{ eexists [_]. cbn [snd trace]. rewrite Hd, <- app_assoc.
      split; [reflexivity|]. split; [exact Hdisc|].
      split; [right; left; eexists; reflexivity|].
      rewrite filter_app, Hnone. cbn [filter is_model_call app length]. lia. }
  destruct (requested_calls (candidate_parts resp)) as [|call rest].
  { eexists [_]. cbn [snd trace]. rewrite Hd, <- app_assoc.
    split; [reflexivity|]. split; [exact Hdisc|].
    split; [right; left; eexists; reflexivity|].
    rewrite filter_app, Hnone. cbn [filter is_model_call app length]. lia. }
  match goal with |- context [execute_tool_calls _ _ ?s2] =>
    destruct (execute_tool_calls_spec (call :: rest) [] s2)
      as [results [w' [Hrun _]]]
  end.
  cbn [this world trace app] in Hrun. rewrite Hrun. cbn [this world trace].
  pose proof (tool_service_calls_invocations (mcpClient (this s1)) (call :: rest)) as Hb.
  pose proof (no_model_call_in_batch _ Hb) as Hbnone.
  destruct (models_generateContent g _ w') as [[final|e] w''];
    cbn [snd trace]; rewrite Hd, <- !app_assoc;
    (eexists ([_] ++ _ ++ [_]);
     split; [reflexivity|];
     split; [exact Hdisc|];
     split; [right; right; eexists _, _, _; split; [reflexivity|exact Hb]|];
     rewrite !filter_app, Hnone, Hbnone;
     cbn [filter is_model_call app length]; lia).
Qed.

(** ** One chat exchange seen from the content script *)

(** C3, as amended.  When the model's response requests no tool call, the
    exchange makes exactly one model call (after the discovery calls of
    lazy tool loading, if any) and its answer is the text of that response,
    whatever the mutation observer sees while the reply is awaited.
    Provided the page is not taken to another transaction meanwhile, the
    answer is shown and the transcript grows by exactly two turns: the
    user's question, then the assistant's answer. *)
Theorem chat_without_tool_calls_gains_two_turns
    input checking replying id sig a g st resp w bubbles s :
  let cs := content_script (this s) in
  let s1 := snd (ensure_tools (mkSt a (world s) (trace s))) in
  let request :=
    request_of st (geminiTools (this s1))
      (history_contents (conversationHistory cs)
       ++ [user_content (getChatPrompt sig input [] (responseLanguage st))]) in
  let answer := first_text (candidate_parts resp) "" in
  Js.truthy_string input = true ->
  chrome_runtime (world s) = RuntimeReady id ->
  transactionSignature cs = Some sig ->
  Js.truthy_string sig = true ->
  assistant_instance (background (this s)) = Some a ->
  genAI a = Some g ->
  settings a = Some st ->
  models_generateContent g request (world s1) = (Ok resp, w) ->
  requested_calls (candidate_parts resp) = [] ->
  chatPanel cs = Some bubbles ->
  forallb (keeps_transaction (Some sig)) checking = true ->
  fst (chatWithTransaction sig input (conversationHistory cs) None
         (mkSt a (world s) (trace s)))
    = Ok {| response := answer; toolCalls := []; toolResults := [] |} /\
  exists outcome s' discovery,
    sendChatMessage input checking replying s = (outcome, s') /\
    trace s' = trace s ++ discovery ++ [EvGenerateContent request] /\
    forallb (@is_discovery_call Args Schema) discovery = true /\
    (forallb (keeps_transaction (Some sig)) replying = true ->
     outcome = Ok tt /\
     conversationHistory (content_script (this s'))
       = conversationHistory cs
         ++ [mkChatMessage user input; mkChatMessage assistant answer] /\
     chatMessages (content_script (this s'))
       = (chatMessages cs ++ [(from_user, input)]) ++ [(from_ai, answer)]).
Proof.
  intros cs s1 request answer Hin Hrt Hsig Hst Ha Hg Hset Hresp Hcalls
         Hpanel Hcheck.
  subst cs.
  rewrite (sendChatMessage_run input checking replying s Hin Hrt Hpanel Hcheck
             Hsig Hst Ha). cbv zeta.
  rewrite (chatWithTransaction_run sig input (conversationHistory (content_script (this s)))
             None (mkSt a (world s) (trace s)) Hg). cbv zeta.
  destruct (ensure_tools_frame (mkSt a (world s) (trace s)))
    as [_ [Hset' [d [Hd Hdisc]]]].
  fold s1 in Hset', Hd |- *. cbn [this trace] in Hset', Hd.
  rewrite Hset', Hset. fold request. rewrite Hresp, Hcalls.
  cbn [fst snd this world trace response].
  split; [reflexivity|].
  assert (Htrace : trace s1 ++ [EvGenerateContent request]
                   = trace s ++ d ++ [EvGenerateContent request])
    by (now rewrite Hd, <- app_assoc).
  destruct (forallb (keeps_transaction (Some sig)) replying) eqn:Hreply.
  - rewrite navigations_keep
      by (cbn [transactionSignature set_chatPanel]; rewrite Hsig; exact Hreply).
    cbn [chatPanel set_chatPanel]. eexists _, _, d. split; [reflexivity|].
    unfold chatMessages. rewrite Hpanel.
    cbn [this content_script conversationHistory chatPanel trace set_chatPanel].
    split; [exact Htrace|]. split; [exact Hdisc|].
    intros _. repeat split; reflexivity.
  - destruct (chatPanel (navigations replying _)) as [shown|];
      eexists _, _, d; (split; [reflexivity|]); cbn [trace];
      (split; [exact Htrace|]); (split; [exact Hdisc|]);
      intros H; discriminate H.
Qed.


(** ** Discovery that yields no tools *)

Lemma loadMCPTools_without_tools s :
  geminiTools (this s) = None ->
  discovery_without_tools s ->
  geminiTools (this (snd (loadMCPTools s))) = None.
Proof.
  intros Hgt H. unfold loadMCPTools. monad.
  destruct H as [st Hs Hu | st c Hs Hc | st e Hs Hu Hc He
                 | st url e w Hs Hu Hc Hurl Hcon
                 | st url w e w' Hs Hu Hc Hurl Hcon Hlist
                 | st url w r w' Hs Hu Hc Hurl Hcon Hlist Hnone];
    rewrite Hs; try rewrite Hu; cbn [negb]; try exact Hgt.
  - destruct (negb _); [exact Hgt|]. rewrite Hc. exact Hgt.
  - rewrite Hc, He. exact Hgt.
  - rewrite Hc, Hurl. cbn. rewrite Hcon. exact Hgt.
  - rewrite Hc, Hurl. cbn. rewrite Hcon. cbn. rewrite Hlist. exact Hgt.
  - rewrite Hc, Hurl. cbn. rewrite Hcon. cbn. rewrite Hlist. cbn.
    destruct Hnone as [-> | ->]; reflexivity.
Qed.

Lemma ensure_tools_without_tools s :
  geminiTools (this s) = None ->
  discovery_without_tools s ->
  geminiTools (this (snd (ensure_tools s))) = None.
Proof.
  intros Hgt H. pose proof (loadMCPTools_without_tools Hgt H) as L.
  pose proof (loadMCPTools_ok s) as Hok.
  unfold ensure_tools. monad. rewrite Hgt.
  destruct (loadMCPTools s) as [r s']. cbn in Hok, L. subst r.
  rewrite L. reflexivity.
Qed.

(** C8. Converting an empty tool list gives no tool schema, and whenever
    discovery ends without tools (endpoint not configured, an earlier
    attempt already made, malformed endpoint, failed connect, failed
    listing, or an empty listing) the chat operation still calls the model,
    with no tool schema attached, and returns the text of a response that
    requests no tool call. *)
Theorem discovery_failure_is_not_fatal sig msg hist lang s g st resp w :
  let s1 := snd (ensure_tools s) in
  let request :=
    request_of st None
      (history_contents hist
       ++ [user_content (getChatPrompt sig msg [] (responseLanguage st))]) in
  genAI (this s) = Some g ->
  settings (this s) = Some st ->
  geminiTools (this s) = None ->
  discovery_without_tools s ->
  models_generateContent g request (world s1) = (Ok resp, w) ->
  requested_calls (candidate_parts resp) = [] ->
  convertMCPToolsToGemini (@nil (MCPTool Schema)) = None /\
  geminiTools (this s1) = None /\
  chatWithTransaction sig msg hist lang s =
    (Ok {| response := first_text (candidate_parts resp) "";
           toolCalls := []; toolResults := [] |},
     mkSt (this s1) w (trace s1 ++ [EvGenerateContent request])).
Proof.
  intros s1 request Hg Hst Hgt Hdisc Hresp Hcalls.
  pose proof (ensure_tools_without_tools Hgt Hdisc) as Hnone. fold s1 in Hnone.
  split; [reflexivity|]. split; [exact Hnone|].
  rewrite (chatWithTransaction_run sig msg hist lang s Hg). cbv zeta.
  destruct (ensure_tools_frame s) as [_ [Hset _]].
  fold s1 in Hset |- *. rewrite Hset, Hst, Hnone.
  fold request. rewrite Hresp, Hcalls. reflexivity.
Qed.

(** ** What the first model call carries *)



(** ** The discovery latch *)

Lemma no_discovery_nil : no_discovery (@nil (Event Args Schema)).
Proof. reflexivity. Qed.

Lemma no_discovery_app (xs ys : list (Event Args Schema)) :
  no_discovery xs -> no_discovery ys -> no_discovery (xs ++ ys).
Proof.
  unfold no_discovery. intros Hx Hy. rewrite forallb_app, Hx, Hy. reflexivity.
Qed.

Ltac unchanged :=
  intros s c Hc; cbn; repeat split; auto;
  exists []; split; [now rewrite app_nil_r | apply no_discovery_nil].

Lemma keeps_ret (A : Type) (a : A) : keeps_latch (ret (Args:=Args) (Schema:=Schema) (World:=World) a).
Proof. unchanged. Qed.

Lemma keeps_throw (A : Type) e : keeps_latch (@throw World Args Schema _ A e).
Proof. unchanged. Qed.

Lemma keeps_gets (A : Type) (f : SolscanAIAssistant Schema -> A) :
  keeps_latch (gets (Args:=Args) (World:=World) f).
Proof. unchanged. Qed.

Lemma keeps_lift (A : Type) (r : Result A) : keeps_latch (@lift World Args Schema _ A r).
Proof. unchanged. Qed.

Lemma keeps_modify (f : SolscanAIAssistant Schema -> SolscanAIAssistant Schema) :
  (forall a, mcpClient (f a) = mcpClient a /\ mcpTools (f a) = mcpTools a /\
             geminiTools (f a) = geminiTools a) ->
  keeps_latch (modify (Args:=Args) (World:=World) f).
Proof.
  intros Hf s c Hc. cbn. destruct (Hf (this s)) as [H1 [H2 H3]].
  rewrite H1, H2, H3. repeat split; auto.
  exists []; split; [now rewrite app_nil_r | apply no_discovery_nil].
Qed.

Lemma keeps_await (A : Type) (ev : Event Args Schema)
    (call : World -> Result A * World) :
  is_discovery_call ev = false -> keeps_latch (await ev call).
Proof.
  intros Hev s c Hc. unfold await. destruct (call (world s)) as [r w]. cbn.
  repeat split; auto. exists [ev]. split; [reflexivity|].
  unfold no_discovery. cbn. now rewrite Hev.
Qed.

Lemma keeps_bind (A B : Type) (m : Method World Args Schema A)
    (k : A -> Method World Args Schema B) :
  keeps_latch m -> (forall a, keeps_latch (k a)) -> keeps_latch (bind m k).
Proof.
  intros Hm Hk s c Hc. unfold bind.
  destruct (Hm s c Hc) as [H1 [H2 [H3 [d [Hd Hq]]]]].
  destruct (m s) as [[a|e] s1]; cbn [snd] in *.
  - destruct (Hk a s1 c H1) as [K1 [K2 [K3 [d' [Hd' Hq']]]]].
    rewrite K2, K3, H2, H3. repeat split; auto.
    exists (d ++ d'). split; [now rewrite Hd', Hd, app_assoc|].
    now apply no_discovery_app.
  - repeat split; auto. now exists d.
Qed.

Lemma keeps_try_catch (A : Type) (m : Method World Args Schema A)
    (h : Error -> Method World Args Schema A) :
  keeps_latch m -> (forall e, keeps_latch (h e)) -> keeps_latch (try_catch m h).
Proof.
  intros Hm Hh s c Hc. unfold try_catch.
  destruct (Hm s c Hc) as [H1 [H2 [H3 [d [Hd Hq]]]]].
  destruct (m s) as [[a|e] s1]; cbn [snd] in *.
  - repeat split; auto. now exists d.
  - destruct (Hh e s1 c H1) as [K1 [K2 [K3 [d' [Hd' Hq']]]]].
    rewrite K2, K3, H2, H3. repeat split; auto.
    exists (d ++ d'). split; [now rewrite Hd', Hd, app_assoc|].
    now apply no_discovery_app.
Qed.

Lemma loadMCPTools_latched s c :
  mcpClient (this s) = Some c -> loadMCPTools s = (Ok tt, s).
Proof.
  intros H. unfold loadMCPTools. monad.
  destruct (settings (this s)) as [st|]; [|reflexivity].
  destruct (negb (Js.truthy_string (mcpUrl st))); [reflexivity|].
  rewrite H. reflexivity.
Qed.

Lemma keeps_loadMCPTools : keeps_latch (@loadMCPTools World Args Payload Schema svc).
Proof.
  intros s c Hc. rewrite (loadMCPTools_latched s Hc). cbn.
  repeat split; auto. exists []. split; [now rewrite app_nil_r | reflexivity].
Qed.

Lemma keeps_loadSettings : keeps_latch (@loadSettings World Args Payload Schema svc).
Proof.
  unfold loadSettings. apply keeps_bind.
  - now apply keeps_await.
  - intros r. apply keeps_modify. intros a. repeat split.
Qed.

Lemma keeps_initializeGemini : keeps_latch (@initializeGemini World Args Payload Schema svc).
Proof.
  unfold initializeGemini. apply keeps_bind; [apply keeps_gets|].
  intros [st|]; [|apply keeps_ret].
  destruct (Js.truthy_string (geminiApiKey st)); [|apply keeps_ret].
  apply keeps_try_catch; [|intros; apply keeps_ret].
  apply keeps_bind; [apply keeps_lift|].
  intros g. apply keeps_modify. intros a. repeat split.
Qed.

Lemma keeps_reloadSettings : keeps_latch (@reloadSettings World Args Payload Schema svc).
Proof.
  unfold reloadSettings.
  apply keeps_bind; [apply keeps_loadSettings|]. intros _.
  apply keeps_bind; [apply keeps_initializeGemini|]. intros _.
  apply keeps_loadMCPTools.
Qed.

Lemma keeps_init : keeps_latch (@init World Args Payload Schema svc).
Proof.
  unfold init. apply keeps_try_catch; [|intros; apply keeps_ret].
  apply keeps_bind; [apply keeps_loadSettings|]. intros _.
  apply keeps_bind; [apply keeps_initializeGemini|]. intros _.
  apply keeps_loadMCPTools.
Qed.

Lemma keeps_settings_of p : keeps_latch (@settings_of World Args Schema p).
Proof.
  unfold settings_of. apply keeps_bind; [apply keeps_gets|].
  intros [st|]; [apply keeps_ret | apply keeps_throw].
Qed.

Lemma keeps_generateTransactionSummary sig :
  keeps_latch (@generateTransactionSummary World Args Payload Schema svc sig).
Proof.
  unfold generateTransactionSummary. apply keeps_bind; [apply keeps_gets|].
  intros [g|]; [|apply keeps_throw].
  apply keeps_try_catch; [|intros; apply keeps_throw].
  apply keeps_bind; [apply keeps_settings_of|]. intros st.
  apply keeps_bind; [now apply keeps_await|]. intros resp. apply keeps_ret.
Qed.

Lemma keeps_callMCPTool name args :
  keeps_latch (@callMCPTool World Args Payload Schema svc name args).
Proof.
  unfold callMCPTool. apply keeps_bind; [apply keeps_gets|].
  intros [c|]; [|apply keeps_throw].
  apply keeps_try_catch; [now apply keeps_await | intros; apply keeps_throw].
Qed.

Lemma keeps_execute_tool_calls calls :
  forall acc, keeps_latch (@execute_tool_calls World Args Payload Schema svc calls acc).
Proof.
  induction calls as [|call rest IH]; intros acc; cbn [execute_tool_calls].
  - apply keeps_ret.
  - apply keeps_bind; [|intros; apply IH].
    apply keeps_try_catch; [|intros; apply keeps_ret].
    apply keeps_bind; [apply keeps_callMCPTool | intros; apply keeps_ret].
Qed.

Lemma keeps_ensure_tools : keeps_latch (@ensure_tools World Args Payload Schema svc).
Proof.
  intros s c Hc. unfold ensure_tools. monad.
  destruct (geminiTools (this s)) eqn:Hgt.
  - cbn. repeat split; auto. exists []. split; [now rewrite app_nil_r|reflexivity].
  - rewrite (loadMCPTools_latched s Hc), Hgt. cbn.
    repeat split; auto. exists []. split; [now rewrite app_nil_r|reflexivity].
Qed.

Lemma keeps_chatWithTransaction sig msg hist lang :
  keeps_latch (@chatWithTransaction World Args Payload Schema svc sig msg hist lang).
Proof.
  unfold chatWithTransaction. apply keeps_bind; [apply keeps_gets|].
  intros [g|]; [|apply keeps_throw].
  apply keeps_bind; [apply keeps_ensure_tools|]. intros _.
  apply keeps_try_catch; [|intros; apply keeps_throw].
  apply keeps_bind; [apply keeps_settings_of|]. intros st.
  apply keeps_bind; [apply keeps_gets|]. intros gt.
  apply keeps_bind; [now apply keeps_await|]. intros resp.
  destruct (requested_calls (candidate_parts resp)); [apply keeps_ret|].
  apply keeps_bind; [apply keeps_execute_tool_calls|]. intros results.
  apply keeps_bind; [apply keeps_gets|]. intros gt2.
  apply keeps_bind; [now apply keeps_await|]. intros final. apply keeps_ret.
Qed.

Lemma on_assistant_run (A : Type) a (m : Method World Args Schema A) s :
  on_assistant a m s =
  (fst (m (mkSt a (world s) (trace s))),
   mkSt (mkBackground (Some (this (snd (m (mkSt a (world s) (trace s))))))
                      (isInitialized (this s)))
        (world (snd (m (mkSt a (world s) (trace s)))))
        (trace (snd (m (mkSt a (world s) (trace s)))))).
Proof.
  unfold on_assistant, within. cbn [this world trace].
  destruct (m _) as [r s']. reflexivity.
Qed.

Lemma reply_state (A : Type) a (m : Method World Args Schema A)
    (reply : A -> Response Args Payload) (failure : Error -> Response Args Payload) s :
  snd (try_catch (bind (on_assistant a m) (fun data => ret (reply data)))
                 (fun error => ret (failure error)) s)
  = snd (on_assistant a m s).
Proof.
  unfold try_catch, bind, ret. destruct (on_assistant a m s) as [[x|e] s']; reflexivity.
Qed.

Lemma listener_keeps_latch (A : Type) a c (m : Method World Args Schema A)
    (reply : A -> Response Args Payload) (failure : Error -> Response Args Payload) s :
  keeps_latch m ->
  mcpClient a = Some c ->
  exists a' calls,
    assistant_instance
      (this (snd (try_catch (bind (on_assistant a m) (fun data => ret (reply data)))
                            (fun error => ret (failure error)) s))) = Some a' /\
    mcpClient a' = Some c /\ mcpTools a' = mcpTools a /\
    geminiTools a' = geminiTools a /\
    trace (snd (try_catch (bind (on_assistant a m) (fun data => ret (reply data)))
                          (fun error => ret (failure error)) s))
      = trace s ++ calls /\
    no_discovery calls.
Proof.
  intros Hm Hc. rewrite reply_state, on_assistant_run. cbn [snd this trace].
  destruct (Hm (mkSt a (world s) (trace s)) c Hc) as [H1 [H2 [H3 [d [Hd Hq]]]]].
  cbn [this trace] in *. eexists _, d. repeat split; eauto.
Qed.

Lemma onMessage_keeps_latch (request : MessageRequest) a c s :
  assistant_instance (this s) = Some a ->
  mcpClient a = Some c ->
  action request <> "reloadMCPTools" ->
  exists a' calls,
    assistant_instance (this (snd (onMessage request s))) = Some a' /\
    mcpClient a' = Some c /\ mcpTools a' = mcpTools a /\
    geminiTools a' = geminiTools a /\
    trace (snd (onMessage request s)) = trace s ++ calls /\
    no_discovery calls.
Proof.
  intros Ha Hc Hact.
  assert (Hsame : exists a' calls,
             assistant_instance (this s) = Some a' /\
             mcpClient a' = Some c /\ mcpTools a' = mcpTools a /\
             geminiTools a' = geminiTools a /\
             trace s = trace s ++ calls /\ no_discovery calls).
  { exists a, []. rewrite app_nil_r. repeat split; auto. }
  remember (onMessage request s) as R eqn:HR. unfold onMessage in HR.
  destruct (action request =? "diagnostics")%string; [subst R; exact Hsame|].
  destruct (action request =? "ping")%string; [subst R; exact Hsame|].
  destruct (action request =? "getTransactionSummary")%string.
  { destruct (req_signature request) as [sig|]; [|subst R; exact Hsame].
    destruct (Js.truthy_string sig); [|subst R; exact Hsame].
    unfold bind at 1 in HR. unfold gets at 1 in HR. rewrite Ha in HR. subst R.
    apply (@listener_keeps_latch _ a c _ (@SummaryReply Args Payload)
             (fun error => Failure Args Payload
                (Js.or_string (Some (message error)) "Unknown error occurred")) s);
      [apply keeps_generateTransactionSummary | exact Hc]. }
  destruct (action request =? "chatWithTransaction")%string.
  { destruct (req_signature request) as [sig|]; [|subst R; exact Hsame].
    destruct (req_message request) as [msg|]; [|subst R; exact Hsame].
    destruct (Js.truthy_string sig && Js.truthy_string msg); [|subst R; exact Hsame].
    unfold bind at 1 in HR. unfold gets at 1 in HR. rewrite Ha in HR. subst R.
    apply (@listener_keeps_latch _ a c _ (@ChatReply Args Payload)
             (fun error => Failure Args Payload
                (Js.or_string (Some (message error)) "Unknown error occurred")) s);
      [apply keeps_chatWithTransaction | exact Hc]. }
  destruct (action request =? "reloadSettings")%string.
  { unfold bind at 1 in HR. unfold gets at 1 in HR. rewrite Ha in HR. subst R.
    apply (@listener_keeps_latch _ a c _ (fun _ : unit => Success Args Payload)
             (fun error => Failure Args Payload (message error)) s);
      [apply keeps_reloadSettings | exact Hc]. }
  destruct (action request =? "reloadMCPTools")%string eqn:E.
  { apply String.eqb_eq in E. contradiction. }
  subst R. exact Hsame.
Qed.

Lemma loadMCPTools_attempt s st url :
  settings (this s) = Some st ->
  Js.truthy_string (mcpUrl st) = true ->
  mcpClient (this s) = None ->
  new_URL (mcpUrl st) = Ok url ->
  let transport := mkTransport url [("Content-Type", "application/json")] in
  mcpClient (this (snd (loadMCPTools s)))
    = Some (mkClient "solscan-ai-extension" "1.0.0") /\
  (forall e w, Client_connect transport (world s) = (Throw e, w) ->
     mcpTools (this (snd (loadMCPTools s))) = mcpTools (this s) /\
     geminiTools (this (snd (loadMCPTools s))) = geminiTools (this s)) /\
  (forall w e w', Client_connect transport (world s) = (Ok tt, w) ->
     Client_listTools w = (Throw e, w') ->
     mcpTools (this (snd (loadMCPTools s))) = mcpTools (this s) /\
     geminiTools (this (snd (loadMCPTools s))) = geminiTools (this s)) /\
  exists rest,
    trace (snd (loadMCPTools s)) = trace s ++ EvConnect transport :: rest.
Proof.
  intros Hs Hu Hc Hurl transport. unfold loadMCPTools. monad.
  rewrite Hs, Hu. cbn [negb]. rewrite Hc, Hurl. cbn [this world trace].
  fold transport.
  destruct (Client_connect transport (world s)) as [[[]|e] w] eqn:Hcon;
    cbn [this world trace snd].
  - destruct (Client_listTools w) as [[r|e] w'] eqn:Hlist; cbn [this world trace snd].
    + split; [reflexivity|]. split; [intros ? ? [=]|].
      split; [intros ? ? ? [= <-]; rewrite Hlist; intros [=]|].
      eexists. rewrite <- app_assoc. reflexivity.
    + split; [reflexivity|]. split; [intros ? ? [=]|].
      split; [intros; split; reflexivity|].
      eexists. rewrite <- app_assoc. reflexivity.
  - split; [reflexivity|]. split; [intros; split; reflexivity|].
    split; [intros ? ? ? [=]|]. eexists. reflexivity.
Qed.

(** C10. A discovery attempt that gets as far as constructing the client
    leaves the client handle set, whether or not connecting and listing
    then succeed, and a failed connect or listing leaves the tool list and
    the schema as they were.  From then on [loadMCPTools] changes nothing
    and calls nothing; every request to the background other than
    [reloadMCPTools] (so [reloadSettings] too) keeps the handle, the tool
    list and the schema and makes no discovery call, and so do start-up
    initialisation and the settings reload run on a storage change; and a
    [reloadMCPTools] request connects to the tool service again.
    [reloadMCPTools] is discovery run on the assistant with the handle, the
    tool list and the schema all set to null: when its connect fails, the
    tools and the schema held before are gone, and when it connects and
    lists, the tool list is the fresh one and the schema its conversion. *)
Theorem failed_discovery_is_latched :
  (forall (s : St World Args Schema (SolscanAIAssistant Schema)) st url,
     settings (this s) = Some st ->
     Js.truthy_string (mcpUrl st) = true ->
     mcpClient (this s) = None ->
     new_URL (mcpUrl st) = Ok url ->
     let transport := mkTransport url [("Content-Type", "application/json")] in
     mcpClient (this (snd (loadMCPTools s)))
       = Some (mkClient "solscan-ai-extension" "1.0.0") /\
     (forall e w, Client_connect transport (world s) = (Throw e, w) ->
        mcpTools (this (snd (loadMCPTools s))) = mcpTools (this s) /\
        geminiTools (this (snd (loadMCPTools s))) = geminiTools (this s)) /\
     (forall w e w', Client_connect transport (world s) = (Ok tt, w) ->
        Client_listTools w = (Throw e, w') ->
        mcpTools (this (snd (loadMCPTools s))) = mcpTools (this s) /\
        geminiTools (this (snd (loadMCPTools s))) = geminiTools (this s))) /\
  (forall (s : St World Args Schema (SolscanAIAssistant Schema)) c,
     mcpClient (this s) = Some c -> loadMCPTools s = (Ok tt, s)) /\
  (forall (request : MessageRequest) a c
          (s : St World Args Schema (Background Schema)),
     assistant_instance (this s) = Some a ->
     mcpClient a = Some c ->
     action request <> "reloadMCPTools" ->
     exists a' calls,
       assistant_instance (this (snd (onMessage request s))) = Some a' /\
       mcpClient a' = Some c /\ mcpTools a' = mcpTools a /\
       geminiTools a' = geminiTools a /\
       trace (snd (onMessage request s)) = trace s ++ calls /\
       no_discovery calls) /\
  (keeps_latch (@init World Args Payload Schema svc) /\
   keeps_latch (@loadSettings World Args Payload Schema svc)) /\
  (forall a st url (s : St World Args Schema (Background Schema)),
     assistant_instance (this s) = Some a ->
     settings a = Some st ->
     Js.truthy_string (mcpUrl st) = true ->
     new_URL (mcpUrl st) = Ok url ->
     exists rest,
       trace (snd (onMessage (mkMessageRequest "reloadMCPTools" None None None) s))
         = trace s
           ++ EvConnect (mkTransport url [("Content-Type", "application/json")])
              :: rest) /\
  (forall s : St World Args Schema (SolscanAIAssistant Schema),
     reloadMCPTools s
     = loadMCPTools
         (mkSt (mkAssistant (genAI (this s)) (settings (this s)) None None None)
               (world s) (trace s))) /\
  (forall a st url (s : St World Args Schema (Background Schema)),
     assistant_instance (this s) = Some a ->
     settings a = Some st ->
     Js.truthy_string (mcpUrl st) = true ->
     new_URL (mcpUrl st) = Ok url ->
     let transport := mkTransport url [("Content-Type", "application/json")] in
     let s' := snd (onMessage (mkMessageRequest "reloadMCPTools" None None None) s) in
     exists a',
       assistant_instance (this s') = Some a' /\
       mcpClient a' = Some (mkClient "solscan-ai-extension" "1.0.0") /\
       (forall e w, Client_connect transport (world s) = (Throw e, w) ->
          mcpTools a' = None /\ geminiTools a' = None) /\
       (forall w e w', Client_connect transport (world s) = (Ok tt, w) ->
          Client_listTools w = (Throw e, w') ->
          mcpTools a' = None /\ geminiTools a' = None) /\
       (forall w r w', Client_connect transport (world s) = (Ok tt, w) ->
          Client_listTools w = (Ok r, w') ->
          let tools := match listed_tools r with Some ts => ts | None => [] end in
          mcpTools a' = Some tools /\
          geminiTools a' = convertMCPToolsToGemini tools)).
Proof.
  assert (Hreload : forall s : St World Args Schema (SolscanAIAssistant Schema),
             reloadMCPTools s
             = loadMCPTools
                 (mkSt (mkAssistant (genAI (this s)) (settings (this s))
                                    None None None)
                       (world s) (trace s))).
  { intros s. unfold reloadMCPTools. unfold bind at 1 2 3. unfold modify.
    reflexivity. }
  split; [|split; [|split; [|split; [|split; [|split]]]]].
  6: exact Hreload.
  6: { intros a st url s Ha Hs Hu Hurl transport s'. subst s'.
       unfold onMessage. cbn [action String.eqb Ascii.eqb Bool.eqb].
       unfold bind at 1. unfold gets at 1. rewrite Ha.
       rewrite (@reply_state _ a (reloadMCPTools (svc:=svc))
                  (fun _ : unit => Success Args Payload)
                  (fun error => Failure Args Payload (message error)) s).
       rewrite on_assistant_run. cbn [snd this assistant_instance].
       rewrite Hreload. cbn [this world trace].
       eexists. split; [reflexivity|].
       unfold loadMCPTools. unfold bind, gets, try_catch, lift, modify, await, ret.
       cbn [this world trace settings mcpClient]. rewrite Hs, Hu.
       cbn [negb this world trace settings mcpClient].
       rewrite Hurl. cbn [this world trace]. fold transport.
       destruct (Client_connect transport (world s)) as [[[]|e] w] eqn:Hcon;
         cbn [this world trace snd fst genAI settings mcpClient mcpTools
              geminiTools set_mcpClient set_mcpTools set_geminiTools].
       - destruct (Client_listTools w) as [[r|e] w'] eqn:Hlist;
           cbn [this world trace snd fst genAI settings mcpClient mcpTools
                geminiTools set_mcpClient set_mcpTools set_geminiTools].
         + split; [reflexivity|]. split; [intros ? ? [=]|].
           split; [intros ? ? ? [= <-]; rewrite Hlist; intros [=]|].
           intros ? ? ? [= <-]. rewrite Hlist. intros [= <- <-].
           split; reflexivity.
         + split; [reflexivity|]. split; [intros ? ? [=]|].
           split; [intros; split; reflexivity|].
           intros ? ? ? [= <-]. rewrite Hlist. intros [=].
       - split; [reflexivity|]. split; [intros; split; reflexivity|].
         split; intros ? ? ? [=]. }
  - intros s st url Hs Hu Hc Hurl transport.
    destruct (loadMCPTools_attempt s Hs Hu Hc Hurl) as [H1 [H2 [H3 _]]].
    auto.
  - exact (@loadMCPTools_latched).
  - exact onMessage_keeps_latch.
  - split; [exact keeps_init | exact keeps_loadSettings].
  - intros a st url s Ha Hs Hu Hurl.
    unfold onMessage. cbn [action String.eqb Ascii.eqb Bool.eqb].
    unfold bind at 1. unfold gets at 1. rewrite Ha.
    rewrite (@reply_state _ a (reloadMCPTools (svc:=svc))
               (fun _ : unit => Success Args Payload)
               (fun error => Failure Args Payload (message error)) s).
    rewrite on_assistant_run. cbn [snd trace].
    unfold reloadMCPTools. unfold bind at 1 2 3. unfold modify.
    cbn [this world trace].
    match goal with |- context [loadMCPTools ?s0] =>
      destruct (@loadMCPTools_attempt s0 st url) as [_ [_ [_ [rest Hrest]]]];
        [exact Hs | exact Hu | reflexivity | exact Hurl |]
    end.
    exists rest. exact Hrest.
Qed.

(** ** The invariant across requests *)

Lemma settings_of_needs_client p :
  preserves (@tools_need_client Schema) (@settings_of World Args Schema p).
Proof.
  unfold settings_of. apply preserves_bind; [apply preserves_gets|].
  intros [st|]; [apply preserves_ret | apply preserves_throw].
Qed.

Lemma execute_tool_calls_needs_client calls :
  forall acc,
    preserves (@tools_need_client Schema)
              (@execute_tool_calls World Args Payload Schema svc calls acc).
Proof.
  induction calls as [|call rest IH]; intros acc; cbn [execute_tool_calls].
  - apply preserves_ret.
  - apply preserves_bind; [|intros; apply IH].
    apply preserves_try_catch; [|intros; apply preserves_ret].
    apply preserves_bind; [|intros; apply preserves_ret].
    unfold callMCPTool. apply preserves_bind; [apply preserves_gets|].
    intros [c|]; [|apply preserves_throw].
    apply preserves_try_catch; [apply preserves_await | intros; apply preserves_throw].
Qed.

Lemma chatWithTransaction_needs_client sig msg hist lang :
  preserves (@tools_need_client Schema)
            (@chatWithTransaction World Args Payload Schema svc sig msg hist lang).
Proof.
  unfold chatWithTransaction. apply preserves_bind; [apply preserves_gets|].
  intros [g|]; [|apply preserves_throw].
  apply preserves_bind; [apply ensure_tools_needs_client|]. intros _.
  apply preserves_try_catch; [|intros; apply preserves_throw].
  apply preserves_bind; [apply settings_of_needs_client|]. intros st.
  apply preserves_bind; [apply preserves_gets|]. intros gt.
  apply preserves_bind; [apply preserves_await|]. intros resp.
  destruct (requested_calls (candidate_parts resp)); [apply preserves_ret|].
  apply preserves_bind; [apply execute_tool_calls_needs_client|]. intros results.
  apply preserves_bind; [apply preserves_gets|]. intros gt2.
  apply preserves_bind; [apply preserves_await|]. intros final. apply preserves_ret.
Qed.

Lemma generateTransactionSummary_needs_client sig :
  preserves (@tools_need_client Schema)
            (@generateTransactionSummary World Args Payload Schema svc sig).
Proof.
  unfold generateTransactionSummary. apply preserves_bind; [apply preserves_gets|].
  intros [g|]; [|apply preserves_throw].
  apply preserves_try_catch; [|intros; apply preserves_throw].
  apply preserves_bind; [apply settings_of_needs_client|]. intros st.
  apply preserves_bind; [apply preserves_await|]. intros resp. apply preserves_ret.
Qed.

Lemma loadSettings_needs_client :
  preserves (@tools_need_client Schema) (@loadSettings World Args Payload Schema svc).
Proof.
  unfold loadSettings. apply preserves_bind; [apply preserves_await|].
  intros r. apply preserves_modify. intros a H. exact H.
Qed.

Lemma initializeGemini_needs_client :
  preserves (@tools_need_client Schema) (@initializeGemini World Args Payload Schema svc).
Proof.
  unfold initializeGemini. apply preserves_bind; [apply preserves_gets|].
  intros [st|]; [|apply preserves_ret].
  destruct (Js.truthy_string (geminiApiKey st)); [|apply preserves_ret].
  apply preserves_try_catch; [|intros; apply preserves_ret].
  apply preserves_bind; [apply preserves_lift|].
  intros g. apply preserves_modify. intros a H. exact H.
Qed.

Lemma reloadSettings_needs_client :
  preserves (@tools_need_client Schema) (@reloadSettings World Args Payload Schema svc).
Proof.
  unfold reloadSettings.
  apply preserves_bind; [apply loadSettings_needs_client|]. intros _.
  apply preserves_bind; [apply initializeGemini_needs_client|]. intros _.
  apply loadMCPTools_needs_client.
Qed.

Lemma init_needs_client :
  preserves (@tools_need_client Schema) (@init World Args Payload Schema svc).
Proof.
  unfold init. apply preserves_try_catch; [|intros; apply preserves_ret].
  apply preserves_bind; [apply loadSettings_needs_client|]. intros _.
  apply preserves_bind; [apply initializeGemini_needs_client|]. intros _.
  apply loadMCPTools_needs_client.
Qed.

(** Every request to the background keeps the invariant that a tool schema
    is held only together with a client handle; it holds of a new
    assistant, so it holds whenever a request is served. *)
Lemma onMessage_needs_client (request : MessageRequest) a
    (s : St World Args Schema (Background Schema)) :
  assistant_instance (this s) = Some a ->
  tools_need_client a ->
  exists a',
    assistant_instance (this (snd (onMessage request s))) = Some a' /\
    tools_need_client a'.
Proof.
  intros Ha Hinv.
  assert (Hsame : exists a', assistant_instance (this s) = Some a' /\
                             tools_need_client a') by (exists a; auto).
  assert (Hrun : forall (A : Type) (m : Method World Args Schema A)
                   (reply : A -> Response Args Payload)
                   (failure : Error -> Response Args Payload),
             tools_need_client (this (snd (m (mkSt a (world s) (trace s))))) ->
             exists a',
               assistant_instance
                 (this (snd (try_catch
                               (bind (on_assistant a m) (fun data => ret (reply data)))
                               (fun error => ret (failure error)) s))) = Some a' /\
               tools_need_client a').
  { intros A m reply failure Hm. rewrite reply_state, on_assistant_run.
    cbn [snd this]. eexists. split; [reflexivity | exact Hm]. }
  remember (onMessage request s) as R eqn:HR. unfold onMessage in HR.
  destruct (action request =? "diagnostics")%string; [subst R; exact Hsame|].
  destruct (action request =? "ping")%string; [subst R; exact Hsame|].
  destruct (action request =? "getTransactionSummary")%string.
  { destruct (req_signature request) as [sig|]; [|subst R; exact Hsame].
    destruct (Js.truthy_string sig); [|subst R; exact Hsame].
    unfold bind at 1 in HR. unfold gets at 1 in HR. rewrite Ha in HR. subst R.
    apply (Hrun _ _ (@SummaryReply Args Payload)
             (fun error => Failure Args Payload
                (Js.or_string (Some (message error)) "Unknown error occurred"))).
    apply generateTransactionSummary_needs_client. exact Hinv. }
  destruct (action request =? "chatWithTransaction")%string.
  { destruct (req_signature request) as [sig|]; [|subst R; exact Hsame].
    destruct (req_message request) as [msg|]; [|subst R; exact Hsame].
    destruct (Js.truthy_string sig && Js.truthy_string msg); [|subst R; exact Hsame].
    unfold bind at 1 in HR. unfold gets at 1 in HR. rewrite Ha in HR. subst R.
    apply (Hrun _ _ (@ChatReply Args Payload)
             (fun error => Failure Args Payload
                (Js.or_string (Some (message error)) "Unknown error occurred"))).
    apply chatWithTransaction_needs_client. exact Hinv. }
  destruct (action request =? "reloadSettings")%string.
  { unfold bind at 1 in HR. unfold gets at 1 in HR. rewrite Ha in HR. subst R.
    apply (Hrun _ _ (fun _ : unit => Success Args Payload)
             (fun error => Failure Args Payload (message error))).
    apply reloadSettings_needs_client. exact Hinv. }
  destruct (action request =? "reloadMCPTools")%string.
  { unfold bind at 1 in HR. unfold gets at 1 in HR. rewrite Ha in HR. subst R.
    apply (Hrun _ _ (fun _ : unit => Success Args Payload)
             (fun error => Failure Args Payload (message error))).
    apply reloadMCPTools_needs_client. }
  subst R. exact Hsame.
Qed.
(** A failure entry of [toolResults] prints the same text whatever its
    message: the serializer reads [result.result] only. *)
Lemma failure_text_ignores_message (tool e : string) :
  tool_result_text (ToolFailure Payload tool e)
  = ("Tool: " ++ tool ++ "
Result: undefined")%string.
Proof. reflexivity. Qed.

End Properties.

Open Scope list_scope.

(** ** Prompt builder *)

Lemma summary_prompt_supported (signature language : string) :
  In language supported_languages ->
  exists text,
    getTransactionSummaryPrompt signature language = Js.Str text /\
    text <> ""%string /\
    Js.includes text signature = true.
Proof.
  intros [<- | [<- | [<- | [<- | []]]]];
    (eexists; split; [reflexivity|]; split;
     [discriminate | apply includes_app]).
Qed.

Lemma chat_prompt_supported (signature userMessage : string)
    (conversationHistory : list ChatMessage) (language : string) :
  In language supported_languages ->
  exists text,
    getChatPrompt signature userMessage conversationHistory language = Js.Str text /\
    text <> ""%string /\
    Js.includes text signature = true.
Proof.
  intros [<- | [<- | [<- | [<- | []]]]];
    (eexists; split; [reflexivity|]; split;
     [discriminate | apply includes_app]).
Qed.

Lemma own_other_codes (V : Type) (a b c d : V) (language : string) :
  ~ In language supported_languages ->
  Js.own [("zh-CN", a); ("en-US", b); ("ja-JP", c); ("ko-KR", d)] language = None.
Proof.
  intros H. unfold Js.own.
  repeat match goal with
  | |- context [(?k =? language)%string] =>
      destruct (String.eqb_spec k language) as [E|_];
      [exfalso; apply H; rewrite <- E; cbn; tauto|]
  end.
  reflexivity.
Qed.

Lemma get_string_other_codes (a b c d language : string) :
  ~ In language supported_languages ->
  ~ In language Js.Object_prototype_names ->
  Js.get_string [("zh-CN", a); ("en-US", b); ("ja-JP", c); ("ko-KR", d)] language
    = Js.Undef.
Proof.
  intros Hs Hp. unfold Js.get_string, Js.get.
  rewrite (own_other_codes a b c d Hs), (mem_string_false _ _ Hp). reflexivity.
Qed.

Lemma prompts_default_for_other_codes (signature userMessage : string)
    (conversationHistory : list ChatMessage) (language : string) :
  ~ In language supported_languages ->
  ~ In language Js.Object_prototype_names ->
  getTransactionSummaryPrompt signature language
    = getTransactionSummaryPrompt signature "en-US" /\
  getChatPrompt signature userMessage conversationHistory language
    = getChatPrompt signature userMessage conversationHistory "en-US".
Proof.
  intros Hs Hp. unfold getTransactionSummaryPrompt, getChatPrompt.
  cbv zeta. unfold summaryPrompts, basePrompts.
  rewrite !(get_string_other_codes _ _ _ _ Hs Hp). split; reflexivity.
Qed.

(** C9, at the failing input.  The language code [constructor] has no
    template, yet neither prompt builder falls back to the en-US template:
    the table lookup finds the member inherited from [Object.prototype],
    which is truthy, and returns it.  The result is not a string at all. *)
Theorem inherited_name_defeats_the_fallback :
  getTransactionSummaryPrompt "SIG123" "constructor" = Js.Member "constructor" /\
  getChatPrompt "SIG123" "What fee was paid?" [] "constructor"
    = Js.Member "constructor" /\
  getTransactionSummaryPrompt "SIG123" "constructor"
    <> getTransactionSummaryPrompt "SIG123" "en-US" /\
  getChatPrompt "SIG123" "What fee was paid?" [] "constructor"
    <> getChatPrompt "SIG123" "What fee was paid?" [] "en-US".
Proof.
  repeat split; try reflexivity; vm_compute; discriminate.
Qed.

(** ** The tool-results section of the follow-up prompt *)

Section FollowUpPrompt.

Context {World Args Payload Schema : Type}.
Context {svc : Services World Args Payload Schema}.

Lemma append_assoc (a b c : string) : ((a ++ b) ++ c = a ++ b ++ c)%string.
Proof. induction a as [|x a IH]; cbn; [reflexivity | now rewrite IH]. Qed.

Lemma prefix_split (needle hay : string) :
  String.prefix needle hay = true -> exists rest, hay = (needle ++ rest)%string.
Proof.
  revert hay. induction needle as [|c needle IH]; intros hay H.
  - exists hay. reflexivity.
  - destruct hay as [|d hay]; [discriminate|]. cbn in H.
    destruct (ascii_dec c d) as [<-|]; [|discriminate].
    destruct (IH hay H) as [rest ->]. exists rest. reflexivity.
Qed.

Lemma includes_split (hay needle : string) :
  Js.includes hay needle = true ->
  exists pre post, hay = (pre ++ needle ++ post)%string.
Proof.
  induction hay as [|c hay IH]; cbn [Js.includes]; intros H.
  - destruct (String.prefix needle "") eqn:E; [|discriminate].
    destruct (prefix_split _ _ E) as [rest Hrest]. exists ""%string, rest. exact Hrest.
  - destruct (String.prefix needle (String c hay)) eqn:E.
    + destruct (prefix_split _ _ E) as [rest Hrest]. exists ""%string, rest. exact Hrest.
    + destruct (IH H) as [pre [post ->]]. exists (String c pre), post. reflexivity.
Qed.

Lemma includes_inside (a x b y : string) :
  Js.includes x y = true -> Js.includes (a ++ x ++ b)%string y = true.
Proof.
  intros H. destruct (includes_split _ _ H) as [pre [post ->]].
  replace (a ++ (pre ++ y ++ post) ++ b)%string
    with ((a ++ pre) ++ y ++ (post ++ b))%string
    by now rewrite !append_assoc.
  apply includes_app.
Qed.

Lemma append_empty (x : string) : (x ++ "")%string = x.
Proof. induction x as [|c x IH]; cbn; [reflexivity | now rewrite IH]. Qed.

Lemma includes_refl (x : string) : Js.includes x x = true.
Proof.
  pose proof (includes_app "" x "") as H. cbn [append] in H.
  now rewrite append_empty in H.
Qed.

Lemma join_includes (sep x : string) (xs : list string) :
  In x xs -> Js.includes (Js.join sep xs) x = true.
Proof.
  induction xs as [|y ys IH]; [intros []|].
  intros [-> | Hin].
  - destruct ys as [|z ys]; cbn [Js.join].
    + apply includes_refl.
    + apply (includes_app "" x).
  - destruct ys as [|z ys]; [destruct Hin|].
    change (Js.join sep (y :: z :: ys)) with (y ++ sep ++ Js.join sep (z :: ys))%string.
    rewrite <- append_assoc, <- (append_empty (Js.join sep (z :: ys))).
    apply includes_inside. exact (IH Hin).
Qed.

(** Every entry of [toolResults] is printed in the tool-results text. *)
Lemma results_text_includes_entry (r : ToolResult Payload) results :
  In r results ->
  Js.includes (toolResultsText results) (tool_result_text r) = true.
Proof.
  intros H. unfold toolResultsText. apply join_includes. now apply in_map.
Qed.

(** Unless the language code names a member inherited from
    [Object.prototype], the addition to the final prompt is a string that
    contains the tool-results text. *)
Lemma addition_contains_results (text language : string) :
  ~ In language Js.Object_prototype_names ->
  exists pre post,
    finalPromptAddition text language = Js.Str (pre ++ text ++ post)%string.
Proof.
  intros Hp. unfold finalPromptAddition. cbv zeta. unfold finalPromptAdditions.
  destruct (in_dec string_dec language supported_languages) as [Hs|Hs].
  - destruct Hs as [<- | [<- | [<- | [<- | []]]]]; eexists _, _; reflexivity.
  - rewrite (get_string_other_codes _ _ _ _ Hs Hp). eexists _, _. reflexivity.
Qed.

(** The payload of every successful tool call is printed in the follow-up
    prompt, for every such language code. *)
Lemma follow_up_prompt_prints_payloads context tool payload results language :
  In (ToolSuccess tool payload) results ->
  ~ In language Js.Object_prototype_names ->
  Js.includes
    (Js.plus context (finalPromptAddition (toolResultsText results) language))
    ("Tool: " ++ tool ++ "
Result: " ++ JSON_stringify payload) = true.
Proof.
  intros Hin Hp.
  destruct (addition_contains_results (toolResultsText results) Hp)
    as [pre [post ->]].
  unfold Js.plus. cbn [Js.to_string]. rewrite <- append_assoc.
  apply includes_inside.
  exact (results_text_includes_entry _ _ Hin).
Qed.
End FollowUpPrompt.

(** * Scenarios *)

Import Sample.

(** A chat turn that needs one tool call: the answer is the text of the
    second model response, and the transcript holds the question and that
    answer. *)
Example fee_question_answered :
  let s' := snd (sendChatMessage "What fee was paid?" [] [] fee_question) in
  conversationHistory (content_script (this s'))
    = [ mkChatMessage user "What fee was paid?";
        mkChatMessage assistant "The fee was 0.000005 SOL." ] /\
  chatMessages (content_script (this s'))
    = [ (from_user, "What fee was paid?");
        (from_ai, "The fee was 0.000005 SOL.") ].
Proof. split; vm_compute; reflexivity. Qed.

(** Tool calls requested by the final response are not executed: the trace
    ends with the second model call, and the answer is the empty text of a
    response without a text part. *)
Example second_round_is_not_executed :
  let run := chatWithTransaction "SIG123" "What fee was paid?" [] None
               second_round_requested in
  (exists first follow_up,
     trace (snd run)
       = [ EvGenerateContent first;
           EvCallTool "get_solana_transaction" (call_args transaction_call);
           EvGenerateContent follow_up ]) /\
  fst run = Ok {| response := "";
                  toolCalls := [transaction_call];
                  toolResults := [ToolSuccess "get_solana_transaction"
                                              transaction_payload] |}.
Proof. split; [eexists _, _|]; vm_compute; reflexivity. Qed.

(** C1, at the failing input.  The response language of the settings is
    [constructor], a code without a template.  The model requests one tool
    call; the tool is called once and exactly one follow-up call is made,
    with a single user turn.  But the lookups of the chat prompt and of the
    tool-results section both find the member inherited from
    [Object.prototype] instead of falling back to the en-US texts, so that
    turn is the source text of [Object] twice: it holds neither the
    original prompt (signature and question) nor a tool-results section
    (tool name and payload). *)
Theorem follow_up_turn_at_inherited_language :
  let run := chatWithTransaction "SIG123" "What fee was paid?" [] None
               inherited_language in
  let turn :=
    "function Object() { [native code] }function Object() { [native code] }" in
  exists first follow_up,
    trace (snd run)
      = [ EvGenerateContent first;
          EvCallTool "get_solana_transaction" (call_args transaction_call);
          EvGenerateContent follow_up ] /\
    contents follow_up = [user_content (Js.Str turn)] /\
    Js.includes turn "SIG123" = false /\
    Js.includes turn "What fee was paid?" = false /\
    Js.includes turn "Tool: get_solana_transaction" = false /\
    Js.includes turn (stringify transaction_payload) = false.
Proof.
  eexists _, _. split; [vm_compute; reflexivity|].
  split; [reflexivity|]. repeat split; vm_compute; reflexivity.
Qed.

(** C2, at the failing input.  The model requests two tool calls and the
    first one fails with the message [boom: RPC unavailable].  Both calls
    are made, in order, and the follow-up prompt carries the payload of the
    second; for the failed call it carries [Result: undefined], and the
    failure message appears nowhere in it. *)
Theorem failed_tool_call_is_reported_as_undefined :
  let run := chatWithTransaction "SIG123" "What fee was paid?" [] None
               first_tool_fails in
  exists first follow_up prompt,
    trace (snd run)
      = [ EvGenerateContent first;
          EvCallTool "get_solana_transaction" (call_args transaction_call);
          EvCallTool "get_balance" (call_args balance_call);
          EvGenerateContent follow_up ] /\
    contents follow_up = [user_content (Js.Str prompt)] /\
    Js.includes prompt "Tool: get_solana_transaction
Result: undefined" = true /\
    Js.includes prompt "boom: RPC unavailable" = false /\
    Js.includes prompt ("Tool: get_balance
Result: " ++ stringify balance_payload) = true.
Proof.
  eexists _, _, _. split; [vm_compute; reflexivity|].
  split; [reflexivity|]. repeat split; vm_compute; reflexivity.
Qed.


(** C3, counterexample.  The page is taken to another transaction while
    the reply is awaited.  The model's response requests no tool call and
    exactly one model call is made, with that response's text as the
    answer, yet the transcript does not gain the two turns: afterwards the
    history holds neither the question nor the answer, and
    [sendChatMessage] has thrown on the chat panel that is gone. *)
Lemma navigation_during_reply_drops_the_turns :
  let s := plain_answer in
  let run := sendChatMessage "Which program ran?" [] ["/tx/SIG456"] s in
  fst (chatWithTransaction "SIG123" "Which program ran?" earlier_turns None
         (start with_tools (world s)))
    = Ok {| response := "It is a token transfer.";
            toolCalls := []; toolResults := [] |} /\
  (exists request, trace (snd run) = [EvGenerateContent request]) /\
  conversationHistory (content_script (this (snd run)))
    <> conversationHistory (content_script (this s))
       ++ [ mkChatMessage user "Which program ran?";
            mkChatMessage assistant "It is a token transfer." ] /\
  conversationHistory (content_script (this (snd run))) = [] /\
  fst run
    = Throw (mkError "Cannot read properties of null (reading 'querySelector')").
Proof.
  split; [vm_compute; reflexivity|].
  split; [eexists; vm_compute; reflexivity|].
  split; [vm_compute; discriminate|].
  split; vm_compute; reflexivity.
Qed.

(** ** Instances of the theorems on the sample scenarios *)

Lemma not_configured_witness :
  genAI without_key = None /\
  generateTransactionSummary "SIG123" (start without_key (world_of [] []))
    = (Throw (mkError "Gemini AI not initialized. Please configure your API key."),
       start without_key (world_of [] [])) /\
  chatWithTransaction "SIG123" "What fee was paid?" [] None
      (start without_key (world_of [] []))
    = (Throw (mkError "Gemini AI not initialized"),
       start without_key (world_of [] [])).
Proof.
  split; [reflexivity|].
  apply (not_configured_fails_before_any_call "SIG123" "What fee was paid?" [] None
           (start without_key (world_of [] []))).
  reflexivity.
Defined.

Lemma chat_without_tool_calls_witness :
  exists s',
    sendChatMessage "Which program ran?" ["/tx/SIG123"] ["/token/abc"] plain_answer
      = (Ok tt, s') /\
    conversationHistory (content_script (this s'))
      = earlier_turns
        ++ [ mkChatMessage user "Which program ran?";
             mkChatMessage assistant "It is a token transfer." ].
Proof.
  destruct (@chat_without_tool_calls_gains_two_turns _ _ _ _ services
              "Which program ran?" ["/tx/SIG123"] ["/token/abc"]
              "extension-id" "SIG123" with_tools gemini
              settings_en (text_reply "It is a token transfer.")
              (world_of [] []) [] plain_answer
              eq_refl eq_refl eq_refl eq_refl eq_refl eq_refl eq_refl eq_refl eq_refl
              eq_refl eq_refl)
    as (_ & outcome & s' & discovery & Hrun & _ & _ & Hquiet).
  destruct (Hquiet eq_refl) as (-> & Hhist & _).
  exists s'. split; assumption.
Defined.


Lemma discovery_failure_witness :
  geminiTools (this (snd (ensure_tools discovery_fails))) = None /\
  fst (chatWithTransaction "SIG123" "What is it?" [] None discovery_fails)
    = Ok {| response := "It is a transfer."; toolCalls := []; toolResults := [] |}.
Proof.
  assert (D : discovery_without_tools discovery_fails).
  { apply (@connect_failed _ _ _ _ services discovery_fails settings_en
             (mkURL "https://mcp.example/sol") (mkError "Failed to fetch")
             (unreachable [Ok (text_reply "It is a transfer.")]));
      reflexivity. }
  destruct (@discovery_failure_is_not_fatal _ _ _ _ services
              "SIG123" "What is it?" [] None discovery_fails gemini settings_en
              (text_reply "It is a transfer.") (unreachable [])
              eq_refl eq_refl eq_refl D eq_refl eq_refl)
    as (_ & Hnone & Hrun).
  split; [exact Hnone|]. rewrite Hrun. reflexivity.
Defined.


Lemma failed_discovery_witness :
  loadMCPTools (start latched (world_of [] [])) = (Ok tt, start latched (world_of [] []))
  /\ (exists rest,
       trace (snd (onMessage (mkMessageRequest "reloadMCPTools" None None None)
                             latched_background))
         = EvConnect (mkTransport (mkURL "https://mcp.example/sol")
                                  [("Content-Type", "application/json")])
           :: rest)
  /\ exists a',
       assistant_instance
         (this (snd (onMessage (mkMessageRequest "reloadMCPTools" None None None)
                               (start (mkBackground (Some with_tools) true)
                                      (unreachable [])))))
         = Some a' /\
       mcpTools a' = None /\ geminiTools a' = None.
Proof.
  destruct (@failed_discovery_is_latched _ _ _ _ services)
    as (_ & Hnoop & _ & _ & Hreload & _ & Hfresh).
  split; [|split].
  - apply (Hnoop (start latched (world_of [] [])) mcp_client). reflexivity.
  - apply (Hreload latched settings_en (mkURL "https://mcp.example/sol")
                   latched_background); reflexivity.
  - destruct (Hfresh with_tools settings_en (mkURL "https://mcp.example/sol")
                (start (mkBackground (Some with_tools) true) (unreachable []))
                eq_refl eq_refl eq_refl eq_refl)
      as (a' & Ha & _ & Hfail & _).
    exists a'. split; [exact Ha|].
    exact (Hfail (mkError "Failed to fetch") (unreachable []) eq_refl).
Defined.

(** * Further properties of the code *)

(** ** The follow-up turn *)

(** Unless the language code names a member inherited from
    [Object.prototype], the addition to the final prompt is the section of
    that language, or the en-US one for a code without a section, around
    the tool-results text. *)
Lemma addition_is_section (text language : string) :
  ~ In language Js.Object_prototype_names ->
  exists heading closing,
    In (if in_dec string_dec language supported_languages
        then language else "en-US"%string, (heading, closing))
       tool_results_sections /\
    finalPromptAddition text language = Js.Str (heading ++ text ++ closing)%string.
Proof.
  intros Hp. unfold finalPromptAddition. cbv zeta. unfold finalPromptAdditions.
  destruct (in_dec string_dec language supported_languages) as [Hs|Hs].
  - destruct Hs as [<- | [<- | [<- | [<- | []]]]]; eexists _, _;
      (split; [|reflexivity]); cbn; tauto.
  - rewrite (get_string_other_codes _ _ _ _ Hs Hp). eexists _, _.
    split; [|reflexivity]. cbn. tauto.
Qed.

Lemma chat_prompt_is_text (signature userMessage : string)
    (conversationHistory : list ChatMessage) (language : string) :
  ~ In language Js.Object_prototype_names ->
  exists prompt,
    getChatPrompt signature userMessage conversationHistory language = Js.Str prompt /\
    Js.includes prompt signature = true.
Proof.
  intros Hp. destruct (in_dec string_dec language supported_languages) as [Hs|Hs].
  - destruct (chat_prompt_supported signature userMessage conversationHistory Hs)
      as (text & H1 & _ & H2). exists text. auto.
  - rewrite (proj2 (prompts_default_for_other_codes signature userMessage
                      conversationHistory Hs Hp)).
    destruct (@chat_prompt_supported signature userMessage conversationHistory "en-US")
      as (text & H1 & _ & H2); [cbn; tauto|]. exists text. auto.
Qed.

Section Further.

Context {World Args Payload Schema : Type}.
Context {svc : Services World Args Payload Schema}.

Ltac monad := unfold bind, ret, throw, try_catch, gets, modify, lift, await.

(** ** Conversion of the tool list *)

(** X1. The conversion yields no schema exactly for the empty tool list;
    otherwise it yields one group with one declaration per tool, in the
    order of the list, under the tools' names, with a missing description
    replaced by the empty string and with parameters of type [object]. *)
Theorem conversion_keeps_names_and_order (tools : list (MCPTool Schema)) :
  match convertMCPToolsToGemini tools with
  | None => tools = []
  | Some groups =>
      tools <> [] /\
      exists decls,
        groups = [mkToolGroup decls] /\
        map (@decl_name Schema) decls = map (@tool_name Schema) tools /\
        map (@decl_description Schema) decls
          = map (fun t => Js.or_string (tool_description t) "") tools /\
        Forall (fun d => param_type (parameters d) = "object"%string) decls
  end.
Proof.
  destruct tools as [|t ts]; [reflexivity|].
  unfold convertMCPToolsToGemini. split; [discriminate|].
  eexists. split; [reflexivity|].
  rewrite !map_map. split; [reflexivity|]. split; [reflexivity|].
  apply Forall_map. apply Forall_forall. intros x _. reflexivity.
Qed.

(** ** Settings *)

(** X2. A successful settings load never leaves a falsy model, temperature,
    token limit or language: a missing, empty or zero stored value is
    replaced by the default, so a stored temperature of 0 becomes 0.7 and a
    missing or zero token limit becomes 2048; a stored non-empty model or
    language and a stored non-zero temperature or token limit are kept as
    they are.  A failed storage read throws and leaves the assistant as it
    was. *)
Theorem loaded_settings_are_never_falsy s :
  match storage_sync_get (world s) with
  | (Ok items, w) =>
      exists st,
        loadSettings s
          = (Ok tt, mkSt (set_settings (Some st) (this s)) w
                         (trace s ++ [EvStorageGet])) /\
        Js.truthy_string (geminiModel st) = true /\
        truthy_number (temperature st) = true /\
        maxTokens st <> 0%Z /\
        Js.truthy_string (responseLanguage st) = true /\
        (match stored_temperature items with
         | Some t => if truthy_number t then temperature st = t
                     else temperature st = double_0_7
         | None => temperature st = double_0_7
         end) /\
        responseLanguage st = Js.or_string (stored_responseLanguage items) "zh-CN" /\
        geminiModel st = Js.or_string (stored_geminiModel items) "gemini-2.5-pro" /\
        geminiApiKey st = Js.or_string (stored_geminiApiKey items) "" /\
        mcpUrl st = Js.or_string (stored_mcpUrl items) "" /\
        (match stored_maxTokens items with
         | Some n => if (n =? 0)%Z then maxTokens st = 2048%Z
                     else maxTokens st = n
         | None => maxTokens st = 2048%Z
         end)
  | (Throw e, w) =>
      loadSettings s = (Throw e, mkSt (this s) w (trace s ++ [EvStorageGet]))
  end.
Proof.
  unfold loadSettings. monad.
  destruct (storage_sync_get (world s)) as [[items|e] w]; [|reflexivity].
  eexists. split; [reflexivity|]. cbn.
  assert (Hor : forall o d, Js.truthy_string d = true ->
                  Js.truthy_string (Js.or_string o d) = true).
  { intros [x|] d Hd; cbn; [|exact Hd].
    destruct (Js.truthy_string x) eqn:E; [exact E | exact Hd]. }
  split; [now apply Hor|].
  split.
  { destruct (stored_temperature items) as [t|]; [|reflexivity].
    destruct (truthy_number t) eqn:E; [exact E | reflexivity]. }
  split.
  { destruct (stored_maxTokens items) as [n|]; [|discriminate].
    destruct (Z.eqb_spec n 0); [discriminate | assumption]. }
  split; [now apply Hor|].
  split.
  { destruct (stored_temperature items) as [t|]; [|reflexivity].
    destruct (truthy_number t); reflexivity. }
  repeat (split; [reflexivity|]).
  destruct (stored_maxTokens items) as [n|]; [|reflexivity].
  destruct (n =? 0)%Z; reflexivity.
Qed.

Lemma loadSettings_outcome s :
  match fst (storage_sync_get (world s)) with
  | Throw e => fst (loadSettings s) = Throw e /\ this (snd (loadSettings s)) = this s
  | Ok _ => fst (loadSettings s) = Ok tt /\
            settings (this (snd (loadSettings s))) <> None
  end.
Proof.
  unfold loadSettings. monad.
  destruct (storage_sync_get (world s)) as [[items|e] w]; cbn.
  - split; [reflexivity | discriminate].
  - split; reflexivity.
Qed.

Lemma initializeGemini_frame s :
  fst (initializeGemini s) = Ok tt /\
  settings (this (snd (initializeGemini s))) = settings (this s) /\
  mcpTools (this (snd (initializeGemini s))) = mcpTools (this s) /\
  mcpClient (this (snd (initializeGemini s))) = mcpClient (this s) /\
  geminiTools (this (snd (initializeGemini s))) = geminiTools (this s) /\
  (genAI (this (snd (initializeGemini s))) = genAI (this s) \/
   exists g, genAI (this (snd (initializeGemini s))) = Some g /\
             settings (this s) <> None).
Proof.
  unfold initializeGemini. monad.
  destruct (settings (this s)) as [st|] eqn:E; [|repeat split; auto].
  destruct (Js.truthy_string _); [|repeat split; auto].
  destruct (new_GoogleGenAI _) as [g|e]; cbn; repeat split; auto.
  right. exists g. split; [reflexivity | discriminate].
Qed.

(** X3. Start-up initialisation never throws.  When the storage read fails
    it leaves every field of the assistant as it was; otherwise the
    settings are loaded, whatever happens to the model client and to tool
    discovery. *)
Theorem init_never_throws s :
  fst (init s) = Ok tt /\
  match fst (storage_sync_get (world s)) with
  | Throw _ => this (snd (init s)) = this s
  | Ok _ => settings (this (snd (init s))) <> None
  end.
Proof.
  pose proof (loadSettings_outcome s) as Hload.
  unfold init, try_catch, bind.
  destruct (fst (storage_sync_get (world s))) as [items|e];
    destruct Hload as [H1 H2]; destruct (loadSettings s) as [r s0];
    cbn [fst snd] in *; subst r; [|split; [reflexivity | assumption]].
  destruct (initializeGemini_frame s0) as [Hi1 [Hi2 _]].
  destruct (initializeGemini s0) as [r s1]. cbn [fst snd] in *. subst r.
  pose proof (loadMCPTools_ok s1) as Hl.
  destruct (loadMCPTools_frame s1) as [_ [Hl2 _]].
  destruct (loadMCPTools s1) as [r s2]. cbn [fst snd] in *. subst r.
  split; [reflexivity|]. cbn [snd]. now rewrite Hl2, Hi2.
Qed.

(** ** The text of an answer *)

Lemma find_first (A : Type) (p : A -> bool) (xs : list A) :
  match find p xs with
  | Some x => exists before after,
                xs = before ++ x :: after /\ p x = true /\
                forallb (fun y => negb (p y)) before = true
  | None => forallb (fun y => negb (p y)) xs = true
  end.
Proof.
  induction xs as [|y ys IH]; [reflexivity|]. cbn [find].
  destruct (p y) eqn:E.
  - exists [], ys. auto.
  - destruct (find p ys) as [x|].
    + destruct IH as [before [after [-> [Hx Hb]]]].
      exists (y :: before), after. cbn. rewrite E. auto.
    + cbn. now rewrite E.
Qed.

(** X4. The text taken from a model response is the text of its first part
    that has a non-empty text; parts without text or with empty text (for
    instance parts that only carry a function call) are skipped.  When no
    part qualifies, or the response has no parts at all, the text is the
    fallback: the empty string in a chat, [Unable to generate summary] in a
    summary. *)
Theorem answer_is_first_non_empty_text (ps : option (list (Part Args))) (fallback : string) :
  match ps with
  | None => first_text ps fallback = fallback
  | Some parts =>
      (first_text ps fallback = fallback /\
       forallb (fun part => negb (Js.truthy_opt (text part))) parts = true) \/
      (exists before part after,
         parts = before ++ part :: after /\
         forallb (fun part => negb (Js.truthy_opt (text part))) before = true /\
         text part = Some (first_text ps fallback) /\
         first_text ps fallback <> ""%string)
  end.
Proof.
  destruct ps as [parts|]; [|reflexivity]. unfold first_text.
  pose proof (find_first (fun part : Part Args => Js.truthy_opt (text part)) parts) as H.
  destruct (find _ parts) as [part|].
  - right. destruct H as [before [after [-> [Hp Hb]]]].
    exists before, part, after. repeat split; auto.
    + destruct (text part) as [t|]; [reflexivity | discriminate].
    + destruct (text part) as [t|]; [|discriminate]. cbn in Hp.
      unfold Js.truthy_string in Hp. intros ->. discriminate.
  - left. auto.
Qed.

(** ** Tool calls without a client *)

(** X5. Without a client handle no request of the model reaches the tool
    service: every requested call is answered at once with the failure
    [MCP client not initialized], in request order, and the state, the
    world and the trace stay as they were. *)
Theorem tool_calls_without_client_all_fail (calls : list (FunctionCall Args))
    (acc : list (ToolResult Payload)) s :
  mcpClient (this s) = None ->
  execute_tool_calls calls acc s
  = (Ok (acc ++ map (fun call => ToolFailure Payload (call_name call)
                                   "MCP client not initialized") calls), s).
Proof.
  intros Hc. revert acc. induction calls as [|call rest IH]; intros acc.
  - cbn. unfold ret. now rewrite app_nil_r.
  - cbn [execute_tool_calls]. unfold callMCPTool. monad. rewrite Hc.
    rewrite IH. cbn [map]. now rewrite <- app_assoc.
Qed.

(** ** The outcome of a chat *)

(** X6. Whenever a chat succeeds, the tool outcomes it returns line up with
    the tool calls it returns: one outcome per call, in the same order and
    under the same tool name. *)
Theorem returned_outcomes_match_returned_calls sig msg hist lang s data s' :
  chatWithTransaction sig msg hist lang s = (Ok data, s') ->
  map (@tool Payload) (toolResults data) = map (@call_name Args) (toolCalls data).
Proof.
  destruct (genAI (this s)) as [g|] eqn:Hg.
  2:{ unfold chatWithTransaction. monad. rewrite Hg. intros [=]. }
  rewrite (chatWithTransaction_run sig msg hist lang s Hg). cbv zeta.
  destruct (settings (this (snd (ensure_tools s)))) as [st|]; [|intros [=]].
  destruct (models_generateContent g _ _) as [[resp|e] w]; [|intros [=]].
  destruct (requested_calls (candidate_parts resp)) as [|call rest] eqn:Hcalls.
  { intros [= <- _]. reflexivity. }
  match goal with |- context [execute_tool_calls _ _ ?s2] =>
    destruct (execute_tool_calls_spec (call :: rest) [] s2)
      as [results [w' [Hrun Hnames]]]
  end.
  cbn [this world trace app] in Hrun. rewrite Hrun. cbn [this world trace].
  destruct (models_generateContent g _ w') as [[final|e] w'']; [|intros [=]].
  intros [= <- _]. exact Hnames.
Qed.

(** X7. When tool calls were requested, the answer is decided by the
    follow-up call alone: its first non-empty text (or the empty string) is
    returned and the text of the first response is dropped; if the
    follow-up call fails the whole chat fails with its error, although the
    tools have run. *)
Theorem follow_up_decides_the_answer sig msg hist lang s g st resp w calls results s3 :
  let s1 := snd (ensure_tools s) in
  let context := getChatPrompt sig msg [] (responseLanguage st) in
  let request :=
    request_of st (geminiTools (this s1))
               (history_contents hist ++ [user_content context]) in
  let follow_up :=
    request_of st (geminiTools (this s3))
      [user_content
         (Js.Str (Js.plus context
            (finalPromptAddition (toolResultsText results)
                                 (responseLanguage st))))] in
  genAI (this s) = Some g ->
  settings (this s) = Some st ->
  models_generateContent g request (world s1) = (Ok resp, w) ->
  requested_calls (candidate_parts resp) = calls ->
  calls <> [] ->
  execute_tool_calls calls []
    (mkSt (this s1) w (trace s1 ++ [EvGenerateContent request])) = (Ok results, s3) ->
  match models_generateContent g follow_up (world s3) with
  | (Ok final, w') =>
      chatWithTransaction sig msg hist lang s
      = (Ok {| response := first_text (candidate_parts final) "";
               toolCalls := calls; toolResults := results |},
         mkSt (this s3) w' (trace s3 ++ [EvGenerateContent follow_up]))
  | (Throw e, w') =>
      chatWithTransaction sig msg hist lang s
      = (Throw e, mkSt (this s3) w' (trace s3 ++ [EvGenerateContent follow_up]))
  end.
Proof.
  intros s1 context request follow_up Hg Hst Hresp Hcalls Hne Hrun.
  rewrite (chatWithTransaction_run sig msg hist lang s Hg). cbv zeta.
  destruct (ensure_tools_frame s) as [_ [Hset _]].
  fold s1 in Hset |- *. rewrite Hset, Hst.
  fold context. fold request. rewrite Hresp, Hcalls.
  destruct calls as [|call rest]; [congruence|].
  rewrite Hrun. fold follow_up.
  destruct (models_generateContent g follow_up (world s3)) as [[final|e] w'];
    reflexivity.
Qed.


(** ** Replies of the listener *)

Lemma or_string_non_empty (o : option string) (d : string) :
  d <> ""%string -> Js.or_string o d <> ""%string.
Proof.
  intros Hd. destruct o as [x|]; cbn; [|exact Hd].
  unfold Js.truthy_string. destruct (String.eqb_spec x ""); cbn; assumption.
Qed.

Lemma reply_value (A : Type) a (m : Method World Args Schema A)
    (reply : A -> Response Args Payload) (failure : Error -> Response Args Payload) s :
  fst (try_catch (bind (on_assistant a m) (fun data => ret (reply data)))
                 (fun error => ret (failure error)) s)
  = Ok match fst (m (mkSt a (world s) (trace s))) with
       | Ok data => reply data
       | Throw error => failure error
       end.
Proof.
  unfold try_catch, bind, ret. rewrite on_assistant_run. cbn [fst snd].
  destruct (fst (m _)); reflexivity.
Qed.

(** X9. The listener answers every request: whatever the request and
    whatever the assistant, the model and the tool service do, it replies
    and does not throw.  A failure reply to a summary or chat request
    always carries a non-empty message. *)
Theorem listener_always_replies (request : MessageRequest)
    (s : St World Args Schema (Background Schema)) :
  exists reply : Response Args Payload,
    fst (onMessage request s) = Ok reply /\
    (action request = "getTransactionSummary"%string \/
     action request = "chatWithTransaction"%string ->
     forall text, reply = Failure Args Payload text -> text <> ""%string).
Proof.
  unfold onMessage.
  destruct (String.eqb_spec (action request) "diagnostics") as [E1|_].
  { eexists. split; [reflexivity|]. rewrite E1. intros [H|H]; discriminate H. }
  destruct (String.eqb_spec (action request) "ping") as [E2|_].
  { eexists. split; [reflexivity|]. rewrite E2. intros [H|H]; discriminate H. }
  destruct (String.eqb_spec (action request) "getTransactionSummary") as [E3|N3].
  { destruct (req_signature request) as [sig|];
      [|eexists; split; [reflexivity | intros _ text [= <-]; discriminate]].
    destruct (Js.truthy_string sig);
      [|eexists; split; [reflexivity | intros _ text [= <-]; discriminate]].
    unfold bind at 1. unfold gets at 1.
    destruct (assistant_instance (this s)) as [a|];
      [|eexists; split; [reflexivity | intros _ text [= <-]; discriminate]].
    rewrite reply_value. eexists. split; [reflexivity|].
    intros _ text. destruct (fst _) as [data|e]; [discriminate|].
    intros [= <-].
    now apply (@or_string_non_empty (Some (message e)) "Unknown error occurred"). }
  destruct (String.eqb_spec (action request) "chatWithTransaction") as [E4|N4].
  { destruct (req_signature request) as [sig|];
      [|eexists; split; [reflexivity | intros _ text [= <-]; discriminate]].
    destruct (req_message request) as [msg|];
      [|eexists; split; [reflexivity | intros _ text [= <-]; discriminate]].
    destruct (Js.truthy_string sig && Js.truthy_string msg);
      [|eexists; split; [reflexivity | intros _ text [= <-]; discriminate]].
    unfold bind at 1. unfold gets at 1.
    destruct (assistant_instance (this s)) as [a|];
      [|eexists; split; [reflexivity | intros _ text [= <-]; discriminate]].
    rewrite reply_value. eexists. split; [reflexivity|].
    intros _ text. destruct (fst _) as [data|e]; [discriminate|].
    intros [= <-].
    now apply (@or_string_non_empty (Some (message e)) "Unknown error occurred"). }
  assert (Hno : action request = "getTransactionSummary"%string \/
                action request = "chatWithTransaction"%string -> False)
    by (intros [H|H]; contradiction).
  destruct (action request =? "reloadSettings")%string.
  { unfold bind at 1. unfold gets at 1.
    destruct (assistant_instance (this s)) as [a|];
      [|eexists; split; [reflexivity | intros H; elim (Hno H)]].
    rewrite (@reply_value unit a (reloadSettings (svc:=svc)) (fun _ => Success Args Payload)
               (fun error => Failure Args Payload (message error)) s).
    eexists. split; [reflexivity | intros H; elim (Hno H)]. }
  destruct (action request =? "reloadMCPTools")%string.
  { unfold bind at 1. unfold gets at 1.
    destruct (assistant_instance (this s)) as [a|];
      [|eexists; split; [reflexivity | intros H; elim (Hno H)]].
    rewrite (@reply_value unit a (reloadMCPTools (svc:=svc)) (fun _ => Success Args Payload)
               (fun error => Failure Args Payload (message error)) s).
    eexists. split; [reflexivity | intros H; elim (Hno H)]. }
  eexists. split; [reflexivity | intros H; elim (Hno H)].
Qed.

(** X10. A summary request without a signature and a chat request without
    a signature or without a message are refused with a fixed message
    before the assistant is touched: the state, the world and the trace
    stay as they were, so the model is never called for them. *)
Theorem invalid_requests_are_refused (request : MessageRequest)
    (s : St World Args Schema (Background Schema)) :
  (action request = "getTransactionSummary"%string /\
   Js.truthy_opt (req_signature request) = false) \/
  (action request = "chatWithTransaction"%string /\
   Js.truthy_opt (req_signature request) && Js.truthy_opt (req_message request)
     = false) ->
  onMessage request s
  = (Ok (Failure Args Payload
           (if action request =? "getTransactionSummary"
            then "Transaction signature is required"
            else "Transaction signature and message are required")%string), s).
Proof.
  intros [[Ha Hs] | [Ha Hs]]; unfold onMessage; rewrite Ha;
    cbn [String.eqb Ascii.eqb Bool.eqb].
  - destruct (req_signature request) as [sig|]; [|reflexivity].
    cbn in Hs. rewrite Hs. reflexivity.
  - destruct (req_signature request) as [sig|]; [|reflexivity].
    destruct (req_message request) as [msg|]; [|reflexivity].
    cbn [Js.truthy_opt] in Hs. rewrite Hs. reflexivity.
Qed.

(** X11. Only the four operations can change anything: a diagnostics
    request, a ping and a request with any other action leave the state,
    the world and the trace exactly as they were; the first two succeed
    and an unknown action is answered with [Unknown action:] followed by
    its name. *)
Theorem other_requests_change_nothing (request : MessageRequest)
    (s : St World Args Schema (Background Schema)) :
  ~ In (action request)
       ["getTransactionSummary"; "chatWithTransaction";
        "reloadSettings"; "reloadMCPTools"]%string ->
  snd (onMessage request s) = s /\
  exists reply : Response Args Payload,
    fst (onMessage request s) = Ok reply /\
    (if (action request =? "diagnostics") || (action request =? "ping")
     then success reply = true
     else reply = Failure Args Payload ("Unknown action: " ++ action request))%string.
Proof.
  intros Hn. unfold onMessage.
  destruct (action request =? "diagnostics")%string eqn:E1;
    [split; [reflexivity | eexists; split; reflexivity]|].
  destruct (action request =? "ping")%string eqn:E2;
    [split; [reflexivity | eexists; split; reflexivity]|].
  repeat match goal with
  | |- context [(action request =? ?k)%string] =>
      destruct (String.eqb_spec (action request) k) as [E|_];
      [exfalso; apply Hn; rewrite E; cbn; tauto|]
  end.
  split; [reflexivity | eexists; split; reflexivity].
Qed.


(** ** Methods that leave the assistant's fields alone *)

Section AnyProperty.

Variable I : SolscanAIAssistant Schema -> Prop.

Lemma settings_of_preserves p : preserves I (@settings_of World Args Schema p).
Proof.
  unfold settings_of. apply preserves_bind; [apply preserves_gets|].
  intros [st|]; [apply preserves_ret | apply preserves_throw].
Qed.

Lemma execute_tool_calls_preserves calls :
  forall acc,
    preserves I (@execute_tool_calls World Args Payload Schema svc calls acc).
Proof.
  induction calls as [|call rest IH]; intros acc; cbn [execute_tool_calls].
  - apply preserves_ret.
  - apply preserves_bind; [|intros; apply IH].
    apply preserves_try_catch; [|intros; apply preserves_ret].
    apply preserves_bind; [|intros; apply preserves_ret].
    unfold callMCPTool. apply preserves_bind; [apply preserves_gets|].
    intros [c|]; [|apply preserves_throw].
    apply preserves_try_catch; [apply preserves_await | intros; apply preserves_throw].
Qed.

Lemma generateTransactionSummary_preserves sig :
  preserves I (@generateTransactionSummary World Args Payload Schema svc sig).
Proof.
  unfold generateTransactionSummary. apply preserves_bind; [apply preserves_gets|].
  intros [g|]; [|apply preserves_throw].
  apply preserves_try_catch; [|intros; apply preserves_throw].
  apply preserves_bind; [apply settings_of_preserves|]. intros st.
  apply preserves_bind; [apply preserves_await|]. intros resp. apply preserves_ret.
Qed.

Hypothesis ensure_tools_preserves :
  preserves I (@ensure_tools World Args Payload Schema svc).

Lemma chatWithTransaction_preserves sig msg hist lang :
  preserves I (@chatWithTransaction World Args Payload Schema svc sig msg hist lang).
Proof.
  unfold chatWithTransaction. apply preserves_bind; [apply preserves_gets|].
  intros [g|]; [|apply preserves_throw].
  apply preserves_bind; [apply ensure_tools_preserves|]. intros _.
  apply preserves_try_catch; [|intros; apply preserves_throw].
  apply preserves_bind; [apply settings_of_preserves|]. intros st.
  apply preserves_bind; [apply preserves_gets|]. intros gt.
  apply preserves_bind; [apply preserves_await|]. intros resp.
  destruct (requested_calls (candidate_parts resp)); [apply preserves_ret|].
  apply preserves_bind; [apply execute_tool_calls_preserves|]. intros results.
  apply preserves_bind; [apply preserves_gets|]. intros gt2.
  apply preserves_bind; [apply preserves_await|]. intros final. apply preserves_ret.
Qed.

Hypothesis reloadSettings_preserves :
  preserves I (@reloadSettings World Args Payload Schema svc).
Hypothesis reloadMCPTools_preserves :
  preserves I (@reloadMCPTools World Args Payload Schema svc).

Lemma onMessage_preserves (request : MessageRequest) a
    (s : St World Args Schema (Background Schema)) :
  assistant_instance (this s) = Some a ->
  I a ->
  exists a',
    assistant_instance (this (snd (onMessage request s))) = Some a' /\
    I a' /\
    isInitialized (this (snd (onMessage request s))) = isInitialized (this s).
Proof.
  intros Ha Hinv.
  assert (Hsame : exists a', assistant_instance (this s) = Some a' /\ I a' /\
                             isInitialized (this s) = isInitialized (this s))
    by (exists a; auto).
  assert (Hrun : forall (A : Type) (m : Method World Args Schema A)
                   (reply : A -> Response Args Payload)
                   (failure : Error -> Response Args Payload),
             preserves I m ->
             exists a',
               assistant_instance
                 (this (snd (try_catch
                               (bind (on_assistant a m) (fun data => ret (reply data)))
                               (fun error => ret (failure error)) s))) = Some a' /\
               I a' /\
               isInitialized
                 (this (snd (try_catch
                               (bind (on_assistant a m) (fun data => ret (reply data)))
                               (fun error => ret (failure error)) s)))
               = isInitialized (this s)).
  { intros A m reply failure Hm. rewrite reply_state, on_assistant_run.
    cbn [snd this assistant_instance isInitialized]. eexists.
    split; [reflexivity|]. split; [|reflexivity]. apply (Hm (mkSt a (world s) (trace s))).
    exact Hinv. }
  remember (onMessage request s) as R eqn:HR. unfold onMessage in HR.
  destruct (action request =? "diagnostics")%string; [subst R; exact Hsame|].
  destruct (action request =? "ping")%string; [subst R; exact Hsame|].
  destruct (action request =? "getTransactionSummary")%string.
  { destruct (req_signature request) as [sig|]; [|subst R; exact Hsame].
    destruct (Js.truthy_string sig); [|subst R; exact Hsame].
    unfold bind at 1 in HR. unfold gets at 1 in HR. rewrite Ha in HR. subst R.
    apply (Hrun _ _ (@SummaryReply Args Payload)
             (fun error => Failure Args Payload
                (Js.or_string (Some (message error)) "Unknown error occurred"))).
    apply generateTransactionSummary_preserves. }
  destruct (action request =? "chatWithTransaction")%string.
  { destruct (req_signature request) as [sig|]; [|subst R; exact Hsame].
    destruct (req_message request) as [msg|]; [|subst R; exact Hsame].
    destruct (Js.truthy_string sig && Js.truthy_string msg); [|subst R; exact Hsame].
    unfold bind at 1 in HR. unfold gets at 1 in HR. rewrite Ha in HR. subst R.
    apply (Hrun _ _ (@ChatReply Args Payload)
             (fun error => Failure Args Payload
                (Js.or_string (Some (message error)) "Unknown error occurred"))).
    apply chatWithTransaction_preserves. }
  destruct (action request =? "reloadSettings")%string.
  { unfold bind at 1 in HR. unfold gets at 1 in HR. rewrite Ha in HR. subst R.
    apply (Hrun _ _ (fun _ : unit => Success Args Payload)
             (fun error => Failure Args Payload (message error))).
    apply reloadSettings_preserves. }
  destruct (action request =? "reloadMCPTools")%string.
  { unfold bind at 1 in HR. unfold gets at 1 in HR. rewrite Ha in HR. subst R.
    apply (Hrun _ _ (fun _ : unit => Success Args Payload)
             (fun error => Failure Args Payload (message error))).
    apply reloadMCPTools_preserves. }
  subst R. exact Hsame.
Qed.

End AnyProperty.

(** ** The assistant stays well formed *)

Lemma new_assistant_well_formed : well_formed (@new_SolscanAIAssistant Schema).
Proof. repeat split; intros H; now elim H. Qed.

Lemma well_formed_needs_client (a : SolscanAIAssistant Schema) :
  well_formed a -> tools_need_client a.
Proof.
  intros [_ [Hs Hc]] Ht. apply Hc. intros Hn. apply Ht.
  rewrite Hs, Hn. reflexivity.
Qed.

Lemma loadSettings_well_formed :
  preserves (@well_formed World Args Payload Schema svc)
            (@loadSettings World Args Payload Schema svc).
Proof.
  unfold loadSettings. apply preserves_bind; [apply preserves_await|].
  intros r. apply preserves_modify. intros a [_ [H2 H3]].
  repeat split; auto. intros _. discriminate.
Qed.

Lemma initializeGemini_well_formed :
  preserves (@well_formed World Args Payload Schema svc)
            (@initializeGemini World Args Payload Schema svc).
Proof.
  intros s [H1 [H2 H3]].
  destruct (initializeGemini_frame s) as [_ [Es [Et [Ec [Eg Hg]]]]].
  unfold well_formed. rewrite Es, Et, Ec, Eg. repeat split; auto.
  destruct Hg as [-> | [g [_ Hs]]]; auto.
Qed.

Lemma loadMCPTools_well_formed :
  preserves (@well_formed World Args Payload Schema svc)
            (@loadMCPTools World Args Payload Schema svc).
Proof.
  intros s H. pose proof H as [H1 [H2 H3]]. unfold loadMCPTools. monad.
  destruct (settings (this s)) as [st|] eqn:Es; [|exact H].
  destruct (negb (Js.truthy_string (mcpUrl st))); [exact H|].
  destruct (mcpClient (this s)) eqn:Ec; [exact H|].
  destruct (new_URL (mcpUrl st)); [|exact H]. cbn.
  destruct (Client_connect _ _) as [[[]|e] w]; cbn.
  - destruct (Client_listTools _) as [[r|e] w']; cbn;
      unfold well_formed; cbn; (split; [|split]); auto;
      try (rewrite Es; intros _; discriminate); try (intros _; discriminate).
  - unfold well_formed; cbn. (split; [|split]); auto.
    all: try (rewrite Es; intros _; discriminate); try (intros _; discriminate).
Qed.

Lemma reloadMCPTools_well_formed :
  preserves (@well_formed World Args Payload Schema svc)
            (@reloadMCPTools World Args Payload Schema svc).
Proof.
  intros s [H1 _]. unfold reloadMCPTools. unfold bind at 1 2 3. unfold modify.
  cbn [this world trace].
  apply loadMCPTools_well_formed. unfold well_formed. cbn.
  repeat split; auto; try (intros H; now elim H).
Qed.

Lemma ensure_tools_well_formed :
  preserves (@well_formed World Args Payload Schema svc)
            (@ensure_tools World Args Payload Schema svc).
Proof.
  intros s H. unfold ensure_tools. monad.
  destruct (geminiTools (this s)); [exact H|].
  pose proof (loadMCPTools_ok s) as Hok.
  pose proof (loadMCPTools_well_formed s H) as Hw.
  destruct (loadMCPTools s) as [r s1]. cbn [fst snd] in *. subst r.
  destruct (geminiTools (this s1)) eqn:Eg; [exact Hw|].
  cbn. destruct Hw as [W1 [W2 W3]]. unfold well_formed. cbn.
  rewrite <- W2, Eg. auto.
Qed.

Lemma reloadSettings_well_formed :
  preserves (@well_formed World Args Payload Schema svc)
            (@reloadSettings World Args Payload Schema svc).
Proof.
  unfold reloadSettings.
  apply preserves_bind; [apply loadSettings_well_formed|]. intros _.
  apply preserves_bind; [apply initializeGemini_well_formed|]. intros _.
  apply loadMCPTools_well_formed.
Qed.

Lemma init_well_formed :
  preserves (@well_formed World Args Payload Schema svc)
            (@init World Args Payload Schema svc).
Proof.
  unfold init. apply preserves_try_catch; [|intros; apply preserves_ret].
  apply preserves_bind; [apply loadSettings_well_formed|]. intros _.
  apply preserves_bind; [apply initializeGemini_well_formed|]. intros _.
  apply loadMCPTools_well_formed.
Qed.

Lemma handle_well_formed (ev : BackgroundEvent) a
    (s : St World Args Schema (Background Schema)) :
  assistant_instance (this s) = Some a ->
  well_formed a ->
  exists a',
    assistant_instance (this (snd (handle ev s))) = Some a' /\
    well_formed a' /\
    isInitialized (this (snd (handle ev s))) = isInitialized (this s).
Proof.
  intros Ha Hw. destruct ev as [request | namespace]; cbn [handle].
  - destruct (@onMessage_preserves (@well_formed World Args Payload Schema svc)
                ensure_tools_well_formed reloadSettings_well_formed
                reloadMCPTools_well_formed request a s Ha Hw)
      as [a' [H1 [H2 H3]]].
    exists a'. unfold bind, ret.
    destruct (onMessage request s) as [[reply|e] s1]; cbn [snd] in *; auto.
  - unfold onStorageChanged.
    destruct (namespace =? "sync")%string; [|exists a; auto].
    unfold bind, gets. rewrite Ha. rewrite on_assistant_run.
    cbn [snd this assistant_instance isInitialized]. eexists.
    split; [reflexivity|]. split; [|reflexivity].
    apply (loadSettings_well_formed (mkSt a (world s) (trace s))). exact Hw.
Qed.

Lemma init_ok (s : St World Args Schema (SolscanAIAssistant Schema)) :
  fst (init s) = Ok tt.
Proof.
  unfold init, try_catch.
  match goal with
  | |- fst (match ?m with _ => _ end) = _ => destruct m as [[[]|e] s']
  end; reflexivity.
Qed.

Lemma booted_run (w : World) :
  booted (svc:=svc) w
  = let s1 := snd (init (mkSt (new_SolscanAIAssistant Schema) w [])) in
    mkSt (mkBackground (Some (this s1)) true) (world s1) (trace s1).
Proof.
  pose proof (init_ok (mkSt (new_SolscanAIAssistant Schema) w [])) as Hok.
  unfold booted, startup. unfold bind at 1. unfold modify at 1.
  cbn [this world trace unloaded isInitialized snd].
  unfold try_catch, bind. rewrite on_assistant_run.
  cbn [this world trace fst snd].
  destruct (init _) as [r s1]. cbn [fst snd] in *. subst r.
  reflexivity.
Qed.

Lemma booted_well_formed (w : World) :
  exists a,
    assistant_instance (this (booted (svc:=svc) w)) = Some a /\
    well_formed a /\
    isInitialized (this (booted (svc:=svc) w)) = true.
Proof.
  rewrite booted_run. cbn. eexists. split; [reflexivity|].
  split; [|reflexivity].
  apply (@init_well_formed (mkSt (new_SolscanAIAssistant Schema) w [])).
  apply new_assistant_well_formed.
Qed.

Lemma run_well_formed (evs : list BackgroundEvent)
    (s : St World Args Schema (Background Schema)) :
  (exists a,
     assistant_instance (this s) = Some a /\ well_formed a /\
     isInitialized (this s) = true) ->
  exists a,
    assistant_instance (this (run evs s)) = Some a /\
    well_formed a /\
    isInitialized (this (run evs s)) = true.
Proof.
  revert s. induction evs as [|ev rest IH]; intros s Hs; cbn [run]; [exact Hs|].
  apply IH. destruct Hs as [a [Ha [Hw Hi]]].
  destruct (handle_well_formed ev s Ha Hw) as [a' [Ha' [Hw' Hi']]].
  exists a'. rewrite Hi', Hi. auto.
Qed.

(** X13. Once start-up has finished, whatever messages and storage changes
    arrive, in whatever order and whatever the services answer, with each
    one handled before the next, the background keeps an assistant, stays
    initialised, and the assistant stays well formed: a model client is
    only held together with settings, the tool schema is the conversion of
    the listed tools, and listed tools are only held together with a tool
    client. *)
Theorem assistant_stays_well_formed (evs : list BackgroundEvent) (w : World) :
  exists a,
    assistant_instance (this (run evs (booted (svc:=svc) w))) = Some a /\
    well_formed a /\
    isInitialized (this (run evs (booted (svc:=svc) w))) = true.
Proof.
  apply run_well_formed.
  rewrite booted_run. cbn [this assistant_instance isInitialized].
  eexists. split; [reflexivity|]. split; [|reflexivity].
  apply (@init_well_formed (mkSt (new_SolscanAIAssistant Schema) w [])).
  apply new_assistant_well_formed.
Qed.

(** X22. Once start-up has finished, a diagnostics request is always
    answered from the assistant, never with the placeholder for a missing
    one: it reports the assistant as created and as initialised, even when
    nothing could be loaded, and it never reports a model client without
    settings.  The request changes nothing. *)
Theorem diagnostics_after_start (evs : list BackgroundEvent) (w : World)
    (request : MessageRequest) :
  action request = "diagnostics"%string ->
  exists d,
    onMessage request (run evs (booted (svc:=svc) w))
    = (Ok (DiagnosticsReply Args Payload d), run evs (booted (svc:=svc) w)) /\
    assistantCreated d = true /\
    assistantInitialized d = true /\
    (geminiInitialized d = true -> settingsLoaded d = true).
Proof.
  intros Hreq.
  destruct (run_well_formed evs _ (booted_well_formed w)) as [a [Ha [[Hw _] Hi]]].
  unfold onMessage. rewrite Hreq. cbn [String.eqb Ascii.eqb Bool.eqb].
  unfold bind, gets, ret. rewrite Ha, Hi.
  eexists. split; [reflexivity|]. cbn.
  split; [reflexivity|]. split; [reflexivity|].
  destruct (genAI a); [|discriminate]. intros _.
  destruct (settings a); [reflexivity|]. exfalso. apply Hw; [discriminate | reflexivity].
Qed.

(** X12. A change of the stored settings makes the assistant read them
    again and nothing else.  The change is answered by one storage read,
    after which the settings are the stored ones (with the defaults for
    what is missing), or the old ones when the read fails; it never
    creates, replaces or drops the model client, the tool client, the tool
    list or the tool schema, and a change outside [sync] does nothing.  So
    an assistant that started without a usable key still refuses to
    summarise after the key has been saved. *)
Theorem storage_change_reloads_settings_only (namespace : string) a
    (s : St World Args Schema (Background Schema)) :
  assistant_instance (this s) = Some a ->
  exists a',
    assistant_instance (this (snd (onStorageChanged namespace s))) = Some a' /\
    genAI a' = genAI a /\
    mcpClient a' = mcpClient a /\
    mcpTools a' = mcpTools a /\
    geminiTools a' = geminiTools a /\
    (namespace <> "sync"%string -> snd (onStorageChanged namespace s) = s) /\
    (genAI a = None ->
     forall sig w t,
       generateTransactionSummary sig (mkSt a' w t)
       = (Throw (mkError
            "Gemini AI not initialized. Please configure your API key."),
          mkSt a' w t)) /\
    (namespace = "sync"%string ->
     trace (snd (onStorageChanged namespace s)) = trace s ++ [EvStorageGet] /\
     a' = this (snd (loadSettings (mkSt a (world s) (trace s)))) /\
     match fst (storage_sync_get (world s)) with
     | Ok items =>
         exists st,
           settings a' = Some st /\
           geminiApiKey st = Js.or_string (stored_geminiApiKey items) "" /\
           mcpUrl st = Js.or_string (stored_mcpUrl items) "" /\
           geminiModel st = Js.or_string (stored_geminiModel items) "gemini-2.5-pro" /\
           responseLanguage st
             = Js.or_string (stored_responseLanguage items) "zh-CN"
     | Throw _ => settings a' = settings a
     end).
Proof.
  intros Ha.
  assert (Hsum : forall a' : SolscanAIAssistant Schema,
             genAI a' = genAI a -> genAI a = None ->
             forall sig w t,
               generateTransactionSummary sig (mkSt a' w t)
               = (Throw (mkError
                    "Gemini AI not initialized. Please configure your API key."),
                  mkSt a' w t)).
  { intros a' Ea Hg sig w t. unfold generateTransactionSummary, bind, gets, throw.
    cbn [this]. rewrite Ea, Hg. reflexivity. }
  unfold onStorageChanged.
  destruct (String.eqb_spec namespace "sync") as [->|Hns].
  - unfold bind, gets. rewrite Ha. rewrite on_assistant_run.
    cbn [snd this assistant_instance].
    unfold loadSettings. unfold bind, await, modify. cbn [this world trace].
    destruct (storage_sync_get (world s)) as [[items|e] w0];
      cbn [fst snd this world trace]; eexists; (split; [reflexivity|]);
      (split; [reflexivity|]); (split; [reflexivity|]); (split; [reflexivity|]);
      (split; [reflexivity|]); (split; [congruence|]);
      (split; [now apply Hsum|]); intros _;
      (split; [reflexivity|]); (split; [reflexivity|]).
    + eexists. split; [reflexivity|]. repeat split; reflexivity.
    + reflexivity.
  - exists a. cbn [snd ret].
    do 6 (split; [auto|]).
    split; [now apply Hsum | intros E; contradiction].
Qed.


(** ** The content script's requests *)

Lemma onMessage_ok (request : MessageRequest)
    (s : St World Args Schema (Background Schema)) :
  exists reply : Response Args Payload, fst (onMessage request s) = Ok reply.
Proof.
  unfold onMessage.
  destruct (action request =? "diagnostics")%string; [eexists; reflexivity|].
  destruct (action request =? "ping")%string; [eexists; reflexivity|].
  destruct (action request =? "getTransactionSummary")%string.
  { destruct (req_signature request) as [sig|]; [|eexists; reflexivity].
    destruct (Js.truthy_string sig); [|eexists; reflexivity].
    unfold bind at 1. unfold gets at 1.
    destruct (assistant_instance (this s)) as [a|]; [|eexists; reflexivity].
    rewrite reply_value. eexists. reflexivity. }
  destruct (action request =? "chatWithTransaction")%string.
  { destruct (req_signature request) as [sig|]; [|eexists; reflexivity].
    destruct (req_message request) as [msg|]; [|eexists; reflexivity].
    destruct (Js.truthy_string sig && Js.truthy_string msg); [|eexists; reflexivity].
    unfold bind at 1. unfold gets at 1.
    destruct (assistant_instance (this s)) as [a|]; [|eexists; reflexivity].
    rewrite reply_value. eexists. reflexivity. }
  destruct (action request =? "reloadSettings")%string.
  { unfold bind at 1. unfold gets at 1.
    destruct (assistant_instance (this s)) as [a|]; [|eexists; reflexivity].
    rewrite (@reply_value unit a (reloadSettings (svc:=svc))
               (fun _ => Success Args Payload)
               (fun error => Failure Args Payload (message error)) s).
    eexists. reflexivity. }
  destruct (action request =? "reloadMCPTools")%string.
  { unfold bind at 1. unfold gets at 1.
    destruct (assistant_instance (this s)) as [a|]; [|eexists; reflexivity].
    rewrite (@reply_value unit a (reloadMCPTools (svc:=svc))
               (fun _ => Success Args Payload)
               (fun error => Failure Args Payload (message error)) s).
    eexists. reflexivity. }
  eexists. reflexivity.
Qed.

(** A request to the background never throws in the content script and
    never touches the content script's fields. *)
Lemma sendMessage_frame (request : MessageRequest)
    (s : St World Args Schema (Page Schema)) :
  exists reply b w t,
    sendMessage request s
    = (Ok reply, mkSt (mkPage (content_script (this s)) b) w t).
Proof.
  unfold sendMessage, within.
  destruct (onMessage_ok request
              (mkSt (background (this s)) (world s) (trace s))) as [reply H].
  destruct (onMessage request _) as [r s']. cbn [fst] in H. subst r.
  exists reply, (this s'), (world s'), (trace s'). reflexivity.
Qed.

Lemma checkExtensionConnection_cases (s : St World Args Schema (Page Schema)) :
  checkExtensionConnection s = (Ok true, s) \/
  exists e, checkExtensionConnection s = (Throw e, s).
Proof.
  destruct (chrome_runtime (world s)) as [| |id] eqn:E.
  - right. unfold checkExtensionConnection, try_catch, throw. rewrite E.
    eexists. reflexivity.
  - right. unfold checkExtensionConnection, try_catch, throw. rewrite E.
    eexists. reflexivity.
  - left. now apply checkExtensionConnection_ready with (id := id).
Qed.

(** X18. Loading the summary never throws and always settles.  While a
    load is running a second one does nothing at all; otherwise the panel
    ends with a result or with an error text, never with the spinner, and
    the loading flag is off again.  The signature, the language, the chat
    bubbles and the conversation history are not touched. *)
Theorem summary_load_always_settles (s : St World Args Schema (Page Schema)) :
  let c := content_script (this s) in
  let c' := content_script (this (snd (loadTransactionSummary s))) in
  fst (loadTransactionSummary s) = Ok tt /\
  transactionSignature c' = transactionSignature c /\
  currentLanguage c' = currentLanguage c /\
  chatMessages c' = chatMessages c /\
  conversationHistory c' = conversationHistory c /\
  if isLoading c then snd (loadTransactionSummary s) = s
  else isLoading c' = false /\
       exists text, summaryContent c' = SummaryResult text \/
                    summaryContent c' = SummaryError text.
Proof.
  destruct s as [[c b] w t]. cbn [this content_script]. cbv zeta.
  remember (loadTransactionSummary _) as R eqn:HR.
  unfold loadTransactionSummary in HR. unfold bind at 1 in HR.
  unfold on_content at 1, within, gets in HR.
  cbn [this world trace content_script fst snd] in HR.
  destruct (isLoading c) eqn:El; [subst R; repeat split; reflexivity|].
  unfold bind at 1 in HR. unfold on_content at 1, within, modify in HR.
  cbn [this world trace content_script background fst snd] in HR.
  unfold bind at 1 in HR. unfold on_content at 1, within, modify in HR.
  cbn [this world trace content_script background fst snd] in HR.
  unfold bind at 1 in HR. unfold try_catch at 1 in HR. unfold bind at 1 in HR.
  match type of HR with
  | context [checkExtensionConnection ?s1] =>
      destruct (checkExtensionConnection_cases s1) as [E | [e E]]; rewrite E in HR
  end.
  - unfold bind at 1 in HR. unfold on_content at 1, within, gets in HR.
    cbn [this world trace content_script background fst snd] in HR.
    unfold bind at 1 in HR.
    match type of HR with
    | context [sendMessage ?r ?s1] =>
        destruct (sendMessage_frame r s1) as (reply & b' & w' & t' & E');
        rewrite E' in HR
    end.
    cbn [this content_script] in HR.
    destruct reply; unfold throw, bind, on_content, within, gets, modify in HR;
      cbn [this world trace content_script background fst snd] in HR; subst R;
      cbn [this world trace content_script background fst snd
           transactionSignature isLoading conversationHistory currentLanguage
           chatMessages summaryContent set_isLoading set_summaryContent];
      repeat (split; [reflexivity|]);
      eexists; ((left; reflexivity) || (right; reflexivity)).
  - unfold bind, on_content, within, gets, modify in HR.
    cbn [this world trace content_script background fst snd] in HR. subst R.
    cbn [this world trace content_script background fst snd
         transactionSignature isLoading conversationHistory currentLanguage
         chatMessages summaryContent set_isLoading set_summaryContent].
    repeat (split; [reflexivity|]).
    eexists. right. reflexivity.
Qed.



(** ** Languages and start-up of the content script *)

Lemma or_string_truthy (o : option string) (d : string) :
  Js.truthy_string d = true -> Js.truthy_string (Js.or_string o d) = true.
Proof.
  intros Hd. destruct o as [x|]; cbn; [|exact Hd].
  destruct (Js.truthy_string x) eqn:E; [exact E | exact Hd].
Qed.

(** X17. The content script never fails to pick a language, and it is
    never empty.  With a language stored, the panel texts and the
    assistant's answers use the same language; with none stored, or an
    empty one, the content script falls back to [en-US] while the
    assistant's settings fall back to [zh-CN].  When the storage read
    fails the content script still settles on [en-US], while loading the
    assistant's settings throws. *)
Theorem interface_and_answer_language (c : ContentScript)
    (a : SolscanAIAssistant Schema) (w : World)
    (t t' : list (Event Args Schema)) :
  let page := loadLanguageSetting (mkSt c w t) in
  let loaded := loadSettings (mkSt a w t') in
  fst page = Ok tt /\
  Js.truthy_string (currentLanguage (this (snd page))) = true /\
  match fst (storage_sync_get w) with
  | Ok items =>
      exists st,
        settings (this (snd loaded)) = Some st /\
        if Js.truthy_opt (stored_responseLanguage items)
        then stored_responseLanguage items = Some (currentLanguage (this (snd page))) /\
             responseLanguage st = currentLanguage (this (snd page))
        else currentLanguage (this (snd page)) = "en-US"%string /\
             responseLanguage st = "zh-CN"%string
  | Throw e =>
      currentLanguage (this (snd page)) = "en-US"%string /\
      fst loaded = Throw e
  end.
Proof.
  cbv zeta. unfold loadLanguageSetting, loadSettings. monad.
  cbn [this world trace].
  destruct (storage_sync_get w) as [[items|e] w']; cbn [fst snd this currentLanguage
    set_currentLanguage settings set_settings].
  - split; [reflexivity|]. split; [now apply or_string_truthy|].
    eexists. split; [reflexivity|]. cbn [responseLanguage].
    destruct (stored_responseLanguage items) as [l|]; cbn [Js.truthy_opt Js.or_string];
      [|split; reflexivity].
    destruct (Js.truthy_string l); split; reflexivity.
  - repeat split; reflexivity.
Qed.

(** X20. Start-up of the content script never throws, whatever the
    storage does, and leaves a non-empty language.  The signature is the
    one read from the path; only when it is non-empty is the panel set up
    and the page watched, so a path such as [/tx/] or one without a [tx]
    segment gets no panel and no observer. *)
Theorem content_start_skips_other_pages (href pathname : string)
    (s : St World Args Schema ContentScript) :
  let s' := snd (ContentScript_init href pathname s) in
  let signature := extractTransactionSignature pathname in
  transactionSignature (this s') = signature /\
  Js.truthy_string (currentLanguage (this s')) = true /\
  conversationHistory (this s') = conversationHistory (this s) /\
  chatMessages (this s') = chatMessages (this s) /\
  isLoading (this s') = isLoading (this s) /\
  if Js.truthy_opt signature
  then fst (ContentScript_init href pathname s) = Ok (Some href) /\
       summaryContent (this s') = Welcome
  else fst (ContentScript_init href pathname s) = Ok None /\
       summaryContent (this s') = summaryContent (this s).
Proof.
  cbv zeta. remember (ContentScript_init href pathname s) as R eqn:HR.
  unfold ContentScript_init, loadLanguageSetting in HR.
  unfold bind, try_catch, await, modify, gets in HR.
  destruct s as [c w t]. cbn [this world trace] in HR.
  destruct (storage_sync_get w) as [[items|e] w'];
    cbn [fst snd this world trace transactionSignature set_transactionSignature] in HR;
    destruct (Js.truthy_opt (extractTransactionSignature pathname));
    cbn [negb] in HR; unfold ret in HR; subst R;
    cbn [fst snd this world trace transactionSignature set_transactionSignature
         currentLanguage set_currentLanguage conversationHistory chatMessages
         isLoading summaryContent initializeUI set_summaryContent];
    repeat split; try reflexivity; now apply or_string_truthy.
Qed.

(** ** The summary *)

Lemma first_text_non_empty (ps : option (list (Part Args))) (fallback : string) :
  fallback <> ""%string -> first_text ps fallback <> ""%string.
Proof.
  intros Hf. unfold first_text. destruct ps as [ps|]; [|exact Hf].
  destruct (find _ ps) as [part|] eqn:E; [|exact Hf].
  apply find_some in E. destruct E as [_ E].
  destruct (text part) as [t|]; [|exact Hf].
  cbn in E. unfold Js.truthy_string in E.
  destruct (String.eqb_spec t ""); [discriminate | assumption].
Qed.

(** X23. A well-formed assistant that holds a model client answers a
    summary request with exactly one model call and nothing else: no tool
    discovery, no tool call, no change to its fields.  The request offers
    no tools, even when a schema is held, and its contents are the one
    user turn with the summary prompt.  A summary that is returned has no
    tool calls and no tool outcomes, and its text is never empty. *)
Theorem summary_is_one_plain_model_call (sig : string)
    (s : St World Args Schema (SolscanAIAssistant Schema)) :
  well_formed (this s) ->
  genAI (this s) <> None ->
  exists st outcome w,
    settings (this s) = Some st /\
    let request :=
      request_of st None
        [user_content (getTransactionSummaryPrompt sig (responseLanguage st))] in
    generateTransactionSummary sig s
    = (outcome, mkSt (this s) w (trace s ++ [EvGenerateContent request])) /\
    forall data,
      outcome = Ok data ->
      summary_toolCalls data = [] /\
      summary_toolResults data = [] /\
      summary data <> ""%string.
Proof.
  intros [Hw _] Hg.
  destruct (settings (this s)) as [st|] eqn:Hst; [|now elim (Hw Hg)].
  destruct (genAI (this s)) as [g|] eqn:Eg; [|now elim Hg].
  unfold generateTransactionSummary, settings_of. monad. rewrite Eg, Hst.
  cbn [this world trace].
  destruct (models_generateContent g _ (world s)) as [[resp|e] w];
    eexists _, _, _; (split; [reflexivity|]); (split; [reflexivity|]);
    intros data [= <-]; cbn.
  split; [reflexivity|]. split; [reflexivity|].
  apply first_text_non_empty. discriminate.
Qed.

(** ** The tool round and its follow-up turn *)

(** X24. When the first model response requests the calls [calls] (at
    least one) and the response language is not a name inherited from
    [Object.prototype], the loop yields one outcome per request, in request
    order; the tool service is called once per request, in request order,
    between the two model calls; and exactly one more model call follows,
    whose contents are one user turn: the text of the original prompt,
    then the heading of the tool-results section in the response language
    (in English for a code without a section), the tool results, one entry
    per outcome, and the closing sentence.  The history is not part of
    that request. *)
Theorem tool_round_then_single_follow_up sig msg hist lang s g st resp w calls :
  let s1 := snd (ensure_tools s) in
  let context := getChatPrompt sig msg [] (responseLanguage st) in
  let request :=
    request_of st (geminiTools (this s1))
               (history_contents hist ++ [user_content context]) in
  let section_language :=
    if in_dec string_dec (responseLanguage st) supported_languages
    then responseLanguage st else "en-US"%string in
  genAI (this s) = Some g ->
  settings (this s) = Some st ->
  models_generateContent g request (world s1) = (Ok resp, w) ->
  requested_calls (candidate_parts resp) = calls ->
  calls <> [] ->
  ~ In (responseLanguage st) Js.Object_prototype_names ->
  exists results outcome s' prompt heading closing,
    chatWithTransaction sig msg hist lang s = (outcome, s') /\
    map (@tool Payload) results = map (@call_name Args) calls /\
    length results = length calls /\
    context = Js.Str prompt /\
    Js.includes prompt sig = true /\
    In (section_language, (heading, closing)) tool_results_sections /\
    (let follow_up :=
       request_of st (geminiTools (this s1))
         [user_content
            (Js.Str (prompt ++ heading ++ toolResultsText results ++ closing)%string)] in
     trace s' = trace s1 ++ [EvGenerateContent request]
                ++ tool_service_calls Schema (mcpClient (this s1)) calls
                ++ [EvGenerateContent follow_up]) /\
    (forall r, In r results ->
       Js.includes (toolResultsText results) (tool_result_text r) = true) /\
    (forall data, outcome = Ok data ->
                  toolCalls data = calls /\ toolResults data = results) /\
    (tools_need_client (this s) -> geminiTools (this s1) <> None ->
     tool_service_calls Schema (mcpClient (this s1)) calls
       = map (fun call => EvCallTool (call_name call) (call_args call)) calls).
Proof.
  intros s1 context request section_language Hg Hst Hresp Hcalls Hne Hlang.
  destruct (@tool_round_run _ _ _ _ svc sig msg hist lang s g st resp w calls
              Hg Hst Hresp Hcalls Hne)
    as (results & outcome & s' & Hrun & Hnames & Hlen & Htrace & Hdata & Hclient).
  destruct (chat_prompt_is_text sig msg [] Hlang) as (prompt & Hprompt & Hsig).
  destruct (addition_is_section (toolResultsText results) Hlang)
    as (heading & closing & Hin & Hadd).
  exists results, outcome, s', prompt, heading, closing.
  split; [exact Hrun|]. split; [exact Hnames|]. split; [exact Hlen|].
  split; [exact Hprompt|]. split; [exact Hsig|]. split; [exact Hin|].
  split.
  { cbv zeta in Htrace |- *. rewrite Hadd, Hprompt in Htrace.
    unfold Js.plus in Htrace. cbn [Js.to_string] in Htrace.
    unfold request, context, s1. rewrite Hprompt. exact Htrace. }
  split; [intros r Hr; now apply results_text_includes_entry|].
  split; [exact Hdata | exact Hclient].
Qed.

End Further.

(** ** The signature in the path *)

Lemma findIndex_Some (A : Type) (p : A -> bool) (xs : list A) i :
  findIndex p xs = Some i ->
  exists pre x post,
    xs = pre ++ x :: post /\ length pre = i /\ p x = true /\
    Forall (fun y => p y = false) pre.
Proof.
  revert i. induction xs as [|x rest IH]; intros i; cbn [findIndex]; [discriminate|].
  destruct (p x) eqn:Ex.
  - intros [= <-]. exists [], x, rest. repeat split; auto.
  - destruct (findIndex p rest) as [j|]; [|discriminate]. intros [= <-].
    destruct (IH j eq_refl) as (pre & y & post & -> & Hl & Hy & Hpre).
    exists (x :: pre), y, post. cbn. repeat split; auto.
Qed.

Lemma findIndex_None (A : Type) (p : A -> bool) (xs : list A) :
  findIndex p xs = None -> Forall (fun y => p y = false) xs.
Proof.
  induction xs as [|x rest IH]; cbn [findIndex]; [constructor|].
  destruct (p x) eqn:Ex; [discriminate|].
  destruct (findIndex p rest); [discriminate|]. intros _. constructor; auto.
Qed.

Lemma findIndex_first (A : Type) (p : A -> bool) (pre : list A) x post :
  Forall (fun y => p y = false) pre -> p x = true ->
  findIndex p (pre ++ x :: post) = Some (length pre).
Proof.
  intros Hpre Hx. induction Hpre as [|y pre Hy _ IH]; cbn [app findIndex length].
  - now rewrite Hx.
  - now rewrite Hy, IH.
Qed.

Lemma split_slash_not_nil s : split_slash s <> [].
Proof.
  destruct s as [|c rest]; cbn [split_slash]; [discriminate|].
  destruct (Ascii.eqb c "/"); [discriminate|].
  destruct (split_slash rest); discriminate.
Qed.

Lemma includes_slash_cons (c : ascii) (rest : string) :
  Js.includes (String c rest) "/" = (Ascii.eqb c "/" || Js.includes rest "/")%bool.
Proof.
  cbn [Js.includes String.prefix].
  destruct (ascii_dec "/" c) as [<-|Hc].
  - destruct rest; reflexivity.
  - destruct (Ascii.eqb_spec c "/"); [congruence | reflexivity].
Qed.

Lemma split_slash_parts s :
  Forall (fun part => Js.includes part "/" = false) (split_slash s).
Proof.
  induction s as [|c rest IH]; cbn [split_slash].
  - repeat constructor.
  - destruct (Ascii.eqb c "/") eqn:Ec.
    + constructor; [reflexivity | exact IH].
    + destruct (split_slash rest) as [|part parts].
      * repeat constructor. rewrite includes_slash_cons, Ec. reflexivity.
      * inversion IH as [|? ? Hp Hps]; subst. constructor; [|exact Hps].
        rewrite includes_slash_cons, Ec. exact Hp.
Qed.

Lemma split_slash_segment (part : string) :
  Js.includes part "/" = false -> split_slash part = [part].
Proof.
  induction part as [|c rest IH]; [reflexivity|].
  rewrite includes_slash_cons. cbn [split_slash].
  destruct (Ascii.eqb c "/"); [discriminate|]. intros H. now rewrite (IH H).
Qed.

Lemma split_slash_app (part rest : string) :
  Js.includes part "/" = false ->
  split_slash (part ++ String "/" rest)%string = part :: split_slash rest.
Proof.
  induction part as [|c part IH]; cbn [append].
  - intros _. reflexivity.
  - rewrite includes_slash_cons. cbn [split_slash].
    destruct (Ascii.eqb c "/"); [discriminate|]. intros H. now rewrite (IH H).
Qed.

(** Splitting undoes joining with ["/"]. *)
Lemma split_slash_join (parts : list string) :
  parts <> [] ->
  Forall (fun part => Js.includes part "/" = false) parts ->
  split_slash (Js.join "/" parts) = parts.
Proof.
  induction parts as [|part rest IH]; [congruence|]. intros _ H.
  inversion H as [|? ? Hp Hr]; subst.
  destruct rest as [|next rest].
  - cbn. now apply split_slash_segment.
  - change (Js.join "/" (part :: next :: rest))
      with (part ++ String "/" (Js.join "/" (next :: rest)))%string.
    rewrite split_slash_app by exact Hp. f_equal. apply IH; [discriminate | exact Hr].
Qed.

(** X14. In a path made of segments joined by [/], the signature is the
    segment that follows the first segment equal to [tx], whatever comes
    before and after it. *)
Theorem signature_follows_first_tx_segment (pre post : list string) (sig : string) :
  Forall (fun part => Js.includes part "/" = false) (pre ++ sig :: post) ->
  ~ In "tx"%string pre ->
  extractTransactionSignature (Js.join "/" (pre ++ "tx"%string :: sig :: post))
  = Some sig.
Proof.
  intros Hparts Hpre. unfold extractTransactionSignature.
  rewrite split_slash_join.
  - rewrite (@findIndex_first _ (fun part => part =? "tx")%string pre "tx" (sig :: post)).
    + rewrite length_app. cbn [length].
      destruct (Nat.ltb_spec (length pre) (length pre + S (S (length post)) - 1)%nat);
        [|exfalso; lia].
      rewrite nth_error_app2 by lia.
      replace (length pre + 1 - length pre)%nat with 1%nat by lia. reflexivity.
    + apply Forall_forall. intros y Hy. destruct (String.eqb_spec y "tx"); [|reflexivity].
      subst y. contradiction.
    + reflexivity.
  - destruct pre; discriminate.
  - apply Forall_app in Hparts. destruct Hparts as [H1 H2].
    apply Forall_app. split; [exact H1|]. constructor; [reflexivity | exact H2].
Qed.

(** X15. A signature read from the path never contains [/] and is the
    segment right after the first [tx] segment; no signature is found
    exactly when no segment but the last one is [tx], so a path that ends
    in [/tx] has none while [/tx/] has the empty one. *)
Theorem signature_only_after_tx_segment (pathname : string) :
  match extractTransactionSignature pathname with
  | Some sig =>
      Js.includes sig "/" = false /\
      exists pre post,
        split_slash pathname = pre ++ "tx"%string :: sig :: post /\
        ~ In "tx"%string pre
  | None => ~ In "tx"%string (removelast (split_slash pathname))
  end.
Proof.
  unfold extractTransactionSignature.
  pose proof (split_slash_parts pathname) as Hparts.
  destruct (findIndex _ (split_slash pathname)) as [i|] eqn:Ei.
  - destruct (findIndex_Some _ _ Ei) as (pre & x & post & E & Hl & Hx & Hpre).
    apply String.eqb_eq in Hx. subst x.
    assert (Hnot : ~ In "tx"%string pre).
    { intros Hin. rewrite Forall_forall in Hpre. specialize (Hpre _ Hin).
      discriminate Hpre. }
    rewrite E in *. rewrite length_app.
    destruct post as [|sig post]; cbn [length];
      match goal with
      | |- context [Nat.ltb ?x ?y] => destruct (Nat.ltb_spec x y) as [Hlt|Hge]
      end; try (exfalso; cbn [length] in *; lia).
    + rewrite removelast_last. exact Hnot.
    + rewrite nth_error_app2 by lia.
      replace (i + 1 - length pre)%nat with 1%nat by lia. cbn [nth_error].
      split; [|exists pre, post; auto].
      apply Forall_app in Hparts. destruct Hparts as [_ H].
      inversion H as [|? ? _ H']; subst. inversion H'; subst. assumption.
  - apply findIndex_None in Ei. intros Hin.
    assert (Hin' : In "tx"%string (split_slash pathname)).
    { destruct (split_slash pathname) as [|p ps] using rev_ind; [contradiction|].
      rewrite removelast_last in Hin. apply in_or_app. now left. }
    rewrite Forall_forall in Ei. specialize (Ei _ Hin'). discriminate Ei.
Qed.

(** ** Navigation *)

(** X16. The mutation observer reacts once to a change of address: a
    second call with the same address changes nothing more.  It either
    leaves the content script exactly as it was, or the address has
    changed to a path with a non-empty signature other than the current
    one, and then the new signature is taken, the history and the bubbles
    are emptied and the panel shows the welcome text, while the language
    and the loading flag stay. *)
Theorem navigation_resets_conversation_once (href pathname : string) (o : Observed) :
  let o' := onMutation href pathname o in
  onMutation href pathname o' = o' /\
  (script o' = script o \/
   href <> currentUrl o /\
   transactionSignature (script o') <> transactionSignature (script o) /\
   transactionSignature (script o') = extractTransactionSignature pathname /\
   Js.truthy_opt (transactionSignature (script o')) = true /\
   conversationHistory (script o') = [] /\
   chatMessages (script o') = [] /\
   summaryContent (script o') = Welcome /\
   currentLanguage (script o') = currentLanguage (script o) /\
   isLoading (script o') = isLoading (script o)).
Proof.
  cbv zeta. split.
  - assert (Hurl : currentUrl (onMutation href pathname o) = href).
    { unfold onMutation.
      destruct (String.eqb_spec href (currentUrl o)) as [E|N]; cbn [negb];
        [now symmetry | reflexivity]. }
    remember (onMutation href pathname o) as o' eqn:Ho'.
    unfold onMutation. now rewrite Hurl, String.eqb_refl.
  - unfold onMutation, navigate.
    destruct (String.eqb_spec href (currentUrl o)) as [E|N]; cbn [negb script];
      [left; reflexivity|].
    destruct (extractTransactionSignature pathname) as [sig|]; [|left; reflexivity].
    destruct (Js.truthy_string sig) eqn:Et; cbn [andb]; [|left; reflexivity].
    destruct (transactionSignature (script o)) as [old|] eqn:Eo.
    + destruct (String.eqb_spec sig old) as [->|Hne]; cbn [negb];
        [left; reflexivity|].
      right. cbn. repeat split; auto. congruence.
    + right. cbn. repeat split; auto. discriminate.
Qed.

(** ** The chat prompt *)

Lemma includes_after (a x y : string) :
  Js.includes x y = true -> Js.includes (a ++ x)%string y = true.
Proof.
  intros H. pose proof (@includes_inside a x "" y H) as H'.
  now rewrite append_empty in H'.
Qed.

(** X21. For every language code that is not a name inherited from
    [Object.prototype], supported or not, the chat prompt is a text that
    contains the signature, the user's question word for word, and every
    earlier turn as [role: content]. *)
Theorem chat_prompt_carries_question (signature userMessage : string)
    (conversationHistory : list ChatMessage) (language : string) :
  ~ In language Js.Object_prototype_names ->
  exists text,
    getChatPrompt signature userMessage conversationHistory language = Js.Str text /\
    Js.includes text signature = true /\
    Js.includes text userMessage = true /\
    forall turn,
      In turn conversationHistory ->
      Js.includes text (role_text (role turn) ++ ": " ++ content turn)%string = true.
Proof.
  intros Hp.
  assert (Hsup : forall language,
             In language supported_languages ->
             exists text,
               getChatPrompt signature userMessage conversationHistory language
                 = Js.Str text /\
               Js.includes text signature = true /\
               Js.includes text userMessage = true /\
               forall turn,
                 In turn conversationHistory ->
                 Js.includes text
                   (role_text (role turn) ++ ": " ++ content turn)%string = true).
  { clear. intros language [<- | [<- | [<- | [<- | []]]]];
      (eexists; split; [reflexivity|]; split; [apply includes_app|]; split;
       [ do 5 apply includes_after; apply (includes_app "" userMessage)
       | intros turn Hin; do 3 apply includes_after;
         apply (@includes_inside "" (history_text conversationHistory));
         unfold history_text; apply join_includes;
         apply (in_map (fun msg => role_text (role msg) ++ ": " ++ content msg)%string);
         exact Hin ]). }
  destruct (in_dec string_dec language supported_languages) as [Hs|Hs].
  - now apply Hsup.
  - rewrite (proj2 (prompts_default_for_other_codes signature userMessage
                      conversationHistory Hs Hp)).
    apply Hsup. cbn. tauto.
Qed.

(** ** Instances of the further properties on the sample scenarios *)

Lemma tool_calls_without_client_witness :
  mcpClient configured = None /\
  execute_tool_calls [transaction_call; balance_call] []
    (start configured (world_of [] []))
  = (Ok [ ToolFailure Json "get_solana_transaction" "MCP client not initialized";
          ToolFailure Json "get_balance" "MCP client not initialized" ],
     start configured (world_of [] [])).
Proof.
  split; [reflexivity|].
  apply (@tool_calls_without_client_all_fail _ _ _ _ services
           [transaction_call; balance_call] []
           (start configured (world_of [] []))).
  reflexivity.
Defined.

Lemma returned_outcomes_witness :
  exists data,
    fst (chatWithTransaction "SIG123" "What fee was paid?" [] None one_tool_call)
      = Ok data /\
    map (@tool Json) (toolResults data) = map (@call_name Json) (toolCalls data).
Proof.
  eexists. split; [reflexivity|].
  apply (@returned_outcomes_match_returned_calls _ _ _ _ services
           "SIG123" "What fee was paid?" [] None one_tool_call _
           (snd (chatWithTransaction "SIG123" "What fee was paid?" [] None
                   one_tool_call))).
  reflexivity.
Defined.

Lemma follow_up_witness :
  fst (chatWithTransaction "SIG123" "What fee was paid?" [] None one_tool_call)
  = Ok {| response := "The fee was 0.000005 SOL.";
          toolCalls := [transaction_call];
          toolResults := [ToolSuccess "get_solana_transaction" transaction_payload] |}.
Proof.
  pose proof (@follow_up_decides_the_answer _ _ _ _ services
                "SIG123" "What fee was paid?" [] None one_tool_call
                gemini settings_en (calls_reply [transaction_call])
                (world_of [("get_solana_transaction", Ok transaction_payload)]
                          [Ok (text_reply "The fee was 0.000005 SOL.")])
                [transaction_call]
                [ToolSuccess "get_solana_transaction" transaction_payload]
                (snd (execute_tool_calls [transaction_call] []
                        (mkSt with_tools
                           (world_of [("get_solana_transaction", Ok transaction_payload)]
                              [Ok (text_reply "The fee was 0.000005 SOL.")])
                           (trace (snd (ensure_tools one_tool_call))
                            ++ [EvGenerateContent
                                  (request_of settings_en (geminiTools with_tools)
                                     (history_contents []
                                      ++ [user_content
                                            (getChatPrompt "SIG123" "What fee was paid?"
                                               [] "en-US")]))]))))
                eq_refl eq_refl eq_refl eq_refl ltac:(discriminate) eq_refl) as H.
  cbv zeta in H.
  match type of H with
  | match ?scrutinee with _ => _ end =>
      change scrutinee
        with (Ok (text_reply "The fee was 0.000005 SOL."),
              world_of [("get_solana_transaction", Ok transaction_payload)] []) in H
  end.
  cbv beta iota in H. rewrite H. reflexivity.
Defined.


Lemma invalid_request_witness :
  onMessage (mkMessageRequest "chatWithTransaction" (Some "SIG123") (Some "") None)
            latched_background
  = (Ok (Failure Json Json "Transaction signature and message are required"),
     latched_background).
Proof.
  apply (@invalid_requests_are_refused _ _ _ _ services
           (mkMessageRequest "chatWithTransaction" (Some "SIG123") (Some "") None)
           latched_background).
  right. split; reflexivity.
Defined.

Lemma other_request_witness :
  snd (onMessage (mkMessageRequest "summarize" (Some "SIG123") None None)
                 latched_background)
  = latched_background.
Proof.
  apply (@other_requests_change_nothing _ _ _ _ services
           (mkMessageRequest "summarize" (Some "SIG123") None None)
           latched_background).
  cbn. intros [H|[H|[H|[H|[]]]]]; discriminate H.
Defined.

Lemma storage_change_witness :
  exists a',
    assistant_instance
      (this (snd (onStorageChanged "sync"
                    (start (mkBackground (Some without_key) true) (world_of [] []))))) 
      = Some a' /\
    genAI a' = None /\
    exists st, settings a' = Some st /\ geminiApiKey st = "AIza-sample"%string.
Proof.
  destruct (@storage_change_reloads_settings_only _ _ _ _ services
              "sync" without_key
              (start (mkBackground (Some without_key) true) (world_of [] []))
              eq_refl)
    as (a' & Ha & Hg & _ & _ & _ & _ & _ & Hread).
  exists a'. split; [exact Ha|]. split; [exact Hg|].
  destruct (Hread eq_refl) as (_ & _ & st & Hst & Hkey & _).
  exists st. split; [exact Hst | exact Hkey].
Defined.

Lemma signature_witness :
  extractTransactionSignature "/tx/5abc/details" = Some "5abc"%string.
Proof.
  apply (@signature_follows_first_tx_segment [""%string] ["details"%string] "5abc").
  - repeat constructor.
  - intros [H|[]]. discriminate H.
Defined.

Lemma chat_prompt_witness :
  exists text,
    getChatPrompt "SIG123" "What fee was paid?" [] "fr-FR" = Js.Str text /\
    Js.includes text "What fee was paid?" = true.
Proof.
  destruct (@chat_prompt_carries_question "SIG123" "What fee was paid?" [] "fr-FR")
    as (text & Htext & _ & Hq & _).
  - cbn. intuition discriminate.
  - exists text. split; assumption.
Defined.

Lemma diagnostics_witness :
  exists d,
    fst (onMessage (mkMessageRequest "diagnostics" None None None)
           (run [ StorageChanged "sync";
                  Message (mkMessageRequest "reloadMCPTools" None None None) ]
                (booted (world_of [] []))))
      = Ok (DiagnosticsReply Json Json d) /\
    assistantInitialized d = true.
Proof.
  destruct (@diagnostics_after_start _ _ _ _ services
              [ StorageChanged "sync";
                Message (mkMessageRequest "reloadMCPTools" None None None) ]
              (world_of [] [])
              (mkMessageRequest "diagnostics" None None None) eq_refl)
    as (d & Hrun & _ & Hinit & _).
  exists d. rewrite Hrun. split; [reflexivity | exact Hinit].
Defined.

Lemma summary_witness :
  exists outcome w,
    generateTransactionSummary "SIG123"
      (start with_tools (world_of [] [Ok (text_reply "A token transfer.")]))
    = (outcome,
       mkSt with_tools w
         [EvGenerateContent
            (request_of settings_en None
               [user_content (getTransactionSummaryPrompt "SIG123" "en-US")])]).
Proof.
  destruct (@summary_is_one_plain_model_call _ _ _ _ services "SIG123"
              (start with_tools (world_of [] [Ok (text_reply "A token transfer.")])))
    as (st & outcome & w & Hst & Hrun & _).
  - repeat split; intros; discriminate.
  - discriminate.
  - injection Hst as <-. exists outcome, w. exact Hrun.
Defined.

Lemma tool_round_witness :
  exists results outcome s' prompt,
    chatWithTransaction "SIG123" "What fee was paid?" [] None one_tool_call
      = (outcome, s') /\
    map (@tool Json) results = ["get_solana_transaction"] /\
    getChatPrompt "SIG123" "What fee was paid?" [] "en-US" = Js.Str prompt /\
    exists first rest,
      trace s'
      = first
        :: EvCallTool "get_solana_transaction" (call_args transaction_call)
        :: rest.
Proof.
  destruct (@tool_round_then_single_follow_up _ _ _ _ services
              "SIG123" "What fee was paid?" [] None one_tool_call
              gemini settings_en (calls_reply [transaction_call])
              (world_of [("get_solana_transaction", Ok transaction_payload)]
                        [Ok (text_reply "The fee was 0.000005 SOL.")])
              [transaction_call]
              eq_refl eq_refl eq_refl eq_refl ltac:(discriminate)
              ltac:(cbn; intuition discriminate))
    as (results & outcome & s' & prompt & heading & closing
        & Hrun & Hnames & _ & Hprompt & _ & _ & Htrace & _).
  exists results, outcome, s', prompt.
  split; [exact Hrun|]. split; [exact Hnames|]. split; [exact Hprompt|].
  cbv zeta in Htrace. rewrite Htrace. eexists _, _. reflexivity.
Defined.
